(** * Mosquitoes-Classification-Models: the training pipeline, in Rocq

    A shallow embedding of the data pipeline of [Models/AST.py],
    [Models/LSTM.py], [Models/MLP.py] and [Models/ResidualModel.py]:
    the [windows] generator, the patch splitter, the class balancer, the
    four dataset loaders and the cross-validation trainer.

    Python integers are [Z]; a Python exception is a value of [exn]
    carried by the result type [res]; loops that Python may run forever
    take a fuel argument and answer [Timeout] when it is used up. *)

From Stdlib Require Import Ascii String.
From stdpp Require Import base numbers list sets sorting strings pretty.
From Stdlib Require Import Lia Lqa ZArith QArith Qabs Qminmax.

Local Open Scope string_scope.
Local Open Scope list_scope.
Local Open Scope Z_scope.
#[local] Set Warnings "-clear-no-such-hyp,-register-all".

(** ** Python prelude *)

(** The exceptions the modelled code can meet.  All of them derive from
    Python's [Exception], so [except Exception] catches every one. *)
Inductive exn : Type :=
  | ZeroDivisionError
  | ValueError
  | IndexError
  | TypeError
  | AttributeError
  | FileNotFoundError
  | NotADirectoryError
  | LibraryError (msg : string).

(** Outcome of running a piece of Python: a value, a raised exception, or
    no answer within the fuel given (the program is still running). *)
Inductive res (A : Type) : Type :=
  | Ok (a : A)
  | Raise (e : exn)
  | Timeout.
Arguments Ok {A} a.
Arguments Raise {A} e.
Arguments Timeout {A}.

Definition res_bind {A B} (m : res A) (k : A -> res B) : res B :=
  match m with
  | Ok a => k a
  | Raise e => Raise e
  | Timeout => Timeout
  end.

(** [a // b] on Python ints: floor division, [ZeroDivisionError] on [b = 0]. *)
Definition py_floordiv (a b : Z) : res Z :=
  if b =? 0 then Raise ZeroDivisionError else Ok (a `div` b).

(** [a % b] on Python ints: the sign follows the divisor. *)
Definition py_mod (a b : Z) : res Z :=
  if b =? 0 then Raise ZeroDivisionError else Ok (a `mod` b).

(** A slice bound as Python normalises it against a length [n]:
    a negative bound counts from the end, and the result is clamped
    into [0 .. n]. *)
Definition py_slice_bound (n i : Z) : Z :=
  if i <? 0 then Z.max (i + n) 0 else Z.min i n.

(** [l[i:j]] for a sequence [l]. *)
Definition py_slice {A} (l : list A) (i j : Z) : list A :=
  let n := Z.of_nat (length l) in
  let lo := py_slice_bound n i in
  let hi := py_slice_bound n j in
  take (Z.to_nat (hi - lo)) (drop (Z.to_nat lo) l).

(** [ceil(a / b)] for [b > 0]. *)
Definition ceil_div (a b : Z) : Z := - ((- a) `div` b).

(** [range(start, stop, step)] as the list it iterates; [step = 0]
    raises [ValueError]. *)
Definition py_range (start stop step : Z) : res (list Z) :=
  if step =? 0 then Raise ValueError
  else
    let n := if 0 <? step then ceil_div (stop - start) step
             else ceil_div (start - stop) (- step) in
    Ok (map (fun k => start + Z.of_nat k * step) (seq 0 (Z.to_nat n))).

(** ** The [windows] generator

    The same static method, text for text, in [AudioAST], [AudioLSTM],
    [AudioDense] and [ResidualModel]:
<<
    start = 0
    while start < len(data):
        yield start, start + window_size
        start += (window_size // overlap)
>>
    A generator object is a state: about to test the loop condition, or
    suspended at the [yield], or finished. *)
Inductive gen_state : Type :=
  | AtTest (start : Z)
  | AtYield (start : Z)
  | Finished.

Inductive gen_step : Type :=
  | Yield (v : Z * Z) (st : gen_state)
  | Stop
  | Throw (e : exn).

Section Windows.
Context {A : Type}.
Variable data : list A.
Variables window_size overlap : Z.

(** Calling [windows(data, window_size, overlap)] runs nothing yet. *)
Definition windows : gen_state := AtTest 0.

Definition windows_test (start : Z) : gen_step :=
  if start <? Z.of_nat (length data)
  then Yield (start, start + window_size) (AtYield start)
  else Stop.

(** One [next()] on the generator. *)
Definition windows_next (st : gen_state) : gen_step :=
  match st with
  | AtTest start => windows_test start
  | AtYield start =>
      match py_floordiv window_size overlap with
      | Ok q => windows_test (start + q)
      | Raise e => Throw e
      | Timeout => Stop
      end
  | Finished => Stop
  end.

(** How a complete iteration ended. *)
Inductive run_end : Type :=
  | Exhausted
  | Faulted (e : exn)
  | OutOfFuel.

(** [list(windows(...))]: every pair the generator yields, in order. *)
Fixpoint windows_run (fuel : nat) (st : gen_state) : list (Z * Z) * run_end :=
  match fuel with
  | O => ([], OutOfFuel)
  | S f =>
      match windows_next st with
      | Yield v st' => let '(vs, e) := windows_run f st' in (v :: vs, e)
      | Stop => ([], Exhausted)
      | Throw e => ([], Faulted e)
      end
  end.
End Windows.

(** The count the specification gives for the yielded pairs:
    [ceil(max(0, L - window_size) / (window_size // overlap)) + 1]. *)
Definition spec_window_count (L window_size overlap : Z) : Z :=
  ceil_div (Z.max 0 (L - window_size)) (window_size `div` overlap) + 1.

(** ** numpy arrays of rank 2

    A spectrogram is a 2-D array: its shape and its rows.  The shape is
    kept beside the rows because an array with no rows still has a
    width. *)
Record array2 (T : Type) : Type := Array2 {
  shape : nat * nat;
  cells : list (list T)
}.
Arguments Array2 {T} shape cells.
Arguments shape {T} a.
Arguments cells {T} a.

Definition well_shaped {T} (a : array2 T) : Prop :=
  length (cells a) = (shape a).1
  /\ Forall (fun r => length r = (shape a).2) (cells a).

(** [a[i, j]], for indices inside the array. *)
Definition cell {T} (a : list (list T)) (i j : nat) : option T :=
  a !! i ≫= fun r => r !! j.

(** [range(n)]. *)
Definition py_range1 (n : Z) : list Z := map Z.of_nat (seq 0 (Z.to_nat n)).

Section Patches.
Context {T : Type}.
Variable zero : T.

(** [numpy.pad(a, ((0, pad_height), (0, pad_width)), mode='constant',
    constant_values=0)]; a negative pad width raises [ValueError]. *)
Definition numpy_pad (a : array2 T) (pad_height pad_width : Z) : res (array2 T) :=
  if (pad_height <? 0) || (pad_width <? 0) then Raise ValueError
  else
    let ph := Z.to_nat pad_height in
    let pw := Z.to_nat pad_width in
    let w := ((shape a).2 + pw)%nat in
    Ok (Array2 (((shape a).1 + ph)%nat, w)
               (map (fun r => r ++ replicate pw zero) (cells a)
                ++ replicate ph (replicate w zero))).

(** [a[r0:r1, c0:c1]]. *)
Definition slice2 (a : array2 T) (r0 r1 c0 c1 : Z) : list (list T) :=
  map (fun r => py_slice r c0 c1) (py_slice (cells a) r0 r1).

(** The padding step of [AudioAST.split_spectrogram_into_patches]:
<<
  pad_height = (patch_size[0] - (spectrogram.shape[0] % patch_size[0])) % patch_size[0]
  pad_width = (patch_size[1] - (spectrogram.shape[1] % patch_size[1])) % patch_size[1]
  padded_spectrogram = numpy.pad(spectrogram, ((0, pad_height), (0, pad_width)), ...)
>> *)
Definition padded_spectrogram (patch_size : Z * Z) (spectrogram : array2 T)
  : res (array2 T) :=
  res_bind (py_mod (Z.of_nat (shape spectrogram).1) patch_size.1) (fun r0 =>
  res_bind (py_mod (patch_size.1 - r0) patch_size.1) (fun pad_height =>
  res_bind (py_mod (Z.of_nat (shape spectrogram).2) patch_size.2) (fun r1 =>
  res_bind (py_mod (patch_size.2 - r1) patch_size.2) (fun pad_width =>
  numpy_pad spectrogram pad_height pad_width)))).

(** [AudioAST.split_spectrogram_into_patches]: the patches, outer loop
    over patch rows [i], inner loop over patch columns [j]. *)
Definition split_spectrogram_into_patches (patch_size : Z * Z)
    (spectrogram : array2 T) : res (list (list (list T))) :=
  res_bind (padded_spectrogram patch_size spectrogram) (fun padded =>
  res_bind (py_floordiv (Z.of_nat (shape padded).1) patch_size.1) (fun num_patches_x =>
  res_bind (py_floordiv (Z.of_nat (shape padded).2) patch_size.2) (fun num_patches_y =>
  Ok (flat_map (fun i =>
        map (fun j =>
               slice2 padded (i * patch_size.1) ((i + 1) * patch_size.1)
                             (j * patch_size.2) ((j + 1) * patch_size.2))
            (py_range1 num_patches_y))
        (py_range1 num_patches_x))))).
End Patches.

(** The array [padded_spectrogram] builds for positive patch sizes
    [(p0, p1)], written out: every row filled up with zeros to the next
    multiple of [p1], then rows of zeros up to the next multiple of
    [p0]. *)
Definition padded_cells {T} (zero : T) (p0 p1 : nat) (sp : array2 T)
    : list (list T) :=
  map (fun r => r ++ replicate
                      (Z.to_nat (ceil_div (Z.of_nat (shape sp).2) (Z.of_nat p1)) * p1
                       - (shape sp).2) zero)
      (cells sp)
  ++ replicate
       (Z.to_nat (ceil_div (Z.of_nat (shape sp).1) (Z.of_nat p0)) * p0 - (shape sp).1)
       (replicate (Z.to_nat (ceil_div (Z.of_nat (shape sp).2) (Z.of_nat p1)) * p1)
                  zero).

(** A spectrogram of shape [(17, 31)], every cell [1]. *)
Definition spectrogram_17_31 : array2 Z :=
  Array2 (17, 31)%nat (replicate 17 (replicate 31 1)).


(** ** The class balancer

    [balance_classes] is a local function of every [train] method, the
    same text in all four classes:
<<
    unique_classes = numpy.unique(labels)
    max_samples = max([sum(labels == c) for c in unique_classes])
    for c in unique_classes:
        features_class = features[labels == c]
        labels_class = labels[labels == c]
        features_class_resampled, labels_class_resampled = resample(
            features_class, labels_class, replace=True,
            n_samples=max_samples, random_state=0)
        balanced_features.append(features_class_resampled)
        balanced_labels.append(labels_class_resampled)
    balanced_features = numpy.vstack(balanced_features)
    balanced_labels = numpy.hstack(balanced_labels)
>>
    Labels are the integers of the loader's [int32] array, cast to float
    without loss; a feature array is the list of its rows. *)

(** [numpy.unique]: the distinct values, ascending. *)
Fixpoint insert_unique (x : Z) (l : list Z) : list Z :=
  match l with
  | [] => [x]
  | y :: l' =>
      if x <? y then x :: y :: l'
      else if x =? y then y :: l'
      else y :: insert_unique x l'
  end.

Definition numpy_unique (labels : list Z) : list Z :=
  foldr insert_unique [] labels.

(** [labels == c], element by element. *)
Definition eq_mask (labels : list Z) (c : Z) : list bool :=
  map (fun y => y =? c) labels.

(** [sum(labels == c)]. *)
Definition count_true (mask : list bool) : nat :=
  length (filter (fun b => b = true) mask).

(** [max(xs)] of a Python list; [ValueError] when it is empty. *)
Definition py_max (xs : list nat) : res nat :=
  match xs with
  | [] => Raise ValueError
  | x :: xs' => Ok (foldl Nat.max x xs')
  end.

(** [a[mask]] with a boolean mask: the rows where the mask holds;
    [IndexError] when the mask is not as long as the array. *)
Fixpoint mask_rows {X} (a : list X) (mask : list bool) : list X :=
  match a, mask with
  | x :: a', b :: mask' => if b then x :: mask_rows a' mask' else mask_rows a' mask'
  | _, _ => []
  end.

Definition mask_select {X} (a : list X) (mask : list bool) : res (list X) :=
  if decide (length a = length mask) then Ok (mask_rows a mask)
  else Raise IndexError.

(** [a[indices]] with an integer index array. *)
Fixpoint numpy_take {X} (a : list X) (indices : list nat) : res (list X) :=
  match indices with
  | [] => Ok []
  | i :: rest =>
      match a !! i with
      | None => Raise IndexError
      | Some x => res_bind (numpy_take a rest) (fun xs => Ok (x :: xs))
      end
  end.

(** Run [f] over a list, left to right, stopping at the first fault. *)
Fixpoint res_map {X Y} (f : X -> res Y) (l : list X) : res (list Y) :=
  match l with
  | [] => Ok []
  | x :: l' => res_bind (f x) (fun y => res_bind (res_map f l') (fun ys => Ok (y :: ys)))
  end.

Section BalanceClasses.
Context {F : Type}.

(** [numpy.random.RandomState(0).randint(0, n, size=k)]: the index draw
    behind scikit-learn's [resample(..., replace=True, random_state=0)],
    an external collaborator.  It is a fixed function of [n] and [k]. *)
Variable randint : nat -> nat -> list nat.

(** [sklearn.utils.resample(features_class, labels_class, replace=True,
    n_samples=n_samples, random_state=0)]: both arrays indexed by one
    draw of [n_samples] indices. *)
Definition resample (features_class : list F) (labels_class : list Z)
    (n_samples : nat) : res (list F * list Z) :=
  if decide (length features_class = length labels_class) then
    if decide (length features_class = O) then Raise ValueError
    else
      let indices := randint (length features_class) n_samples in
      res_bind (numpy_take features_class indices) (fun fs =>
      res_bind (numpy_take labels_class indices) (fun ls =>
      Ok (fs, ls)))
  else Raise ValueError.

Definition balance_classes (features : list F) (labels : list Z)
    : res (list F * list Z) :=
  let unique_classes := numpy_unique labels in
  res_bind (py_max (map (fun c => count_true (eq_mask labels c)) unique_classes))
    (fun max_samples =>
  res_bind (res_map (fun c =>
              res_bind (mask_select features (eq_mask labels c)) (fun features_class =>
              res_bind (mask_select labels (eq_mask labels c)) (fun labels_class =>
              resample features_class labels_class max_samples)))
              unique_classes) (fun blocks =>
  Ok (concat (map fst blocks), concat (map snd blocks)))).
End BalanceClasses.

(** The per-class counts of a label array, as [(label, count)] pairs in
    ascending label order. *)
Definition class_counts (labels : list Z) : list (Z * nat) :=
  map (fun c => (c, count_true (eq_mask labels c))) (numpy_unique labels).

(** A deterministic index draw used to run the balancer on examples:
    [k] indices cycling through [0 .. n-1]. *)
Definition cyclic_draw (n k : nat) : list nat :=
  map (fun i => (i `mod` n)%nat) (seq 0 k).


(** ** numpy arrays of any rank

    The raw-segment loaders keep rebinding [signal] to arrays of growing
    rank, so an array is a scalar or a sequence of arrays along axis 0. *)
Inductive ndarray (T : Type) : Type :=
  | Scalar (x : T)
  | Arr (items : list (ndarray T)).
Arguments Scalar {T} x.
Arguments Arr {T} items.

(** The arithmetic of the sample type ([float32] in the program), kept
    abstract: the pipeline only uses these operations. *)
Class Sample (T : Type) : Type := {
  s_zero : T;
  s_one : T;
  s_abs : T -> T;
  s_min : T -> T -> T;
  s_max : T -> T -> T;
  s_add : T -> T -> T;
  s_sub : T -> T -> T;
  s_div : T -> T -> T;
  s_neq : T -> T -> bool   (* Python's [!=] on two scalars *)
}.

Section Numpy.
Context {T : Type} `{Sample T}.

(** [a.shape]. *)
Fixpoint shape_of (a : ndarray T) : list nat :=
  match a with
  | Scalar _ => []
  | Arr [] => [O]
  | Arr (x :: l) => S (length l) :: shape_of x
  end.

(** Apply [f] to every scalar, keeping the shape. *)
Fixpoint nd_map (f : T -> T) (a : ndarray T) : ndarray T :=
  match a with
  | Scalar x => Scalar (f x)
  | Arr l => Arr (map (nd_map f) l)
  end.

(** The scalars in row-major order ([a.ravel()]). *)
Fixpoint nd_flat (a : ndarray T) : list T :=
  match a with
  | Scalar x => [x]
  | Arr l => flat_map nd_flat l
  end.

(** A 1-D array from its samples, a 2-D array from its rows. *)
Definition array1 (xs : list T) : ndarray T := Arr (map Scalar xs).
Definition array_of_rows (rows : list (list T)) : ndarray T := Arr (map array1 rows).

(** [len(a)]; a 0-d array has no length. *)
Definition numpy_len (a : ndarray T) : res Z :=
  match a with
  | Scalar _ => Raise TypeError
  | Arr l => Ok (Z.of_nat (length l))
  end.

(** [a[i:j]], a slice along axis 0. *)
Definition numpy_slice (a : ndarray T) (i j : Z) : res (ndarray T) :=
  match a with
  | Scalar _ => Raise IndexError
  | Arr l => Ok (Arr (py_slice l i j))
  end.

(** [numpy.array(items)] for a list of arrays: they are stacked along a
    new axis 0 when their shapes agree; a ragged list is a [ValueError]
    (numpy before 1.24 builds an array of objects instead, and the
    [numpy.min] that follows in the loaders raises the [ValueError]). *)
Definition numpy_array (items : list (ndarray T)) : res (ndarray T) :=
  match items with
  | [] => Ok (Arr [])
  | x :: l =>
      if forallb (fun y => bool_decide (shape_of y = shape_of x)) l
      then Ok (Arr items)
      else Raise ValueError
  end.

Definition numpy_abs (a : ndarray T) : ndarray T := nd_map s_abs a.

(** [numpy.min(a)] and [numpy.max(a)] over all scalars; on an array of
    size zero they raise [ValueError]. *)
Definition numpy_reduce (op : T -> T -> T) (a : ndarray T) : res T :=
  match nd_flat a with
  | [] => Raise ValueError
  | x :: xs => Ok (foldl op x xs)
  end.

Definition numpy_min (a : ndarray T) : res T := numpy_reduce s_min a.
Definition numpy_max (a : ndarray T) : res T := numpy_reduce s_max a.

Definition numpy_zeros_like (a : ndarray T) : ndarray T := nd_map (fun _ => s_zero) a.

(** [numpy.expand_dims(a, axis=-1)]: every scalar becomes an array of
    one scalar. *)
Fixpoint numpy_expand_dims_last (a : ndarray T) : ndarray T :=
  match a with
  | Scalar x => Arr [Scalar x]
  | Arr l => Arr (map numpy_expand_dims_last l)
  end.

(** The min-max normalisation of both raw-segment loaders:
<<
    if signal_max != signal_min:
        normalized_signal = (signal_segments - signal_min) / (signal_max - signal_min)
    else:
        normalized_signal = numpy.zeros_like(signal_segments)
>>
    The second component lists the denominators of the divisions that
    were evaluated. *)
Definition min_max_normalize (signal_segments : ndarray T) (signal_min signal_max : T)
    : ndarray T * list T :=
  if s_neq signal_max signal_min
  then (nd_map (fun x => s_div (s_sub x signal_min) (s_sub signal_max signal_min))
               signal_segments,
        [s_sub signal_max signal_min])
  else (numpy_zeros_like signal_segments, []).
End Numpy.

(** Exact rational samples, to run the loaders on examples. *)
#[export] Instance Q_sample : Sample Q := {|
  s_zero := 0%Q;
  s_one := 1%Q;
  s_abs := Qabs.Qabs;
  s_min := Qminmax.Qmin;
  s_max := Qminmax.Qmax;
  s_add := Qplus;
  s_sub := Qminus;
  s_div := Qdiv;
  s_neq := fun a b => negb (Qeq_bool a b)
|}.


(** ** Strings and paths *)

(** [s.split(sep)] for a one-character separator. *)
Fixpoint str_split (sep : Ascii.ascii) (s : string) : list string :=
  match s with
  | EmptyString => [EmptyString]
  | String c s' =>
      if Ascii.eqb c sep then EmptyString :: str_split sep s'
      else match str_split sep s' with
           | [] => [String c EmptyString]
           | t :: ts => String c t :: ts
           end
  end.

(** [l[i]] for a Python list, negative indices counting from the end. *)
Definition py_index {A} (l : list A) (i : Z) : res A :=
  let n := Z.of_nat (length l) in
  let k := if i <? 0 then i + n else i in
  if (k <? 0) || (n <=? k) then Raise IndexError
  else match l !! Z.to_nat k with
       | Some x => Ok x
       | None => Raise IndexError
       end.

(** [file_name.split('/')[-2].split('_')[0]]: the label of a file. *)
Definition label_of_path (file_name : string) : res string :=
  res_bind (py_index (str_split "/"%char file_name) (-2)) (fun component =>
  py_index (str_split "_"%char component) 0).

Fixpoint ends_with_slash (s : string) : bool :=
  match s with
  | EmptyString => false
  | String c EmptyString => Ascii.eqb c "/"%char
  | String _ s' => ends_with_slash s'
  end.

(** [os.path.join(a, b)] on POSIX. *)
Definition os_path_join (a b : string) : string :=
  match b with
  | String "/"%char _ => b
  | _ => if String.eqb a "" || ends_with_slash a then a +:+ b
         else a +:+ "/" +:+ b
  end.

(** [x or default] for an optional string argument: [None] and the empty
    string are falsy. *)
Definition str_or (x : option string) (default : string) : string :=
  match x with
  | Some s => if String.eqb s "" then default else s
  | None => default
  end.

(** The text an exception is formatted to in a log line. *)
Definition exn_str (e : exn) : string :=
  match e with
  | ZeroDivisionError => "integer division or modulo by zero"
  | ValueError => "ValueError"
  | IndexError => "IndexError"
  | TypeError => "TypeError"
  | AttributeError => "AttributeError"
  | FileNotFoundError => "No such file or directory"
  | NotADirectoryError => "Not a directory"
  | LibraryError msg => msg
  end.

(** ** The environment of a loader

    The file system, the audio decoder and the spectrogram routines are
    external collaborators; a [world] fixes their answers. *)
Record world (T : Type) : Type := World {
  os_path_exists : string -> bool;
  os_listdir : string -> res (list string);
  os_path_isdir : string -> bool;
  glob_glob : string -> list string;
  (** [librosa.load(file_name, sr=sample_rate)[0]] *)
  librosa_load : string -> Z -> res (list T);
  (** [librosa.feature.melspectrogram(y, n_mels, sr, n_fft, hop_length)] *)
  melspectrogram : ndarray T -> Z -> Z -> Z -> Z -> res (array2 T);
  (** [librosa.power_to_db(S, ref=numpy.max)] *)
  power_to_db : array2 T -> res (array2 T);
  (** one element of [numpy.array(strings, dtype=numpy.int32)] *)
  int32_of_str : string -> res Z
}.
Arguments os_path_exists {T} w _.
Arguments os_listdir {T} w _.
Arguments os_path_isdir {T} w _.
Arguments glob_glob {T} w _.
Arguments librosa_load {T} w _ _.
Arguments melspectrogram {T} w _ _ _ _ _.
Arguments power_to_db {T} w _.
Arguments int32_of_str {T} w _.

Inductive log_level : Type := INFO | ERROR | STDOUT.

#[export] Instance log_level_eq_dec : EqDecision log_level.
Proof. solve_decision. Defined.

(** The attributes of [self] that the loaders read. *)
Record attrs (T : Type) : Type := Attrs {
  sample_rate : Z;
  window_size : Z;
  overlap : Z;
  window_size_factor : Z;
  hop_length : Z;
  window_size_fft : Z;
  number_filters_spectrogram : Z;
  decibel_scale_factor : T;
  patch_size : Z * Z;
  file_extension : string
}.
Arguments sample_rate {T} a.
Arguments window_size {T} a.
Arguments overlap {T} a.
Arguments window_size_factor {T} a.
Arguments hop_length {T} a.
Arguments window_size_fft {T} a.
Arguments number_filters_spectrogram {T} a.
Arguments decibel_scale_factor {T} a.
Arguments patch_size {T} a.
Arguments file_extension {T} a.

(** The local variables a loader mutates: the two accumulators, the
    current [signal], and the log written so far (oldest line first). *)
Record locals (T : Type) : Type := Locals {
  list_spectrogram : list (ndarray T);
  list_labels : list string;
  signal : ndarray T;
  log : list (log_level * string)
}.
Arguments Locals {T} _ _ _ _.
Arguments list_spectrogram {T} l.
Arguments list_labels {T} l.
Arguments signal {T} l.
Arguments log {T} l.

(** What a loader hands back: the feature and label arrays, or the pair
    [(None, None)]. *)
Inductive load_result (T : Type) : Type :=
  | Loaded (features : ndarray T) (labels : list Z)
  | NoneNone.
Arguments Loaded {T} features labels.
Arguments NoneNone {T}.

(** ** Statements with state and exceptions

    A statement maps the locals to an outcome and the locals it leaves;
    the locals survive a raised exception, as they do in Python. *)
Definition M (S A : Type) : Type := S -> res A * S.

Definition ret {S A} (a : A) : M S A := fun s => (Ok a, s).

Definition bind {S A B} (m : M S A) (k : A -> M S B) : M S B :=
  fun s =>
    match m s with
    | (Ok a, s') => k a s'
    | (Raise e, s') => (Raise e, s')
    | (Timeout, s') => (Timeout, s')
    end.

Definition lift {S A} (r : res A) : M S A := fun s => (r, s).
Definition gets {S A} (f : S -> A) : M S A := fun s => (Ok (f s), s).
Definition modify {S} (f : S -> S) : M S unit := fun s => (Ok tt, f s).

(** [try: m  except Exception as e: handler(e)]. *)
Definition try_except {S A} (m : M S A) (handler : exn -> M S A) : M S A :=
  fun s =>
    match m s with
    | (Raise e, s') => handler e s'
    | r => r
    end.

Notation "x <- m ;; k" := (bind m (fun x => k))
  (at level 63, m at next level, right associativity, only parsing).
Notation "m ;;; k" := (bind m (fun _ => k))
  (at level 63, right associativity, only parsing).

(** [for x in l: body(x)]. *)
Fixpoint for_each {S X} (l : list X) (body : X -> M S unit) : M S unit :=
  match l with
  | [] => ret tt
  | x :: l' => body x ;;; for_each l' body
  end.

(** [for (start, end) in windows(data, window_size, overlap): body]. *)
Fixpoint for_windows {S X} (fuel : nat) (data : list X) (window_size overlap : Z)
    (st : gen_state) (body : Z * Z -> M S unit) : M S unit :=
  match fuel with
  | O => lift Timeout
  | S f =>
      match windows_next data window_size overlap st with
      | Yield v st' => body v ;;; for_windows f data window_size overlap st' body
      | Stop => ret tt
      | Throw e => lift (Raise e)
      end
  end.

Section LoaderSteps.
Context {T : Type}.

Definition logging (level : log_level) (msg : string) : M (locals T) unit :=
  modify (fun s => Locals (list_spectrogram s) (list_labels s) (signal s)
                          (log s ++ [(level, msg)])).

Definition set_signal (a : ndarray T) : M (locals T) unit :=
  modify (fun s => Locals (list_spectrogram s) (list_labels s) a (log s)).

(** [list_spectrogram.append(x); list_labels.append(label)]. *)
Definition append_sample (x : ndarray T) (label : string) : M (locals T) unit :=
  modify (fun s => Locals (list_spectrogram s ++ [x]) (list_labels s ++ [label])
                          (signal s) (log s)).

(** The items of an array along axis 0, what [len] and the [windows]
    generator look at. *)
Definition items_of (a : ndarray T) : list (ndarray T) :=
  match a with
  | Scalar _ => []
  | Arr l => l
  end.

Definition empty_locals : locals T := Locals [] [] (Arr []) [].
End LoaderSteps.


(** [enumerate(l)]. *)
Definition enumerate {X} (l : list X) : list (nat * X) := zip (seq 0 (length l)) l.

(** The subdirectories pass of the AST and LSTM loaders:
<<
    for class_dir in os.listdir(sub_directories):
        class_path = os.path.join(sub_directories, class_dir)
        if os.path.isdir(class_path):
            list_class_path.append(class_path)
>> *)
Definition class_paths_checked {T} (w : world T) (sub_directories : string)
    (class_dirs : list string) : list string :=
  filter (fun class_path => os_path_isdir w class_path = true)
         (map (os_path_join sub_directories) class_dirs).

(** The same pass in the MLP and residual loaders, which append every
    entry. *)
Definition class_paths_all (sub_directories : string) (class_dirs : list string)
    : list string :=
  map (os_path_join sub_directories) class_dirs.

(** ** The cross-validation trainer *)

(** Modelled from the spec: the result of
    [MetricsCalculator.calculate_metrics], whose module is not among the
    sources.  It yields accuracy, precision, recall and F1 (read by
    [train] under the keys ['Accuracy'], ['Precision'], ['Recall'],
    ['F1-Score']) and a confusion matrix. *)
Record metrics (T : Type) : Type := Metrics {
  Accuracy : T;
  Precision : T;
  Recall : T;
  F1_Score : T
}.
Arguments Metrics {T} _ _ _ _.
Arguments Accuracy {T} m.
Arguments Precision {T} m.
Arguments Recall {T} m.
Arguments F1_Score {T} m.

(** [{'value': ..., 'std': ...}]. *)
Record mean_std (T : Type) : Type := MeanStd { value : T; std : T }.
Arguments MeanStd {T} _ _.

(** The four values [train] returns. *)
Record report (T History : Type) : Type := Report {
  (** [mean_metrics]: the model name and the four aggregated metrics *)
  mean_metrics : string * (mean_std T * mean_std T * mean_std T * mean_std T);
  (** [{"Name": ..., "History": history_model.history}] *)
  history : string * History;
  (** [mean_confusion_matrices]: matrix, class names, title *)
  mean_confusion_matrices : list (list Z) * list string * string;
  (** [probabilities_predicted]: model name, predictions, ground truth *)
  probabilities_predicted : string * list (list T) * list Z
}.
Arguments Report {T History} _ _ _ _.

(** [x or default] for an optional integer argument: [None] and [0] are
    falsy. *)
Definition int_or (x : option Z) (default : Z) : Z :=
  match x with
  | Some v => if v =? 0 then default else v
  | None => default
  end.

(** What the fold loop accumulates. *)
Record fold_acc (T History Confusion : Type) : Type := FoldAcc {
  history_model : option History;
  metrics_list : list (metrics T);
  confusion_matriz_list : list Confusion;
  probabilities_list : list (list (list T));
  real_labels_list : list (list Z)
}.
Arguments FoldAcc {T History Confusion} _ _ _ _ _.
Arguments history_model {T History Confusion} f.
Arguments metrics_list {T History Confusion} f.
Arguments confusion_matriz_list {T History Confusion} f.
Arguments probabilities_list {T History Confusion} f.
Arguments real_labels_list {T History Confusion} f.

Section Trainer.
Context {T : Type} `{Sample T}.

(** The tensor engine and the other libraries [train] drives.  [Engine]
    is the engine's hidden state (weights initialisation, random
    streams); every call threads it. *)
Variables Engine Model History Confusion Hyper : Type.

Record collaborators : Type := Collaborators {
  (** [StratifiedKFold(n_splits, shuffle=True, random_state=42).split(X, y)] *)
  stratified_k_fold : Z -> list (ndarray T) -> list Z -> res (list (list nat * list nat));
  (** the index draw of [resample], see [balance_classes] *)
  randint : nat -> nat -> list nat;
  (** [self.build_model(...)] with the hyperparameters, the class count
      and, for the transformer, the number of patches *)
  build_model : Hyper -> option Z -> option nat -> M Engine Model;
  (** [self.neural_network_model.summary()] *)
  summary : Model -> M Engine unit;
  (** [self.compile_and_train(train_data, train_labels, epochs,
      batch_size, validation_data)]: the history and the fitted model *)
  compile_and_train :
    Model -> string -> list (ndarray T) -> list Z -> Z -> Z ->
    list (ndarray T) * list Z -> M Engine (History * Model);
  (** [self.neural_network_model.predict(features_val)] *)
  predict : Model -> list (ndarray T) -> M Engine (list (list T));
  (** [numpy.argmax(model_predictions, axis=1)] *)
  numpy_argmax : list (list T) -> list Z;
  (** [self.calculate_metrics(predicted, labels_val, predicted)] *)
  calculate_metrics : list Z -> list Z -> list Z -> res (metrics T * Confusion);
  numpy_mean : list T -> T;
  numpy_std : list T -> T;
  (** [numpy.round(numpy.mean(numpy.array(matrices), axis=0))
       .astype(numpy.int32).tolist()] *)
  mean_confusion_matrix : list Confusion -> res (list (list Z))
}.

(** [train_test_split(features, labels, test_size=0.2, stratify=labels,
    random_state=42)]: train/validation features, test features,
    train/validation labels, test labels. *)
Definition splitter : Type :=
  list (ndarray T) -> list Z ->
  res (list (ndarray T) * list (ndarray T) * list Z * list Z).

(** The attributes of [self] that [train] sets besides the loader's. *)
Record trainer : Type := Trainer {
  loader : attrs T;
  number_epochs : Z;
  number_splits : Z;
  size_batch : Z;
  loss_function : string;
  number_classes : option Z;
  model_name : string;
  hyper : Hyper
}.

Variable lib : collaborators.

(** One round of the fold loop. *)
Definition fold_step (self : trainer) (number_patches : option nat)
    (features_train_val : list (ndarray T)) (labels_train_val : list Z)
    (indexes : list nat * list nat)
    (acc : fold_acc T History Confusion) : M Engine (fold_acc T History Confusion) :=
  features_train <- lift (numpy_take features_train_val indexes.1) ;;
  features_val <- lift (numpy_take features_train_val indexes.2) ;;
  labels_train <- lift (numpy_take labels_train_val indexes.1) ;;
  labels_val <- lift (numpy_take labels_train_val indexes.2) ;;
  balanced <- lift (balance_classes (randint lib) features_train labels_train) ;;
  model <- build_model lib (hyper self) (number_classes self) number_patches ;;
  summary lib model ;;;
  fitted <- compile_and_train lib model (loss_function self) balanced.1 balanced.2
              (number_epochs self) (size_batch self) (features_val, labels_val) ;;
  model_predictions <- predict lib fitted.2 features_val ;;
  let predicted_labels := numpy_argmax lib model_predictions in
  scored <- lift (calculate_metrics lib predicted_labels labels_val predicted_labels) ;;
  ret (FoldAcc (Some fitted.1)
               (metrics_list acc ++ [scored.1])
               (confusion_matriz_list acc ++ [scored.2])
               (probabilities_list acc ++ [model_predictions])
               (real_labels_list acc ++ [labels_val])).

Fixpoint fold_loop (self : trainer) (number_patches : option nat)
    (features_train_val : list (ndarray T)) (labels_train_val : list Z)
    (folds : list (list nat * list nat))
    (acc : fold_acc T History Confusion) : M Engine (fold_acc T History Confusion) :=
  match folds with
  | [] => ret acc
  | indexes :: rest =>
      acc' <- fold_step self number_patches features_train_val labels_train_val
                        indexes acc ;;
      fold_loop self number_patches features_train_val labels_train_val rest acc'
  end.

Definition mean_std_of (f : metrics T -> T) (l : list (metrics T)) : mean_std T :=
  MeanStd (numpy_mean lib (map f l)) (numpy_std lib (map f l)).

(** [numpy.concatenate(arrays)]; an empty list is a [ValueError]. *)
Definition numpy_concatenate {X} (arrays : list (list X)) : res (list X) :=
  match arrays with
  | [] => Raise ValueError
  | _ => Ok (concat arrays)
  end.

(** [['Class {}'.format(i) for i in range(self.number_classes)]]. *)
Definition class_names (number_classes : option Z) : res (list string) :=
  match number_classes with
  | None => Raise TypeError
  | Some n => Ok (map (fun i => "Class " +:+ pretty i) (py_range1 n))
  end.

(** Everything [train] does after the loader returned, from the
    train/test split to the returned tuple. *)
Definition cross_validate (split : splitter) (self : trainer)
    (number_patches : option nat) (features : list (ndarray T)) (labels : list Z)
    : M Engine (report T History) :=
  parts <- lift (split features labels) ;;
  let '(features_train_val, features_test, labels_train_val, labels_test) := parts in
  pool <- lift (balance_classes (randint lib) features_train_val labels_train_val) ;;
  folds <- lift (stratified_k_fold lib (number_splits self) pool.1 pool.2) ;;
  acc <- fold_loop self number_patches pool.1 pool.2 folds
                   (FoldAcc None [] [] [] []) ;;
  let mean_metrics :=
    (model_name self,
     (mean_std_of Accuracy (metrics_list acc),
      mean_std_of Precision (metrics_list acc),
      mean_std_of Recall (metrics_list acc),
      mean_std_of F1_Score (metrics_list acc))) in
  predicted <- lift (numpy_concatenate (probabilities_list acc)) ;;
  ground_truth <- lift (numpy_concatenate (real_labels_list acc)) ;;
  matrix <- lift (mean_confusion_matrix lib (confusion_matriz_list acc)) ;;
  names <- lift (class_names (number_classes self)) ;;
  match history_model acc with
  | None => lift (Raise AttributeError)
  | Some history =>
      ret (Report mean_metrics (model_name self, history)
                  (matrix, names, model_name self)
                  (model_name self, predicted, ground_truth))
  end.
End Trainer.
Arguments collaborators : clear implicits.
Arguments trainer : clear implicits.
Arguments splitter : clear implicits.
Arguments Trainer {T Hyper} _ _ _ _ _ _ _ _.
Arguments loader {T Hyper} t.
Arguments number_epochs {T Hyper} t.
Arguments number_splits {T Hyper} t.
Arguments size_batch {T Hyper} t.
Arguments loss_function {T Hyper} t.
Arguments number_classes {T Hyper} t.
Arguments model_name {T Hyper} t.
Arguments hyper {T Hyper} t.
Arguments cross_validate {T Engine Model History Confusion Hyper}
  lib split self number_patches features labels.


(** The train/validation pool of a split: its first and third parts. *)
Definition pool_of {X} (parts : res (list X * list X * list Z * list Z))
    : res (list X * list Z) :=
  res_bind parts (fun p => Ok (p.1.1.1, p.1.2)).

(** [features.shape[1]]. *)
Definition shape_1 {T} (features : load_result T) : res nat :=
  match features with
  | NoneNone => Raise AttributeError
  | Loaded a _ =>
      match shape_of a with
      | _ :: n :: _ => Ok n
      | _ => Raise IndexError
      end
  end.

(** ** [AudioLSTM]: [load_data] and [train] *)
Module AudioLSTM.
Section Load.
Context {T : Type} `{Sample T}.
Variable w : world T.
Variable self : attrs T.

(** [[signal[i:i + local_window] for i in range(0, n, local_window)]],
    stacked by [numpy.array] and passed through [numpy.abs]. *)
Definition signal_segments (signal_ : ndarray T) (n local_window : Z)
    : res (ndarray T) :=
  res_bind (py_range 0 n local_window) (fun starts =>
  res_bind (res_map (fun i => numpy_slice signal_ i (i + local_window)) starts)
    (fun segments =>
  res_bind (numpy_array segments) (fun stacked =>
  Ok (numpy_abs stacked)))).

(** The body of the window loop. *)
Definition window_step (label : string) (se : Z * Z) : M (locals T) unit :=
  signal_ <- gets signal ;;
  window <- lift (numpy_slice signal_ se.1 se.2) ;;
  n <- lift (numpy_len window) ;;
  if n =? window_size self then
    local_window <- lift (py_floordiv n (window_size_factor self)) ;;
    segments <- lift (signal_segments signal_ n local_window) ;;
    signal_min <- lift (numpy_min segments) ;;
    signal_max <- lift (numpy_max segments) ;;
    append_sample (min_max_normalize segments signal_min signal_max).1 label
  else ret tt.

(** The [try] block run for one file. *)
Definition file_body (fuel : nat) (file_name : string) : M (locals T) unit :=
  samples <- lift (librosa_load w file_name (sample_rate self)) ;;
  set_signal (array1 samples) ;;;
  label <- lift (label_of_path file_name) ;;
  signal_ <- gets signal ;;
  for_windows fuel (items_of signal_) (window_size self) (overlap self) windows
              (window_step label).

(** The [try] block with its [except Exception as e] clause. *)
Definition file_step (fuel : nat) (file_name : string) : M (locals T) unit :=
  try_except (file_body fuel file_name)
    (fun e => logging ERROR ("Error processing file '" +:+ file_name +:+ "': "
                              +:+ exn_str e)).

Definition load_data (fuel : nat) (sub_directories : string)
    (file_extension_arg : option string) : M (locals T) (load_result T) :=
  logging INFO "Starting to load data..." ;;;
  let extension := str_or file_extension_arg (file_extension self) in
  if negb (os_path_exists w sub_directories) then
    logging ERROR ("Directory '" +:+ sub_directories +:+ "' does not exist.") ;;;
    ret NoneNone
  else
    logging INFO ("Reading subdirectories in '" +:+ sub_directories +:+ "'...") ;;;
    class_dirs <- lift (os_listdir w sub_directories) ;;
    let list_class_path := class_paths_checked w sub_directories class_dirs in
    logging INFO ("Found " +:+ pretty (length list_class_path) +:+ " classes.") ;;;
    for_each list_class_path (fun sub_directory =>
      logging INFO ("Processing class directory: " +:+ sub_directory +:+ "...") ;;;
      for_each (glob_glob w (os_path_join sub_directory extension))
               (file_step fuel)) ;;;
    spectrograms <- gets list_spectrogram ;;
    stacked <- lift (numpy_array spectrograms) ;;
    let array_features := numpy_expand_dims_last stacked in
    logging INFO ("Loaded " +:+ pretty (length (items_of array_features))
                  +:+ " feature arrays.") ;;;
    logging INFO "Data loading complete." ;;;
    labels <- gets list_labels ;;
    array_labels <- lift (res_map (int32_of_str w) labels) ;;
    ret (Loaded array_features array_labels).
End Load.

Section Train.
Context {T : Type} `{Sample T}.
Variables Engine Model History Confusion Hyper : Type.
Variable lib : collaborators T Engine Model History Confusion Hyper.
Variable w : world T.

Record arguments : Type := Arguments {
  lstm_window_size_factor : Z;
  lstm_decibel_scale_factor : T;
  lstm_hop_length : Z;
  lstm_overlap : Z;
  lstm_hyper : Hyper
}.

(** The attribute assignments at the top of [train]; the last one to
    [self.number_classes] stores the argument as it came. *)
Definition configure (self : trainer T Hyper)
    (number_epochs_arg batch_size number_splits_arg : option Z) (loss : option string)
    (sample_rate_arg overlap_arg number_classes_arg : option Z) (args : arguments)
    : trainer T Hyper :=
  {| loader := {|
       sample_rate := int_or sample_rate_arg (sample_rate (loader self));
       window_size := lstm_hop_length args * lstm_window_size_factor args;
       overlap := lstm_overlap args;
       window_size_factor := lstm_window_size_factor args;
       hop_length := lstm_hop_length args;
       window_size_fft := window_size_fft (loader self);
       number_filters_spectrogram := number_filters_spectrogram (loader self);
       decibel_scale_factor := lstm_decibel_scale_factor args;
       patch_size := patch_size (loader self);
       file_extension := file_extension (loader self)
     |};
     number_epochs := int_or number_epochs_arg (number_epochs self);
     number_splits := int_or number_splits_arg (number_splits self);
     size_batch := int_or batch_size (size_batch self);
     loss_function := str_or loss (loss_function self);
     number_classes := number_classes_arg;
     model_name := "LSTM";
     hyper := lstm_hyper args
  |}.

Definition train (split : splitter T) (fuel : nat) (self : trainer T Hyper)
    (dataset_directory : string)
    (number_epochs_arg batch_size number_splits_arg : option Z) (loss : option string)
    (sample_rate_arg overlap_arg number_classes_arg : option Z) (args : arguments)
    : M Engine (report T History) :=
  let self := configure self number_epochs_arg batch_size number_splits_arg loss
                        sample_rate_arg overlap_arg number_classes_arg args in
  loaded <- lift (load_data w (loader self) fuel dataset_directory
                    None empty_locals).1 ;;
  match loaded with
  | NoneNone => lift (Raise TypeError)
  | Loaded features labels =>
      cross_validate lib split self
                     None (items_of features) labels
  end.
End Train.
Arguments arguments : clear implicits.
Arguments Arguments {T Hyper} _ _ _ _ _.
Arguments train {T H Engine Model History Confusion Hyper} lib w split fuel self
  dataset_directory number_epochs_arg batch_size number_splits_arg loss
  sample_rate_arg overlap_arg number_classes_arg args.
End AudioLSTM.

(** ** [AudioDense.load_data] *)
Module AudioDense.
Section Load.
Context {T : Type} `{Sample T}.
Variable w : world T.
Variable self : attrs T.

(** The body of the window loop.  The list of segments and then the
    stacked array are assigned to [signal] itself. *)
Definition window_step (label : string) (se : Z * Z) : M (locals T) unit :=
  signal_ <- gets signal ;;
  window <- lift (numpy_slice signal_ se.1 se.2) ;;
  n <- lift (numpy_len window) ;;
  if n =? window_size self then
    local_window <- lift (py_floordiv n (window_size_factor self)) ;;
    starts <- lift (py_range 0 n local_window) ;;
    segments <- lift (res_map (fun i => numpy_slice signal_ i (i + local_window))
                              starts) ;;
    set_signal (Arr segments) ;;;
    stacked <- lift (numpy_array segments) ;;
    set_signal (numpy_abs stacked) ;;;
    signal_ <- gets signal ;;
    signal_min <- lift (numpy_min signal_) ;;
    signal_max <- lift (numpy_max signal_) ;;
    append_sample (min_max_normalize signal_ signal_min signal_max).1 label
  else ret tt.

(** The work done for one file; there is no [try] around it. *)
Definition file_step (fuel : nat) (file_name : string) : M (locals T) unit :=
  samples <- lift (librosa_load w file_name (sample_rate self)) ;;
  set_signal (array1 samples) ;;;
  label <- lift (label_of_path file_name) ;;
  signal_ <- gets signal ;;
  for_windows fuel (items_of signal_) (window_size self) (overlap self) windows
              (window_step label).

Definition load_data (fuel : nat) (sub_directories : string)
    (file_extension_arg : option string) : M (locals T) (load_result T) :=
  let extension := str_or file_extension_arg (file_extension self) in
  class_dirs <- lift (os_listdir w sub_directories) ;;
  let list_class_path := class_paths_all sub_directories class_dirs in
  for_each (enumerate list_class_path) (fun '(index, sub_directory) =>
    logging STDOUT ("Class Load: " +:+ pretty index) ;;;
    for_each (glob_glob w (os_path_join sub_directory extension))
             (file_step fuel)) ;;;
  spectrograms <- gets list_spectrogram ;;
  stacked <- lift (numpy_array spectrograms) ;;
  let array_features := numpy_expand_dims_last stacked in
  labels <- gets list_labels ;;
  array_labels <- lift (res_map (int32_of_str w) labels) ;;
  ret (Loaded array_features array_labels).
End Load.

Section Train.
Context {T : Type} `{Sample T}.
Variables Engine Model History Confusion Hyper : Type.
Variable lib : collaborators T Engine Model History Confusion Hyper.
Variable w : world T.

(** The attribute assignments at the top of [AudioDense.train]; there is
    no [arguments] object here. *)
Definition configure (self : trainer T Hyper)
    (number_epochs_arg batch_size number_splits_arg : option Z) (loss : option string)
    (sample_rate_arg overlap_arg number_classes_arg : option Z)
    : trainer T Hyper :=
  {| loader := {|
       sample_rate := int_or sample_rate_arg (sample_rate (loader self));
       window_size := window_size (loader self);
       overlap := int_or overlap_arg (overlap (loader self));
       window_size_factor := window_size_factor (loader self);
       hop_length := hop_length (loader self);
       window_size_fft := window_size_fft (loader self);
       number_filters_spectrogram := number_filters_spectrogram (loader self);
       decibel_scale_factor := decibel_scale_factor (loader self);
       patch_size := patch_size (loader self);
       file_extension := file_extension (loader self)
     |};
     number_epochs := int_or number_epochs_arg (number_epochs self);
     number_splits := int_or number_splits_arg (number_splits self);
     size_batch := int_or batch_size (size_batch self);
     loss_function := str_or loss (loss_function self);
     number_classes :=
       match number_classes_arg, number_classes self with
       | Some 0, c | None, c => c
       | Some n, _ => Some n
       end;
     model_name := model_name self;
     hyper := hyper self
  |}.

Definition train (split : splitter T) (fuel : nat) (self : trainer T Hyper)
    (dataset_directory : string)
    (number_epochs_arg batch_size number_splits_arg : option Z) (loss : option string)
    (sample_rate_arg overlap_arg number_classes_arg : option Z)
    : M Engine (report T History) :=
  let self := configure self number_epochs_arg batch_size number_splits_arg loss
                        sample_rate_arg overlap_arg number_classes_arg in
  loaded <- lift (load_data w (loader self) fuel dataset_directory
                    None empty_locals).1 ;;
  match loaded with
  | NoneNone => lift (Raise TypeError)
  | Loaded features labels =>
      cross_validate lib split self None (items_of features) labels
  end.
End Train.
Arguments train {T H Engine Model History Confusion Hyper} lib w split fuel self
  dataset_directory number_epochs_arg batch_size number_splits_arg loss
  sample_rate_arg overlap_arg number_classes_arg.
End AudioDense.


(** The decibel rescale of the spectrogram loaders,
    [(spectrogram_decibel_scale / self.decibel_scale_factor) + 1]. *)
Definition decibel_rescale {T} `{Sample T} (scale : T) (a : array2 T) : array2 T :=
  Array2 (shape a) (map (map (fun x => s_add (s_div x scale) s_one)) (cells a)).

(** ** [AudioAST]: [load_dataset] and [train] *)
Module AudioAST.
Section Load.
Context {T : Type} `{Sample T}.
Variable w : world T.
Variable self : attrs T.

(** The body of the window loop. *)
Definition window_step (label : string) (se : Z * Z) : M (locals T) unit :=
  signal_ <- gets signal ;;
  window <- lift (numpy_slice signal_ se.1 se.2) ;;
  n <- lift (numpy_len window) ;;
  if n =? window_size self then
    spectrogram <- lift (melspectrogram w window (number_filters_spectrogram self)
                           (sample_rate self) (window_size_fft self) (hop_length self)) ;;
    decibels <- lift (power_to_db w spectrogram) ;;
    let spectrogram_decibel_scale :=
      decibel_rescale (decibel_scale_factor self) decibels in
    patches <- lift (split_spectrogram_into_patches s_zero (patch_size self)
                       spectrogram_decibel_scale) ;;
    append_sample (Arr (map array_of_rows patches)) label
  else ret tt.

(** The [try] block run for one file. *)
Definition file_body (fuel : nat) (file_name : string) : M (locals T) unit :=
  samples <- lift (librosa_load w file_name (sample_rate self)) ;;
  set_signal (array1 samples) ;;;
  label <- lift (label_of_path file_name) ;;
  signal_ <- gets signal ;;
  for_windows fuel (items_of signal_) (window_size self) (overlap self) windows
              (window_step label).

(** The [try] block with its [except Exception as e] clause. *)
Definition file_step (fuel : nat) (file_name : string) : M (locals T) unit :=
  try_except (file_body fuel file_name)
    (fun e => logging ERROR ("Error processing file '" +:+ file_name +:+ "': "
                              +:+ exn_str e)).

Definition load_dataset (fuel : nat) (sub_directories : string)
    (file_extension_arg : option string) : M (locals T) (load_result T) :=
  logging INFO "Starting to load the dataset..." ;;;
  let extension := str_or file_extension_arg (file_extension self) in
  if negb (os_path_exists w sub_directories) then
    logging ERROR ("Directory '" +:+ sub_directories +:+ "' does not exist.") ;;;
    ret NoneNone
  else
    logging INFO ("Reading subdirectories in '" +:+ sub_directories +:+ "'...") ;;;
    class_dirs <- lift (os_listdir w sub_directories) ;;
    let list_class_path := class_paths_checked w sub_directories class_dirs in
    logging INFO ("Found " +:+ pretty (length list_class_path)
                  +:+ " class directories.") ;;;
    for_each list_class_path (fun sub_directory =>
      logging INFO ("Processing class directory: " +:+ sub_directory +:+ "...") ;;;
      for_each (glob_glob w (os_path_join sub_directory extension))
               (file_step fuel)) ;;;
    spectrograms <- gets list_spectrogram ;;
    array_features <- lift (numpy_array spectrograms) ;;
    labels <- gets list_labels ;;
    array_labels <- lift (res_map (int32_of_str w) labels) ;;
    logging INFO ("Loaded " +:+ pretty (length (items_of array_features))
                  +:+ " spectrogram features.") ;;;
    logging INFO "Dataset loading complete." ;;;
    ret (Loaded array_features array_labels).
End Load.

Section Train.
Context {T : Type} `{Sample T}.
Variables Engine Model History Confusion Hyper : Type.
Variable lib : collaborators T Engine Model History Confusion Hyper.
Variable w : world T.

(** The fields of [arguments] that [train] copies into [self]; the model
    hyperparameters travel together as [ast_hyper]. *)
Record arguments : Type := Arguments {
  ast_hop_length : Z;
  ast_patch_size : Z * Z;
  ast_overlap : Z;
  ast_decibel_scale_factor : T;
  ast_window_size_fft : Z;
  ast_window_size_factor : Z;
  ast_number_filters_spectrogram : Z;
  ast_hyper : Hyper
}.

(** The attribute assignments at the top of [train]. *)
Definition configure (self : trainer T Hyper)
    (number_epochs_arg batch_size number_splits_arg : option Z) (loss : option string)
    (sample_rate_arg overlap_arg number_classes_arg : option Z) (args : arguments)
    : trainer T Hyper :=
  {| loader := {|
       sample_rate := int_or sample_rate_arg (sample_rate (loader self));
       window_size := ast_hop_length args * (ast_window_size_factor args - 1);
       overlap := ast_overlap args;
       window_size_factor := ast_window_size_factor args;
       hop_length := ast_hop_length args;
       window_size_fft := ast_window_size_fft args;
       number_filters_spectrogram := ast_number_filters_spectrogram args;
       decibel_scale_factor := ast_decibel_scale_factor args;
       patch_size := ast_patch_size args;
       file_extension := file_extension (loader self)
     |};
     number_epochs := int_or number_epochs_arg (number_epochs self);
     number_splits := int_or number_splits_arg (number_splits self);
     size_batch := int_or batch_size (size_batch self);
     loss_function := str_or loss (loss_function self);
     number_classes :=
       match number_classes_arg, number_classes self with
       | Some 0, c | None, c => c
       | Some n, _ => Some n
       end;
     model_name := model_name self;
     hyper := ast_hyper args
  |}.

Definition train (split : splitter T) (fuel : nat) (self : trainer T Hyper)
    (dataset_directory : string)
    (number_epochs_arg batch_size number_splits_arg : option Z) (loss : option string)
    (sample_rate_arg overlap_arg number_classes_arg : option Z) (args : arguments)
    : M Engine (report T History) :=
  let self := configure self number_epochs_arg batch_size number_splits_arg loss
                        sample_rate_arg overlap_arg number_classes_arg args in
  loaded <- lift (load_dataset w (loader self) fuel dataset_directory
                    None empty_locals).1 ;;
  number_patches <- lift (shape_1 loaded) ;;
  match loaded with
  | NoneNone => lift (Raise AttributeError)
  | Loaded features labels =>
      cross_validate lib split self
                     (Some number_patches) (items_of features) labels
  end.
End Train.
Arguments arguments : clear implicits.
Arguments Arguments {T Hyper} _ _ _ _ _ _ _ _.
Arguments train {T H Engine Model History Confusion Hyper} lib w split fuel self
  dataset_directory number_epochs_arg batch_size number_splits_arg loss
  sample_rate_arg overlap_arg number_classes_arg args.

Section Audio.
Context {T : Type} `{Sample T}.
Variable w : world T.

(** [AudioAST.load_audio]: the decoded signal, padded with zeros or cut
    to [int(self.sample_rate * self.audio_duration)] samples:
<<
    signal, sample_rate = librosa.load(filename, sr=self.sample_rate)
    max_length = int(self.sample_rate * self.audio_duration)
    if len(signal) < max_length:
        padding = max_length - len(signal)
        signal = numpy.pad(signal, (0, padding), 'constant')
    signal = signal[:max_length]
    return signal, sample_rate
>> *)
Definition load_audio (sample_rate_ audio_duration : Z) (filename : string)
    : res (list T * Z) :=
  res_bind (librosa_load w filename sample_rate_) (fun signal_ =>
  let max_length := sample_rate_ * audio_duration in
  let padded :=
    if Z.of_nat (length signal_) <? max_length
    then signal_ ++ replicate (Z.to_nat (max_length - Z.of_nat (length signal_))) s_zero
    else signal_ in
  Ok (py_slice padded 0 max_length, sample_rate_)).

(** [int(class_dir)], Python's conversion of a string to an integer: an
    external of the language, [ValueError] on a string that is no
    integer literal. *)
Variable py_int : string -> res Z.

(** The loop of [AudioAST.load_data] over the directory listing:
<<
    for class_dir in os.listdir(data_dir):
        class_path = os.path.join(data_dir, class_dir)
        if os.path.isdir(class_path):
            class_label = int(class_dir)
            class_files = glob.glob(os.path.join(class_path, self.sound_file_format))
            file_paths.extend(class_files)
            labels.extend([class_label] * len(class_files))
>> *)
Fixpoint load_data_loop (data_dir sound_file_format : string)
    (class_dirs : list string) (file_paths : list string) (labels : list Z)
    : res (list string * list Z) :=
  match class_dirs with
  | [] => Ok (file_paths, labels)
  | class_dir :: rest =>
      let class_path := os_path_join data_dir class_dir in
      if os_path_isdir w class_path then
        res_bind (py_int class_dir) (fun class_label =>
        let class_files := glob_glob w (os_path_join class_path sound_file_format) in
        load_data_loop data_dir sound_file_format rest
          (file_paths ++ class_files)
          (labels ++ replicate (length class_files) class_label))
      else load_data_loop data_dir sound_file_format rest file_paths labels
  end.

(** [AudioAST.load_data]: the file paths and their integer labels. *)
Definition load_data (sound_file_format data_dir : string)
    : res (list string * list Z) :=
  res_bind (os_listdir w data_dir) (fun class_dirs =>
  load_data_loop data_dir sound_file_format class_dirs [] []).
End Audio.
End AudioAST.

(** [l] cut into [count] consecutive pieces of [size] elements. *)
Fixpoint chunks {X} (count size : nat) (l : list X) : list (list X) :=
  match count with
  | O => []
  | S c => take size l :: chunks c size (drop size l)
  end.

(** ** [ResidualModel.load_data] *)
Module ResidualModel.
Section Load.
Context {T : Type} `{Sample T}.
Variable w : world T.
Variable self : attrs T.

(** The body of the window loop. *)
Definition window_step (label : string) (se : Z * Z) : M (locals T) unit :=
  signal_ <- gets signal ;;
  window <- lift (numpy_slice signal_ se.1 se.2) ;;
  n <- lift (numpy_len window) ;;
  if n =? window_size self then
    spectrogram <- lift (melspectrogram w window (number_filters_spectrogram self)
                           (sample_rate self) (window_size_fft self) (hop_length self)) ;;
    decibels <- lift (power_to_db w spectrogram) ;;
    let spectrogram_decibel_scale :=
      decibel_rescale (decibel_scale_factor self) decibels in
    append_sample (array_of_rows (cells spectrogram_decibel_scale)) label
  else ret tt.

(** The work done for one file; there is no [try] around it. *)
Definition file_step (fuel : nat) (file_name : string) : M (locals T) unit :=
  samples <- lift (librosa_load w file_name (sample_rate self)) ;;
  set_signal (array1 samples) ;;;
  label <- lift (label_of_path file_name) ;;
  signal_ <- gets signal ;;
  for_windows fuel (items_of signal_) (window_size self) (overlap self) windows
              (window_step label).

(** The two free dimensions of
    [reshape(len(list_spectrogram), n_mels, window_size_factor, 1)]:
    one of them may be [-1] and is then inferred from the size. *)
Definition reshape_dims (size count : nat) (n_mels factor : Z) : res (nat * nat) :=
  if (n_mels <? -1) || (factor <? -1) then Raise ValueError
  else if (n_mels =? -1) && (factor =? -1) then Raise ValueError
  else if n_mels =? -1 then
    let known := (count * Z.to_nat factor)%nat in
    if decide (known = O \/ (size `mod` known)%nat <> O) then Raise ValueError
    else Ok ((size `div` known)%nat, Z.to_nat factor)
  else if factor =? -1 then
    let known := (count * Z.to_nat n_mels)%nat in
    if decide (known = O \/ (size `mod` known)%nat <> O) then Raise ValueError
    else Ok (Z.to_nat n_mels, (size `div` known)%nat)
  else Ok (Z.to_nat n_mels, Z.to_nat factor).

(** The reshape followed by the extra zero row:
<<
    array_features = numpy.array(list_spectrogram).reshape(
        len(list_spectrogram), n_mels, window_size_factor, 1)
    new_shape[1] += 1
    new_array = numpy.zeros(new_shape)
    new_array[:, :self.number_filters_spectrogram, :, :] = array_features
>> *)
Definition reshape_rows (stacked : ndarray T) (count : nat)
    : res (nat * list (list (list T))) :=
  let flat := nd_flat stacked in
  res_bind (reshape_dims (length flat) count (number_filters_spectrogram self)
                         (window_size_factor self)) (fun dims =>
  if decide ((count * dims.1 * dims.2)%nat = length flat)
  then Ok (dims.2, map (chunks dims.1 dims.2) (chunks count (dims.1 * dims.2) flat))
  else Raise ValueError).

(** One sample of [new_array]: its rows, then the row of zeros; the
    trailing axis has length one. *)
Definition with_zero_row (width : nat) (sample : list (list T)) : ndarray T :=
  Arr (map (fun row => Arr (map (fun x => Arr [Scalar x]) row))
           (sample ++ [replicate width s_zero])).

Definition load_data (fuel : nat) (sub_directories : string)
    (file_extension_arg : option string) : M (locals T) (load_result T) :=
  logging INFO "Starting data loading process." ;;;
  let extension := str_or file_extension_arg (file_extension self) in
  logging INFO ("Listing subdirectories in " +:+ sub_directories) ;;;
  class_dirs <- lift (os_listdir w sub_directories) ;;
  let list_class_path := class_paths_all sub_directories class_dirs in
  for_each list_class_path (fun sub_directory =>
    logging INFO ("Processing directory: " +:+ sub_directory) ;;;
    for_each (glob_glob w (os_path_join sub_directory extension))
             (file_step fuel)) ;;;
  spectrograms <- gets list_spectrogram ;;
  stacked <- lift (numpy_array spectrograms) ;;
  array_features <- lift (reshape_rows stacked (length spectrograms)) ;;
  labels <- gets list_labels ;;
  array_labels <- lift (res_map (int32_of_str w) labels) ;;
  logging INFO "Reshaping feature array." ;;;
  let new_array := Arr (map (with_zero_row array_features.1) array_features.2) in
  logging INFO "Data loading complete." ;;;
  ret (Loaded new_array array_labels).
End Load.

Section Train.
Context {T : Type} `{Sample T}.
Variables Engine Model History Confusion Hyper : Type.
Variable lib : collaborators T Engine Model History Confusion Hyper.
Variable w : world T.

(** The fields of [arguments] that [ResidualModel.train] copies into the
    attributes the loader reads; the model hyperparameters travel
    together as [residual_hyper]. *)
Record arguments : Type := Arguments {
  residual_hop_length : Z;
  residual_decibel_scale_factor : T;
  residual_window_size_factor : Z;
  residual_number_filters_spectrogram : Z;
  residual_overlap : Z;
  residual_hyper : Hyper
}.

(** The attribute assignments at the top of [ResidualModel.train]. *)
Definition configure (self : trainer T Hyper)
    (number_epochs_arg batch_size number_splits_arg : option Z) (loss : option string)
    (sample_rate_arg overlap_arg number_classes_arg : option Z) (args : arguments)
    : trainer T Hyper :=
  {| loader := {|
       sample_rate := int_or sample_rate_arg (sample_rate (loader self));
       window_size := residual_hop_length args * (residual_window_size_factor args - 1);
       overlap := residual_overlap args;
       window_size_factor := residual_window_size_factor args;
       hop_length := residual_hop_length args;
       window_size_fft := window_size_fft (loader self);
       number_filters_spectrogram := residual_number_filters_spectrogram args;
       decibel_scale_factor := residual_decibel_scale_factor args;
       patch_size := patch_size (loader self);
       file_extension := file_extension (loader self)
     |};
     number_epochs := int_or number_epochs_arg (number_epochs self);
     number_splits := int_or number_splits_arg (number_splits self);
     size_batch := int_or batch_size (size_batch self);
     loss_function := str_or loss (loss_function self);
     number_classes :=
       match number_classes_arg, number_classes self with
       | Some 0, c | None, c => c
       | Some n, _ => Some n
       end;
     model_name := model_name self;
     hyper := residual_hyper args
  |}.

Definition train (split : splitter T) (fuel : nat) (self : trainer T Hyper)
    (dataset_directory : string)
    (number_epochs_arg batch_size number_splits_arg : option Z) (loss : option string)
    (sample_rate_arg overlap_arg number_classes_arg : option Z) (args : arguments)
    : M Engine (report T History) :=
  let self := configure self number_epochs_arg batch_size number_splits_arg loss
                        sample_rate_arg overlap_arg number_classes_arg args in
  loaded <- lift (load_data w (loader self) fuel dataset_directory
                    None empty_locals).1 ;;
  match loaded with
  | NoneNone => lift (Raise TypeError)
  | Loaded features labels =>
      cross_validate lib split self None (items_of features) labels
  end.
End Train.
Arguments arguments : clear implicits.
Arguments Arguments {T Hyper} _ _ _ _ _ _.
Arguments train {T H Engine Model History Confusion Hyper} lib w split fuel self
  dataset_directory number_epochs_arg batch_size number_splits_arg loss
  sample_rate_arg overlap_arg number_classes_arg args.
End ResidualModel.


(** The locals after one more log line. *)
Definition logged {T} (s : locals T) (level : log_level) (msg : string) : locals T :=
  Locals (list_spectrogram s) (list_labels s) (signal s) (log s ++ [(level, msg)]).


(** ** A small world to run the loaders in

    A dataset root [data] with class directories [0_a] and [1_b]:
    [0_a] holds a file of six samples and a file the decoder rejects,
    [1_b] holds a file of four equal samples.  No other path exists. *)
Fixpoint decimal_value (acc : Z) (s : string) : res Z :=
  match s with
  | EmptyString => Ok acc
  | String c s' =>
      let d := Z.of_nat (nat_of_ascii c) - 48 in
      if (0 <=? d) && (d <=? 9) then decimal_value (10 * acc + d) s'
      else Raise ValueError
  end.

Definition decimal_int (s : string) : res Z :=
  match s with
  | EmptyString => Raise ValueError
  | _ => decimal_value 0 s
  end.

Definition demo_samples (file_name : string) : res (list Q) :=
  if String.eqb file_name "data/0_a/good.wav"
  then Ok [1 # 1; -2 # 1; 3 # 1; -4 # 1; 5 # 1; 6 # 1]%Q
  else if String.eqb file_name "data/0_a/bad.wav"
  then Raise (LibraryError "could not decode")
  else if String.eqb file_name "data/1_b/x.wav"
  then Ok [2 # 1; 2 # 1; 2 # 1; 2 # 1]%Q
  else Raise FileNotFoundError.

Definition demo_world : world Q := {|
  os_path_exists p :=
    String.eqb p "data" || String.eqb p "data/0_a" || String.eqb p "data/1_b";
  os_listdir p :=
    if String.eqb p "data" then Ok ["0_a"; "1_b"] else Raise FileNotFoundError;
  os_path_isdir p := String.eqb p "data/0_a" || String.eqb p "data/1_b";
  glob_glob pattern :=
    if String.eqb pattern "data/0_a/*.wav"
    then ["data/0_a/good.wav"; "data/0_a/bad.wav"]
    else if String.eqb pattern "data/1_b/*.wav" then ["data/1_b/x.wav"]
    else [];
  librosa_load file_name _ := demo_samples file_name;
  melspectrogram y _ _ _ _ := Ok (Array2 (1%nat, length (nd_flat y)) [nd_flat y]);
  power_to_db S := Ok S;
  int32_of_str := decimal_int
|}.

Definition demo_self : attrs Q := {|
  sample_rate := 8000;
  window_size := 4;
  overlap := 2;
  window_size_factor := 2;
  hop_length := 2;
  window_size_fft := 4;
  number_filters_spectrogram := 1;
  decibel_scale_factor := (80 # 1)%Q;
  patch_size := (2, 2);
  file_extension := "*.wav"
|}.

(** For the residual loader one spectrogram has [window_size_factor]
    columns. *)
Definition demo_self_residual : attrs Q := {|
  sample_rate := 8000;
  window_size := 4;
  overlap := 2;
  window_size_factor := 4;
  hop_length := 2;
  window_size_fft := 4;
  number_filters_spectrogram := 1;
  decibel_scale_factor := (80 # 1)%Q;
  patch_size := (2, 2);
  file_extension := "*.wav"
|}.

(** The same world without the file the decoder rejects. *)
Definition demo_world_good : world Q := {|
  os_path_exists := os_path_exists demo_world;
  os_listdir := os_listdir demo_world;
  os_path_isdir := os_path_isdir demo_world;
  glob_glob pattern :=
    if String.eqb pattern "data/0_a/*.wav" then ["data/0_a/good.wav"]
    else if String.eqb pattern "data/1_b/*.wav" then ["data/1_b/x.wav"]
    else [];
  librosa_load := librosa_load demo_world;
  melspectrogram := melspectrogram demo_world;
  power_to_db := power_to_db demo_world;
  int32_of_str := decimal_int
|}.


(** The same attributes with [overlap = 0]. *)
Definition demo_self_zero_overlap : attrs Q := {|
  sample_rate := 8000;
  window_size := 4;
  overlap := 0;
  window_size_factor := 2;
  hop_length := 2;
  window_size_fft := 4;
  number_filters_spectrogram := 1;
  decibel_scale_factor := (80 # 1)%Q;
  patch_size := (2, 2);
  file_extension := "*.wav"
|}.

(** ** Stand-ins to run [train] on the small world *)

(** A toy engine: its state counts the models built; a model is its
    number, a history the size of its training set; every prediction is
    [[1, 0]]. *)
Definition demo_lib : collaborators Q nat nat nat (list (list Z)) unit := {|
  stratified_k_fold _ X _ := Ok [(seq 0 (length X), seq 0 (length X))];
  randint := cyclic_draw;
  build_model _ _ _ := fun built => (Ok built, S built);
  summary _ := ret tt;
  compile_and_train model _ train_data _ _ _ _ := ret (length train_data, model);
  predict _ X := ret (map (fun _ => [1 # 1; 0 # 1]%Q) X);
  numpy_argmax := map (fun _ => 0);
  calculate_metrics _ _ _ :=
    Ok (Metrics (1 # 1)%Q (1 # 1)%Q (1 # 1)%Q (1 # 1)%Q, [[1]]);
  numpy_mean _ := (1 # 1)%Q;
  numpy_std _ := (0 # 1)%Q;
  mean_confusion_matrix _ := Ok [[1]]
|}.

(** Two splitters with the same train/validation pool and different
    test partitions. *)
Definition split_empty_test : splitter Q :=
  fun X y => Ok (X, [], y, []).
Definition split_full_test : splitter Q :=
  fun X y => Ok (X, X, y, y).

Definition demo_trainer : trainer Q unit :=
  Trainer demo_self 1 2 32 "sparse_categorical_crossentropy" (Some 2) "demo" tt.

Definition demo_lstm_arguments : AudioLSTM.arguments Q unit :=
  AudioLSTM.Arguments 2 (80 # 1)%Q 2 2 tt.

Definition demo_ast_arguments : AudioAST.arguments Q unit :=
  AudioAST.Arguments 2 (2, 2) 2 (80 # 1)%Q 4 3 1 tt.



Definition demo_residual_arguments : ResidualModel.arguments Q unit :=
  ResidualModel.Arguments 2 (80 # 1)%Q 3 1 2 tt.

(** Whether the character [c] occurs in [s] ([c in s]). *)
Fixpoint occurs (c : Ascii.ascii) (s : string) : bool :=
  match s with
  | EmptyString => false
  | String c' s' => Ascii.eqb c' c || occurs c s'
  end.

(** A statement keeps an invariant of the locals when the locals it
    leaves satisfy it whenever the locals it starts from do, whether it
    returns or raises. *)
Definition keeps {S A} (P : S -> Prop) (m : M S A) : Prop :=
  forall s, P s -> P (m s).2.

(** The two accumulators of a loader are equally long. *)
Definition parallel {T} (s : locals T) : Prop :=
  length (list_spectrogram s) = length (list_labels s).

(* ================================================================== *)
(** * Properties *)
(* ================================================================== *)

(** ** The [windows] generator *)

Section WindowsFacts.
Context {A : Type}.
Variable data : list A.
Variables window_size overlap : Z.

Let L := Z.of_nat (length data).
Let s := window_size `div` overlap.

(** Resuming after a [yield] is testing the loop at the advanced start. *)
Lemma windows_run_resume fuel start :
  overlap <> 0 ->
  windows_run data window_size overlap fuel (AtYield start)
  = windows_run data window_size overlap fuel (AtTest (start + s)).
Proof.
  intros Hov. destruct fuel as [|f]; [done|].
  cbn [windows_run windows_next]. unfold py_floordiv.
  destruct (Z.eqb_spec overlap 0) as [->|_]; [done|]. done.
Qed.

(** With a positive step, [n] yields take the start from below [L] to
    [L] or beyond, and then the loop ends. *)
Lemma windows_run_from n : forall start fuel,
  overlap <> 0 -> 0 < s ->
  start + (Z.of_nat n - 1) * s < L \/ n = O ->
  L <= start + Z.of_nat n * s ->
  (n < fuel)%nat ->
  windows_run data window_size overlap fuel (AtTest start)
  = (map (fun k => (start + Z.of_nat k * s, start + Z.of_nat k * s + window_size))
         (seq 0 n), Exhausted).
Proof.
  induction n as [|n IH]; intros start fuel Hov Hs Hlo Hhi Hfuel.
  - destruct fuel as [|f]; [lia|].
    cbn [windows_run windows_next]. unfold windows_test. fold L.
    destruct (Z.ltb_spec start L); [lia|done].
  - destruct fuel as [|f]; [lia|].
    cbn [windows_run windows_next]. unfold windows_test. fold L.
    destruct Hlo as [Hlo|?]; [|done].
    destruct (Z.ltb_spec start L); [|nia].
    rewrite windows_run_resume by done.
    rewrite (IH (start + s) f); [|done|done| |lia|lia].
    2:{ destruct n; [by right|left; lia]. }
    cbn [seq map]. f_equal. f_equal; [f_equal; lia|].
    rewrite <- seq_shift, map_map. apply map_ext. intros k.
    f_equal; lia.
Qed.

(** With a step that does not advance, the loop over non-empty data
    never ends and never faults: fuel [n] buys exactly [n] pairs. *)
Lemma windows_run_stuck fuel : forall start,
  overlap <> 0 -> s <= 0 -> start < L ->
  exists vs, windows_run data window_size overlap fuel (AtTest start) = (vs, OutOfFuel)
             /\ length vs = fuel.
Proof.
  induction fuel as [|f IH]; intros start Hov Hs Hlt.
  - by exists [].
  - cbn [windows_run windows_next]. unfold windows_test. fold L.
    destruct (Z.ltb_spec start L); [|lia].
    rewrite windows_run_resume by done.
    destruct (IH (start + s)) as (vs & -> & Hlen); [done|done|lia|].
    eexists. split; [done|]. cbn [length]. by rewrite Hlen.
Qed.

(** No [next()] raises unless [overlap] is zero. *)
Lemma windows_next_no_fault st e :
  overlap <> 0 -> windows_next data window_size overlap st <> Throw e.
Proof.
  intros Hov. destruct st as [start|start|]; cbn [windows_next]; unfold windows_test.
  - by destruct (_ <? _).
  - unfold py_floordiv. destruct (Z.eqb_spec overlap 0); [done|].
    by destruct (_ <? _).
  - done.
Qed.

Lemma windows_run_no_fault fuel : forall st e,
  overlap <> 0 -> (windows_run data window_size overlap fuel st).2 <> Faulted e.
Proof.
  induction fuel as [|f IH]; intros st e Hov; [done|].
  cbn [windows_run].
  destruct (windows_next data window_size overlap st) as [v st'| |e'] eqn:Hn.
  - specialize (IH st' e Hov).
    by destruct (windows_run data window_size overlap f st').
  - done.
  - by apply windows_next_no_fault in Hn.
Qed.
End WindowsFacts.

Lemma ceil_div_bounds (a b : Z) :
  0 < b -> (ceil_div a b - 1) * b < a <= ceil_div a b * b.
Proof.
  intros Hb. unfold ceil_div.
  pose proof (Z.mul_div_le (- a) b Hb).
  pose proof (Z.mul_succ_div_gt (- a) b Hb). lia.
Qed.

Lemma ceil_div_nonneg (a b : Z) : 0 < b -> 0 <= a -> 0 <= ceil_div a b.
Proof. intros Hb Ha. pose proof (ceil_div_bounds a b Hb). nia. Qed.

(** C1 (amended): for [window_size >= 1] and [overlap >= 1] with a step
    [window_size // overlap >= 1], a complete iteration of [windows] over
    data of length [L] ends normally after exactly [ceil(L / step)] pairs;
    the k-th pair starts at [k * step] and every pair has
    [end = start + window_size]. *)
Theorem windows_yield_count {A} (data : list A) (window_size overlap : Z) :
  1 <= window_size -> 1 <= overlap -> 1 <= window_size `div` overlap ->
  forall fuel,
    (Z.to_nat (ceil_div (Z.of_nat (length data)) (window_size `div` overlap)) < fuel)%nat ->
    exists vs,
      windows_run data window_size overlap fuel windows = (vs, Exhausted)
      /\ Z.of_nat (length vs)
         = ceil_div (Z.of_nat (length data)) (window_size `div` overlap)
      /\ vs.*1 = map (fun k => Z.of_nat k * (window_size `div` overlap))
                     (seq 0 (length vs))
      /\ Forall (fun p => p.2 = p.1 + window_size) vs.
Proof.
  intros Hws Hov Hs fuel Hfuel.
  set (L := Z.of_nat (length data)) in *.
  set (s := window_size `div` overlap) in *.
  pose proof (ceil_div_bounds L s ltac:(lia)) as Hb.
  pose proof (ceil_div_nonneg L s ltac:(lia) ltac:(lia)) as Hn.
  set (n := Z.to_nat (ceil_div L s)) in *.
  assert (Hrun := windows_run_from data window_size overlap n 0 fuel).
  cbv zeta in Hrun. fold s L in Hrun. unfold windows.
  rewrite Hrun; [| lia | lia | | lia | done].
  2:{ destruct (decide (n = O)); [by right|left; lia]. }
  eexists. split; [done|].
  rewrite length_map, length_seq.
  repeat split.
  - lia.
  - rewrite <- list_fmap_compose. apply map_ext. intros k. cbn. lia.
  - apply Forall_forall. intros p Hp. apply list_elem_of_In, in_map_iff in Hp.
    destruct Hp as (k & <- & _). done.
Qed.

Lemma windows_yield_count_witness :
  exists vs,
    windows_run (replicate 10 ()) 4 2 6 windows = (vs, Exhausted)
    /\ Z.of_nat (length vs) = ceil_div (Z.of_nat (length (replicate 10 ()))) (4 `div` 2)
    /\ vs.*1 = map (fun k => Z.of_nat k * (4 `div` 2)) (seq 0 (length vs))
    /\ Forall (fun p => p.2 = p.1 + 4) vs.
Proof.
  apply (windows_yield_count (replicate 10 ()) 4 2); [lia | lia | | ].
  - vm_compute. discriminate.
  - vm_compute. lia.
Defined.

(** For [L = 10], [window_size = 4], [overlap = 2] the starts are
    [0, 2, 4, 6, 8]. *)
Example windows_10_4_2 :
  windows_run (replicate 10 ()) 4 2 6 windows
  = ([(0, 4); (2, 6); (4, 8); (6, 10); (8, 12)], Exhausted).
Proof. reflexivity. Qed.

(** C1 (counterexample): at [L = 10], [window_size = 4], [overlap = 2] the
    specified count is 4, while every complete iteration yields 5 pairs;
    at [L = 1], [window_size = 1], [overlap = 2] the step is 0 and the
    iteration never completes. *)
Lemma windows_spec_count_fails :
  spec_window_count 10 4 2 = 4
  /\ (forall fuel vs,
        windows_run (replicate 10 ()) 4 2 fuel windows = (vs, Exhausted) ->
        length vs = 5%nat)
  /\ (forall fuel, (windows_run [()] 1 2 fuel windows).2 = OutOfFuel).
Proof.
  split; [reflexivity|]. split.
  - intros fuel vs.
    destruct (decide (fuel < 6)%nat) as [Hlt|Hge].
    + do 6 (destruct fuel as [|fuel]; [vm_compute; discriminate|]). lia.
    + unfold windows.
      rewrite (windows_run_from (replicate 10 ()) 4 2 5 0 fuel);
        [| done | by vm_compute | left; by vm_compute | by vm_compute | lia].
      intros [= <-]. done.
  - intros fuel. unfold windows.
    destruct (windows_run_stuck [()] 1 2 fuel 0) as (vs & -> & _); try done.
Qed.

(** C7 (amended): over non-empty data, [overlap = 0] makes the iteration
    yield [(0, window_size)] and then raise [ZeroDivisionError] from the
    step expression, which the generator does not catch; with any
    [overlap <> 0], negative or positive, no fault is raised from any
    generator state. *)
Theorem windows_division_fault {A} (data : list A) (window_size overlap : Z) :
  data <> [] ->
  (overlap = 0 ->
   forall fuel, (2 <= fuel)%nat ->
     windows_run data window_size overlap fuel windows
     = ([(0, 0 + window_size)], Faulted ZeroDivisionError))
  /\ (overlap <> 0 ->
      forall fuel st e, (windows_run data window_size overlap fuel st).2 <> Faulted e).
Proof.
  intros Hne. split.
  - intros -> fuel Hfuel.
    destruct fuel as [|[|f]]; [lia|lia|].
    cbn [windows_run windows_next windows]. unfold windows_test.
    destruct data as [|x xs]; [done|]. cbn [length].
    destruct (Z.ltb_spec 0 (Z.of_nat (S (length xs)))); [|lia]. done.
  - intros Hov fuel st e. by apply windows_run_no_fault.
Qed.

Lemma windows_division_fault_witness :
  (0 = 0 ->
   forall fuel, (2 <= fuel)%nat ->
     windows_run [()] 4 0 fuel windows = ([(0, 0 + 4)], Faulted ZeroDivisionError))
  /\ (0 <> 0 -> forall fuel st e, (windows_run [()] 4 0 fuel st).2 <> Faulted e).
Proof. apply (windows_division_fault [()] 4 0). discriminate. Defined.

(** C7 (counterexample): with [overlap = -1] (which is [<= 0]) the step
    [4 // -1 = -4] is computed without a fault; over one sample the
    iteration raises nothing and never ends.  And with [overlap = 0] the
    fault is not fatal to [AudioLSTM.load_data]: it is caught per file,
    logged, and the load returns the first window of each file. *)
Lemma windows_nonpositive_overlap_counterexample :
  py_floordiv 4 (-1) = Ok (-4)
  /\ (forall fuel, (windows_run [()] 4 (-1) fuel windows).2 = OutOfFuel)
  /\ (exists features s,
        AudioLSTM.load_data demo_world_good demo_self_zero_overlap 10 "data" None
                            empty_locals
        = (Ok (Loaded features [0; 1]), s)
        /\ filter (fun r => r.1 = ERROR) (log s)
           = [(ERROR, "Error processing file 'data/0_a/good.wav': integer division or modulo by zero");
              (ERROR, "Error processing file 'data/1_b/x.wav': integer division or modulo by zero")]).
Proof.
  split; [reflexivity|]. split.
  - intros fuel. unfold windows.
    destruct (windows_run_stuck [()] 4 (-1) fuel 0) as (vs & -> & _); done.
  - do 2 eexists. split; vm_compute; reflexivity.
Qed.

(** ** Patch splitting *)

Lemma py_slice_nat {A} (l : list A) (i j : nat) :
  (i <= j <= length l)%nat ->
  py_slice l (Z.of_nat i) (Z.of_nat j) = take (j - i) (drop i l).
Proof.
  intros Hij. unfold py_slice, py_slice_bound.
  destruct (Z.ltb_spec (Z.of_nat i) 0); [lia|].
  destruct (Z.ltb_spec (Z.of_nat j) 0); [lia|].
  rewrite !Z.min_l by lia. f_equal; [lia|f_equal; lia].
Qed.

(** Padding rounds a length up to the next multiple of the patch size. *)
Lemma pad_amount (a p : Z) :
  0 < p -> 0 <= a ->
  0 <= (p - a `mod` p) `mod` p
  /\ a + (p - a `mod` p) `mod` p = ceil_div a p * p.
Proof.
  intros Hp Ha.
  pose proof (ceil_div_bounds a p Hp) as Hc.
  pose proof (Z.div_mod a p ltac:(lia)) as Hdm.
  pose proof (Z.mod_pos_bound a p Hp) as Hr.
  set (q := a `div` p) in *. set (r := a `mod` p) in *.
  set (c := ceil_div a p) in *.
  destruct (decide (r = 0)) as [H0|Hn0].
  - rewrite H0, Z.sub_0_r, Z_mod_same_full. split; [lia|].
    assert (c - 1 < q) by (apply (Z.mul_lt_mono_pos_r p); lia).
    assert (q <= c) by (apply (Z.mul_le_mono_pos_r _ _ p); lia).
    assert (c = q) as -> by lia. lia.
  - rewrite (Z.mod_small (p - r) p) by lia. split; [lia|].
    assert (c - 1 < q + 1) by (apply (Z.mul_lt_mono_pos_r p); lia).
    assert (q < c) by (apply (Z.mul_lt_mono_pos_r p); lia).
    assert (c = q + 1) as -> by lia. lia.
Qed.

(** Looking up position [a * n + b] in a concatenation of blocks of
    length [n] lands in block [a] at offset [b]. *)
Lemma flat_map_lookup_block {A B} (f : A -> list B) (n : nat) (l : list A) :
  (forall x, In x l -> length (f x) = n) ->
  forall a b, (b < n)%nat ->
    flat_map f l !! (a * n + b)%nat = l !! a ≫= fun x => f x !! b.
Proof.
  induction l as [|x l IH]; intros Hlen a b Hb; cbn [flat_map].
  - done.
  - destruct a as [|a].
    + cbn. rewrite lookup_app_l; [done|]. rewrite Hlen; [done|by left].
    + rewrite lookup_app_r; rewrite Hlen by (by left); [|lia].
      replace (S a * n + b - n)%nat with (a * n + b)%nat by lia.
      cbn [lookup list_lookup]. apply IH; [|done].
      intros y Hy. apply Hlen. by right.
Qed.

Lemma flat_map_length_block {A B} (f : A -> list B) (n : nat) (l : list A) :
  (forall x, In x l -> length (f x) = n) ->
  length (flat_map f l) = (length l * n)%nat.
Proof.
  induction l as [|x l IH]; intros Hlen; cbn [flat_map]; [done|].
  rewrite length_app, Hlen, IH; [done| |by left].
  intros y Hy. apply Hlen. by right.
Qed.

Section PatchFacts.
Context {T : Type}.
Variable zero : T.
Variables p0 p1 : nat.
Hypothesis Hp0 : (0 < p0)%nat.
Hypothesis Hp1 : (0 < p1)%nat.
Variable sp : array2 T.
Hypothesis Hwf : well_shaped sp.

Let h := (shape sp).1.
Let w := (shape sp).2.
Let nx := Z.to_nat (ceil_div (Z.of_nat h) (Z.of_nat p0)).
Let ny := Z.to_nat (ceil_div (Z.of_nat w) (Z.of_nat p1)).
Let patch_size : Z * Z := (Z.of_nat p0, Z.of_nat p1).

Let padded : list (list T) := padded_cells zero p0 p1 sp.

Lemma padded_height : (h <= nx * p0)%nat.
Proof.
  subst nx. pose proof (ceil_div_bounds (Z.of_nat h) (Z.of_nat p0) ltac:(lia)).
  pose proof (ceil_div_nonneg (Z.of_nat h) (Z.of_nat p0) ltac:(lia) ltac:(lia)). nia.
Qed.

Lemma padded_width : (w <= ny * p1)%nat.
Proof.
  subst ny. pose proof (ceil_div_bounds (Z.of_nat w) (Z.of_nat p1) ltac:(lia)).
  pose proof (ceil_div_nonneg (Z.of_nat w) (Z.of_nat p1) ltac:(lia) ltac:(lia)). nia.
Qed.

Lemma padded_spectrogram_ok :
  padded_spectrogram zero patch_size sp
  = Ok (Array2 (nx * p0, ny * p1)%nat padded).
Proof.
  unfold padded_spectrogram, py_mod, patch_size. cbn [fst snd].
  destruct (Z.eqb_spec (Z.of_nat p0) 0); [lia|].
  destruct (Z.eqb_spec (Z.of_nat p1) 0); [lia|].
  cbn [res_bind]. fold h w.
  destruct (pad_amount (Z.of_nat h) (Z.of_nat p0)) as [Hh0 Hh]; [lia|lia|].
  destruct (pad_amount (Z.of_nat w) (Z.of_nat p1)) as [Hw0 Hw]; [lia|lia|].
  pose proof (ceil_div_nonneg (Z.of_nat h) (Z.of_nat p0) ltac:(lia) ltac:(lia)).
  pose proof (ceil_div_nonneg (Z.of_nat w) (Z.of_nat p1) ltac:(lia) ltac:(lia)).
  unfold numpy_pad. fold h w.
  set (ph := (Z.of_nat p0 - Z.of_nat h `mod` Z.of_nat p0) `mod` Z.of_nat p0) in *.
  set (pw := (Z.of_nat p1 - Z.of_nat w `mod` Z.of_nat p1) `mod` Z.of_nat p1) in *.
  destruct (Z.ltb_spec ph 0); [lia|]. destruct (Z.ltb_spec pw 0); [lia|].
  cbn [orb]. unfold padded, padded_cells; fold h w; fold nx ny.
  assert (Z.to_nat ph = nx * p0 - h)%nat as -> by (subst nx; nia).
  assert (Z.to_nat pw = ny * p1 - w)%nat as -> by (subst ny; nia).
  pose proof padded_height. pose proof padded_width.
  replace (h + (nx * p0 - h))%nat with (nx * p0)%nat by lia.
  replace (w + (ny * p1 - w))%nat with (ny * p1)%nat by lia.
  done.
Qed.

Lemma padded_well_shaped :
  well_shaped (Array2 (nx * p0, ny * p1)%nat padded).
Proof.
  destruct Hwf as [Hlen Hrows]. fold h in Hlen. fold w in Hrows.
  pose proof padded_height. pose proof padded_width.
  split; cbn [shape cells fst snd]; unfold padded, padded_cells; fold h w; fold nx ny.
  - rewrite length_app, length_map, length_replicate. lia.
  - apply Forall_app. split.
    + apply Forall_forall. intros r Hr. apply list_elem_of_In, in_map_iff in Hr.
      destruct Hr as (r0 & <- & Hr0). rewrite length_app, length_replicate.
      rewrite Forall_forall in Hrows. rewrite (Hrows r0); [lia|].
      by apply list_elem_of_In.
    + apply Forall_replicate. by rewrite length_replicate.
Qed.

(** Inside the padded array every cell holds the original value where
    there is one and zero elsewhere. *)
Lemma padded_cell i j :
  (i < nx * p0)%nat -> (j < ny * p1)%nat ->
  cell padded i j = Some (default zero (cell (cells sp) i j)).
Proof.
  intros Hi Hj. destruct Hwf as [Hlen Hrows]. fold h in Hlen. fold w in Hrows.
  unfold cell, padded, padded_cells; fold h w; fold nx ny.
  destruct (decide (i < h)%nat) as [Hih|Hih].
  - rewrite lookup_app_l by (rewrite length_map; lia).
    rewrite list_lookup_fmap.
    destruct (lookup_lt_is_Some_2 (cells sp) i ltac:(lia)) as [r Hr].
    rewrite Hr. cbn [fmap option_fmap option_map mbind option_bind].
    assert (length r = w) as Hrw.
    { rewrite Forall_lookup in Hrows. by apply (Hrows i). }
    destruct (decide (j < w)%nat) as [Hjw|Hjw].
    + rewrite lookup_app_l by lia.
      destruct (lookup_lt_is_Some_2 r j ltac:(lia)) as [x Hx]. by rewrite Hx.
    + rewrite lookup_app_r by lia. rewrite lookup_replicate_2 by lia.
      rewrite (lookup_ge_None_2 r j) by lia. done.
  - rewrite lookup_app_r by (rewrite length_map; lia).
    rewrite length_map, lookup_replicate_2 by lia.
    cbn [mbind option_bind]. rewrite lookup_replicate_2 by lia.
    rewrite (lookup_ge_None_2 (cells sp) i) by lia. done.
Qed.

Lemma py_range1_lookup (n a : nat) :
  (a < n)%nat -> py_range1 (Z.of_nat n) !! a = Some (Z.of_nat a).
Proof.
  intros Ha. unfold py_range1. rewrite list_lookup_fmap, Nat2Z.id.
  by rewrite lookup_seq_lt.
Qed.

(** The patch cut for patch row [a] and patch column [b]. *)
Lemma slice2_cell a b i j :
  (a < nx)%nat -> (b < ny)%nat -> (i < p0)%nat -> (j < p1)%nat ->
  let P := slice2 (Array2 (nx * p0, ny * p1)%nat padded)
             (Z.of_nat a * Z.of_nat p0) ((Z.of_nat a + 1) * Z.of_nat p0)
             (Z.of_nat b * Z.of_nat p1) ((Z.of_nat b + 1) * Z.of_nat p1) in
  length P = p0 /\ Forall (fun r => length r = p1) P
  /\ cell P i j = cell padded (a * p0 + i) (b * p1 + j).
Proof.
  intros Ha Hb Hi Hj. destruct padded_well_shaped as [Hlen Hrows].
  cbn [shape cells fst snd] in Hlen, Hrows.
  unfold slice2. cbn [cells fst snd].
  replace (Z.of_nat a * Z.of_nat p0) with (Z.of_nat (a * p0)) by lia.
  replace ((Z.of_nat a + 1) * Z.of_nat p0) with (Z.of_nat ((a + 1) * p0)) by lia.
  replace (Z.of_nat b * Z.of_nat p1) with (Z.of_nat (b * p1)) by lia.
  replace ((Z.of_nat b + 1) * Z.of_nat p1) with (Z.of_nat ((b + 1) * p1)) by lia.
  rewrite py_slice_nat by nia.
  replace ((a + 1) * p0 - a * p0)%nat with p0 by lia.
  assert (forall r, In r (take p0 (drop (a * p0) padded)) ->
                    length r = (ny * p1)%nat) as Hin.
  { intros r Hr. rewrite Forall_forall in Hrows. apply Hrows.
    apply list_elem_of_In in Hr.
    apply (subseteq_take p0), (subseteq_drop (a * p0)) in Hr. done. }
  split; [|split].
  - rewrite length_map, length_take, length_drop. nia.
  - apply Forall_forall. intros r Hr. apply list_elem_of_In, in_map_iff in Hr.
    destruct Hr as (r0 & <- & Hr0). apply Hin in Hr0.
    rewrite py_slice_nat by nia. rewrite length_take, length_drop. nia.
  - unfold cell. rewrite list_lookup_fmap, lookup_take_lt, lookup_drop by done.
    destruct (padded !! (a * p0 + i)%nat) as [r|] eqn:Hr; [|done].
    cbn [fmap option_fmap option_map mbind option_bind].
    assert (length r = (ny * p1)%nat) as Hrl.
    { rewrite Forall_lookup in Hrows. by apply (Hrows _ _ Hr). }
    rewrite py_slice_nat by nia.
    by rewrite lookup_take_lt, lookup_drop by lia.
Qed.

(** What [split_spectrogram_into_patches] returns for positive patch
    sizes: [nx * ny] patches of shape [(p0, p1)], patch row by patch
    row, each cell the original value or the zero of the padding. *)
Lemma split_spectrogram_into_patches_ok :
  exists patches,
    split_spectrogram_into_patches zero patch_size sp = Ok patches
    /\ length patches = (nx * ny)%nat
    /\ Forall (fun P => length P = p0 /\ Forall (fun r => length r = p1) P) patches
    /\ forall a b i j,
         (a < nx)%nat -> (b < ny)%nat -> (i < p0)%nat -> (j < p1)%nat ->
         patches !! (a * ny + b)%nat ≫= (fun P => cell P i j)
         = Some (default zero (cell (cells sp) (a * p0 + i) (b * p1 + j))).
Proof.
  unfold split_spectrogram_into_patches. rewrite padded_spectrogram_ok.
  cbn [res_bind shape fst snd]. unfold py_floordiv, patch_size. cbn [fst snd].
  destruct (Z.eqb_spec (Z.of_nat p0) 0); [lia|].
  destruct (Z.eqb_spec (Z.of_nat p1) 0); [lia|].
  cbn [res_bind].
  rewrite !Nat2Z.inj_mul, !Z.div_mul by lia.
  eexists. split; [done|].
  set (f := fun i : Z => map _ (py_range1 (Z.of_nat ny))).
  assert (forall x, In x (py_range1 (Z.of_nat nx)) -> length (f x) = ny) as Hlen.
  { intros x _. unfold f, py_range1. by rewrite !length_map, length_seq, Nat2Z.id. }
  split; [|split].
  - rewrite (flat_map_length_block f ny) by done.
    unfold py_range1. by rewrite length_map, length_seq, Nat2Z.id.
  - apply Forall_forall. intros P HP.
    apply list_elem_of_In, in_flat_map in HP. destruct HP as (x & Hx & HP).
    unfold f in HP. apply in_map_iff in HP. destruct HP as (y & <- & Hy).
    unfold py_range1 in Hx, Hy. apply in_map_iff in Hx, Hy.
    destruct Hx as (a & <- & Ha). destruct Hy as (b & <- & Hb).
    apply in_seq in Ha, Hb. rewrite Nat2Z.id in Ha, Hb.
    destruct (slice2_cell a b 0 0) as (H1 & H2 & _); [lia|lia|lia|lia|].
    done.
  - intros a b i j Ha Hb Hi Hj.
    rewrite (flat_map_lookup_block f ny) by done.
    rewrite py_range1_lookup by done. cbn [mbind option_bind].
    unfold f. rewrite list_lookup_fmap, py_range1_lookup by done.
    cbn [fmap option_fmap option_map mbind option_bind].
    destruct (slice2_cell a b i j) as (_ & _ & ->); [done..|].
    apply padded_cell; nia.
Qed.
End PatchFacts.

(** C6: with patch size [(16, 16)] a spectrogram of shape [(h, w)] is
    zero-padded to [(16 * ceil(h/16), 16 * ceil(w/16))] and cut into
    [ceil(h/16) * ceil(w/16)] patches of shape [(16, 16)], patch row by
    patch row; each cell of each patch is the original value at that
    position, or zero where the position lies in the padding.  For shape
    [(17, 31)] the padded shape is [(32, 32)] and there are 4 patches. *)
Theorem split_spectrogram_into_patches_16 {T} (zero : T) (sp : array2 T) :
  well_shaped sp ->
  let nx := Z.to_nat (ceil_div (Z.of_nat (shape sp).1) 16) in
  let ny := Z.to_nat (ceil_div (Z.of_nat (shape sp).2) 16) in
  exists padded patches,
    padded_spectrogram zero (16, 16) sp = Ok padded
    /\ shape padded = (nx * 16, ny * 16)%nat
    /\ well_shaped padded
    /\ (forall i j, (i < nx * 16)%nat -> (j < ny * 16)%nat ->
          cell (cells padded) i j = Some (default zero (cell (cells sp) i j)))
    /\ split_spectrogram_into_patches zero (16, 16) sp = Ok patches
    /\ length patches = (nx * ny)%nat
    /\ Forall (fun P => length P = 16%nat /\ Forall (fun r => length r = 16%nat) P)
              patches
    /\ (forall a b i j,
          (a < nx)%nat -> (b < ny)%nat -> (i < 16)%nat -> (j < 16)%nat ->
          patches !! (a * ny + b)%nat ≫= (fun P => cell P i j)
          = Some (default zero (cell (cells sp) (a * 16 + i) (b * 16 + j))))
    /\ (shape sp = (17, 31)%nat ->
        shape padded = (32, 32)%nat /\ length patches = 4%nat).
Proof.
  intros Hwf nx ny.
  assert (0 < 16)%nat as H16 by lia.
  destruct (split_spectrogram_into_patches_ok zero 16 16 H16 H16 sp Hwf)
    as (patches & Hsplit & Hlen & Hshape & Hcells).
  change (Z.of_nat 16) with 16 in *. fold nx ny in Hlen, Hcells.
  exists (Array2 (nx * 16, ny * 16)%nat (padded_cells zero 16 16 sp)), patches.
  split; [apply (padded_spectrogram_ok zero 16 16 H16 H16 sp)|].
  split; [done|].
  split; [apply (padded_well_shaped zero 16 16 H16 H16 sp Hwf)|].
  split; [intros i j; apply (padded_cell zero 16 16 H16 H16 sp Hwf)|].
  split; [done|]. split; [done|]. split; [done|]. split; [done|].
  intros Hs. cbn [shape]. rewrite Hlen. subst nx ny. rewrite Hs. done.
Qed.

Lemma split_spectrogram_into_patches_16_witness :
  exists patches,
    split_spectrogram_into_patches 0 (16, 16) spectrogram_17_31 = Ok patches
    /\ length patches = 4%nat
    /\ patches !! 0%nat ≫= (fun P => cell P 0 0) = Some 1
    /\ patches !! 3%nat ≫= (fun P => cell P 1 15) = Some 0.
Proof.
  assert (well_shaped spectrogram_17_31) as Hwf.
  { split; [reflexivity|]. cbn. repeat constructor. }
  destruct (split_spectrogram_into_patches_16 0 spectrogram_17_31 Hwf)
    as (padded & patches & _ & _ & _ & _ & Hsplit & _ & _ & Hcells & Hshape).
  exists patches. split; [exact Hsplit|].
  split; [apply Hshape; reflexivity|].
  split.
  - apply (Hcells 0 0 0 0)%nat; vm_compute; lia.
  - apply (Hcells 1 1 1 15)%nat; vm_compute; lia.
Defined.

(** ** The class balancer *)

Lemma insert_unique_elem (x y : Z) (l : list Z) :
  y ∈ insert_unique x l <-> y = x \/ y ∈ l.
Proof.
  induction l as [|z l IH]; cbn [insert_unique].
  - rewrite list_elem_of_singleton. set_solver.
  - destruct (Z.ltb_spec x z); [set_solver|].
    destruct (Z.eqb_spec x z) as [->|]; [set_solver|].
    rewrite !elem_of_cons, IH. tauto.
Qed.

Lemma insert_unique_sorted (x : Z) (l : list Z) :
  StronglySorted Z.lt l -> StronglySorted Z.lt (insert_unique x l).
Proof.
  induction l as [|z l IH]; intros Hs; cbn [insert_unique].
  - repeat constructor.
  - apply StronglySorted_cons in Hs as [Hz Hs].
    destruct (Z.ltb_spec x z).
    + apply StronglySorted_cons. split.
      * constructor; [done|]. eapply Forall_impl; [exact Hz|]. intros; cbn in *; lia.
      * by apply StronglySorted_cons.
    + destruct (Z.eqb_spec x z) as [->|]; [by apply StronglySorted_cons|].
      apply StronglySorted_cons. split; [|by apply IH].
      apply Forall_forall. intros y Hy. apply insert_unique_elem in Hy as [->|Hy]; [lia|].
      rewrite Forall_forall in Hz. by apply Hz.
Qed.

Lemma numpy_unique_elem (y : Z) (labels : list Z) :
  y ∈ numpy_unique labels <-> y ∈ labels.
Proof.
  induction labels as [|x l IH]; cbn [numpy_unique foldr]; [done|].
  fold (numpy_unique l). rewrite insert_unique_elem, IH. set_solver.
Qed.

Lemma numpy_unique_sorted (labels : list Z) :
  StronglySorted Z.lt (numpy_unique labels).
Proof.
  induction labels as [|x l IH]; cbn [numpy_unique foldr]; [constructor|].
  by apply insert_unique_sorted.
Qed.

Lemma eq_mask_length (labels : list Z) (c : Z) :
  length (eq_mask labels c) = length labels.
Proof. unfold eq_mask. by rewrite length_map. Qed.

Lemma count_true_cons (b : bool) (mask : list bool) :
  count_true (b :: mask) = ((if b then 1 else 0) + count_true mask)%nat.
Proof.
  unfold count_true. rewrite filter_cons. destruct b; case_decide; done.
Qed.

Lemma count_true_app (m1 m2 : list bool) :
  count_true (m1 ++ m2) = (count_true m1 + count_true m2)%nat.
Proof. unfold count_true. by rewrite filter_app, length_app. Qed.

Lemma count_eq_mask_pos (labels : list Z) (c : Z) :
  (0 < count_true (eq_mask labels c))%nat <-> c ∈ labels.
Proof.
  induction labels as [|x l IH]; cbn [eq_mask map].
  - cbn. split; [lia|]. by intros ?%elem_of_nil.
  - fold (eq_mask l c). rewrite count_true_cons, elem_of_cons.
    destruct (Z.eqb_spec x c) as [->|Hne].
    + split; [by left|lia].
    + rewrite Nat.add_0_l, IH. split; [by right|]. by intros [->|].
Qed.

Lemma count_eq_mask_replicate (n : nat) (c d : Z) :
  count_true (eq_mask (replicate n d) c) = if decide (d = c) then n else O.
Proof.
  induction n as [|n IH]; cbn [replicate eq_mask map]; [by case_decide|].
  fold (eq_mask (replicate n d) c). rewrite count_true_cons, IH.
  destruct (Z.eqb_spec d c); case_decide; done.
Qed.

(** Masking the labels with their own class mask leaves that class only. *)
Lemma mask_rows_labels (labels : list Z) (c : Z) :
  mask_rows labels (eq_mask labels c)
  = replicate (count_true (eq_mask labels c)) c.
Proof.
  induction labels as [|x l IH]; [done|].
  cbn [eq_mask map mask_rows]. fold (eq_mask l c). rewrite count_true_cons.
  destruct (Z.eqb_spec x c) as [->|]; cbn [Nat.add replicate]; by rewrite IH.
Qed.

Lemma mask_rows_length {X} (a : list X) (mask : list bool) :
  length a = length mask -> length (mask_rows a mask) = count_true mask.
Proof.
  revert mask. induction a as [|x a IH]; intros [|b mask] Hlen; try done.
  cbn [mask_rows]. rewrite count_true_cons.
  destruct b; cbn [length]; rewrite IH; cbn in *; lia.
Qed.

(** Every row selected by a class mask is a row of the input that
    carries that label. *)
Lemma mask_rows_origin {X} (a : list X) (labels : list Z) (c : Z) (x : X) :
  x ∈ mask_rows a (eq_mask labels c) ->
  exists i, a !! i = Some x /\ labels !! i = Some c.
Proof.
  revert labels. induction a as [|y a IH]; intros [|l labels]; cbn [eq_mask map mask_rows];
    try by intros ?%elem_of_nil.
  fold (eq_mask labels c). destruct (Z.eqb_spec l c) as [->|].
  - intros [->|Hx]%elem_of_cons; [by exists O|].
    destruct (IH _ Hx) as (i & ? & ?). by exists (S i).
  - intros Hx. destruct (IH _ Hx) as (i & ? & ?). by exists (S i).
Qed.

Lemma numpy_take_ok {X} (a : list X) (indices : list nat) :
  Forall (fun i => (i < length a)%nat) indices ->
  exists xs, numpy_take a indices = Ok xs
             /\ Forall2 (fun i x => a !! i = Some x) indices xs.
Proof.
  induction 1 as [|i rest Hi _ IH]; cbn [numpy_take].
  - by exists [].
  - destruct (lookup_lt_is_Some_2 a i Hi) as [x Hx]. rewrite Hx.
    destruct IH as (xs & -> & Hxs). exists (x :: xs). split; [done|].
    by constructor.
Qed.

Lemma py_max_ok (xs : list nat) :
  xs <> [] ->
  exists m, py_max xs = Ok m /\ m ∈ xs /\ Forall (fun x => (x <= m)%nat) xs.
Proof.
  destruct xs as [|x xs]; [done|]. intros _. cbn [py_max].
  eexists. split; [done|]. revert x.
  induction xs as [|y xs IH]; intros x; cbn [foldl].
  - split; [set_solver|]. by repeat constructor.
  - destruct (IH (x `max` y)%nat) as [Hin Hall].
    apply Forall_cons in Hall as [Hm Hall]. split.
    + apply elem_of_cons in Hin as [Hin|Hin]; [|set_solver].
      rewrite Hin. destruct (Nat.max_spec x y) as [[_ ->]|[_ ->]]; set_solver.
    + repeat constructor; [lia|lia|done].
Qed.

Section BalanceFacts.
Context {F : Type}.
Variable randint : nat -> nat -> list nat.

(** What the index draw of [resample] guarantees: [k] indices, each
    inside the population. *)
Hypothesis randint_spec : forall n k,
  (0 < n)%nat ->
  length (randint n k) = k /\ Forall (fun i => (i < n)%nat) (randint n k).

Lemma resample_ok (features_class : list F) (labels_class : list Z) (k : nat) :
  length features_class = length labels_class ->
  (0 < length features_class)%nat ->
  exists fs ls,
    resample randint features_class labels_class k = Ok (fs, ls)
    /\ length fs = k /\ length ls = k
    /\ Forall (fun x => x ∈ features_class) fs
    /\ Forall (fun y => y ∈ labels_class) ls.
Proof.
  intros Hlen Hpos. unfold resample.
  destruct (decide (length features_class = length labels_class)); [|done].
  destruct (decide (length features_class = O)); [lia|].
  destruct (randint_spec (length features_class) k Hpos) as [Hk Hidx].
  destruct (numpy_take_ok features_class _ Hidx) as (fs & -> & Hfs).
  assert (Forall (fun i => (i < length labels_class)%nat)
                 (randint (length features_class) k)) as Hidx'.
  { eapply Forall_impl; [exact Hidx|]. intros i Hi. cbn in Hi. lia. }
  destruct (numpy_take_ok labels_class _ Hidx') as (ls & -> & Hls).
  cbn [res_bind].
  exists fs, ls. split; [done|].
  pose proof (Forall2_length _ _ _ Hfs). pose proof (Forall2_length _ _ _ Hls).
  split; [lia|]. split; [lia|]. split.
  - apply Forall_forall. intros x Hx.
    destruct (list_elem_of_lookup_1 _ _ Hx) as [j Hj].
    destruct (Forall2_lookup_r _ _ _ _ _ Hfs Hj) as (i & _ & Hi).
    by eapply list_elem_of_lookup_2.
  - apply Forall_forall. intros y Hy.
    destruct (list_elem_of_lookup_1 _ _ Hy) as [j Hj].
    destruct (Forall2_lookup_r _ _ _ _ _ Hls Hj) as (i & _ & Hi).
    by eapply list_elem_of_lookup_2.
Qed.

(** One round of the loop over the classes, for a class that occurs. *)
Lemma balance_block_ok (features : list F) (labels : list Z) (c : Z) (m : nat) :
  length features = length labels -> c ∈ labels ->
  exists fs,
    res_bind (mask_select features (eq_mask labels c)) (fun features_class =>
    res_bind (mask_select labels (eq_mask labels c)) (fun labels_class =>
    resample randint features_class labels_class m))
    = Ok (fs, replicate m c)
    /\ length fs = m
    /\ Forall (fun x => exists i, features !! i = Some x /\ labels !! i = Some c) fs.
Proof.
  intros Hlen Hc. unfold mask_select. rewrite !eq_mask_length.
  destruct (decide (length features = length labels)); [|done].
  destruct (decide (length labels = length labels)); [|done].
  cbn [res_bind]. rewrite mask_rows_labels.
  set (n := count_true (eq_mask labels c)).
  assert (0 < n)%nat as Hn by (by apply count_eq_mask_pos).
  destruct (resample_ok (mask_rows features (eq_mask labels c)) (replicate n c) m)
    as (fs & ls & -> & Hfs & Hls & Hfrom & Hall).
  { rewrite length_replicate. apply mask_rows_length. by rewrite eq_mask_length. }
  { rewrite mask_rows_length; [done|]. by rewrite eq_mask_length. }
  assert (ls = replicate m c) as ->.
  { symmetry. apply replicate_as_Forall. split; [done|].
    eapply Forall_impl; [exact Hall|]. intros y Hy. cbn in Hy.
    by apply elem_of_replicate in Hy as [-> _]. }
  exists fs. split; [done|]. split; [done|].
  eapply Forall_impl; [exact Hfrom|]. intros x Hx. by apply mask_rows_origin.
Qed.

Lemma balance_blocks_ok (features : list F) (labels : list Z) (m : nat)
    (classes : list Z) :
  length features = length labels ->
  Forall (fun c => c ∈ labels) classes ->
  exists blocks,
    res_map (fun c =>
      res_bind (mask_select features (eq_mask labels c)) (fun features_class =>
      res_bind (mask_select labels (eq_mask labels c)) (fun labels_class =>
      resample randint features_class labels_class m))) classes
    = Ok blocks
    /\ map snd blocks = map (replicate m) classes
    /\ Forall2 (fun c fs =>
          length fs = m
          /\ Forall (fun x => exists i, features !! i = Some x /\ labels !! i = Some c) fs)
        classes (map fst blocks).
Proof.
  intros Hlen. induction 1 as [|c classes Hc _ IH]; cbn [res_map].
  - by exists [].
  - destruct (balance_block_ok features labels c m Hlen Hc) as (fs & -> & Hfs & Hfrom).
    destruct IH as (blocks & -> & Hsnd & Hfst). cbn [res_bind].
    exists ((fs, replicate m c) :: blocks). split; [done|].
    cbn [map fst snd]. rewrite Hsnd. split; [done|]. by constructor.
Qed.

(** The balancer, class by class: the labels come out as one run of
    [m] copies per distinct label, and the features as one block per
    label, each row drawn from the input rows of that label. *)
Lemma balance_classes_blocks (features : list F) (labels : list Z) :
  labels <> [] -> length features = length labels ->
  exists m blocks,
    balance_classes randint features labels
    = Ok (concat blocks, concat (map (replicate m) (numpy_unique labels)))
    /\ py_max (map snd (class_counts labels)) = Ok m
    /\ Forall2 (fun c fs =>
          length fs = m
          /\ Forall (fun x => exists i, features !! i = Some x /\ labels !! i = Some c) fs)
        (numpy_unique labels) blocks.
Proof.
  intros Hne Hlen. unfold balance_classes, class_counts.
  rewrite map_map. cbn [snd].
  destruct (py_max_ok (map (fun c => count_true (eq_mask labels c)) (numpy_unique labels)))
    as (m & -> & _ & _).
  { destruct labels as [|x l]; [done|]. intros Hmap.
    apply map_eq_nil in Hmap.
    assert (x ∈ numpy_unique (x :: l)) as Hx by (apply numpy_unique_elem; set_solver).
    rewrite Hmap in Hx. by apply elem_of_nil in Hx. }
  cbn [res_bind].
  destruct (balance_blocks_ok features labels m (numpy_unique labels) Hlen)
    as (blocks & -> & Hsnd & Hfst).
  { apply Forall_forall. intros c Hc. by apply numpy_unique_elem. }
  cbn [res_bind]. rewrite Hsnd. by exists m, (map fst blocks).
Qed.
End BalanceFacts.

Lemma concat_length_blocks {X} (m : nat) (blocks : list (list X)) :
  Forall (fun b => length b = m) blocks ->
  length (concat blocks) = (length blocks * m)%nat.
Proof.
  induction 1 as [|b blocks Hb _ IH]; [done|].
  cbn [concat length]. rewrite length_app, Hb, IH. lia.
Qed.

Lemma count_eq_mask_concat_replicate (m : nat) (classes : list Z) (c : Z) :
  NoDup classes ->
  count_true (eq_mask (concat (map (replicate m) classes)) c)
  = if decide (c ∈ classes) then m else O.
Proof.
  induction 1 as [|d classes Hd _ IH]; cbn [map concat].
  - rewrite decide_False; [done|]. by intros ?%elem_of_nil.
  - unfold eq_mask. rewrite map_app. fold (eq_mask (replicate m d) c).
    fold (eq_mask (concat (map (replicate m) classes)) c).
    rewrite count_true_app, count_eq_mask_replicate, IH.
    destruct (decide (d = c)) as [->|Hne].
    + rewrite (decide_True (P := c ∈ c :: classes)) by (by left).
      rewrite decide_False by done. lia.
    + destruct (decide (c ∈ classes)) as [Hin|Hin].
      * rewrite (decide_True (P := c ∈ d :: classes)) by (by right). done.
      * rewrite (decide_False (P := c ∈ d :: classes)); [done|].
        intros [->|?]%elem_of_cons; done.
Qed.

Lemma strictly_sorted_NoDup (l : list Z) : StronglySorted Z.lt l -> NoDup l.
Proof.
  induction 1 as [|x l _ IH Hx]; constructor; [|done].
  intros Hin. rewrite Forall_forall in Hx. specialize (Hx x Hin). lia.
Qed.

(** A strictly ascending list is the [numpy.unique] of any array with
    the same elements. *)
Lemma numpy_unique_of_sorted (l u : list Z) :
  StronglySorted Z.lt u -> (forall x, x ∈ l <-> x ∈ u) -> numpy_unique l = u.
Proof.
  intros Hu Hel.
  apply (StronglySorted_unique_strong Z.lt);
    [intros; lia|apply numpy_unique_sorted|done|].
  apply NoDup_Permutation.
  - apply strictly_sorted_NoDup, numpy_unique_sorted.
  - by apply strictly_sorted_NoDup.
  - intros x. by rewrite numpy_unique_elem.
Qed.

Lemma elem_of_concat_replicate (m : nat) (classes : list Z) (c : Z) :
  c ∈ concat (map (replicate m) classes) <-> c ∈ classes /\ m <> O.
Proof.
  induction classes as [|d classes IH]; cbn [map concat].
  - split; [by intros ?%elem_of_nil|]. by intros [?%elem_of_nil _].
  - rewrite elem_of_app, IH, elem_of_replicate, elem_of_cons. naive_solver.
Qed.

Lemma concat_replicate_sorted (m : nat) (classes : list Z) :
  StronglySorted Z.lt classes ->
  StronglySorted Z.le (concat (map (replicate m) classes)).
Proof.
  induction 1 as [|d classes _ IH Hd]; cbn [map concat]; [constructor|].
  apply StronglySorted_app. split; [|split; [|done]].
  - intros x y [-> _]%elem_of_replicate [Hy _]%elem_of_concat_replicate.
    rewrite Forall_forall in Hd. specialize (Hd y Hy). lia.
  - clear. induction m as [|m IH]; cbn [replicate]; constructor; [done|].
    apply Forall_forall. intros y [-> _]%elem_of_replicate. lia.
Qed.

Lemma cyclic_draw_spec (n k : nat) :
  (0 < n)%nat ->
  length (cyclic_draw n k) = k /\ Forall (fun i => (i < n)%nat) (cyclic_draw n k).
Proof.
  intros Hn. unfold cyclic_draw. split; [by rewrite length_map, length_seq|].
  apply Forall_forall. intros i Hi. apply list_elem_of_In, in_map_iff in Hi.
  destruct Hi as (j & <- & _). apply Nat.mod_upper_bound. lia.
Qed.

(** C5: on a non-empty input, [balance_classes] returns a dataset whose
    per-class counts list every distinct input label with the same count
    [max_count], the largest per-class count of the input; the output has
    [number of distinct labels * max_count] rows.  Input counts
    [{0:3, 1:7}] give output counts [{0:7, 1:7}] and 14 rows. *)
Theorem balance_classes_counts {F} (randint : nat -> nat -> list nat)
    (features : list F) (labels : list Z) :
  (forall n k, (0 < n)%nat ->
     length (randint n k) = k /\ Forall (fun i => (i < n)%nat) (randint n k)) ->
  labels <> [] -> length features = length labels ->
  exists bf bl max_count,
    balance_classes randint features labels = Ok (bf, bl)
    /\ py_max (map snd (class_counts labels)) = Ok max_count
    /\ Forall (fun cn => (cn.2 <= max_count)%nat) (class_counts labels)
    /\ (exists c, (c, max_count) ∈ class_counts labels)
    /\ class_counts bl = map (fun c => (c, max_count)) (numpy_unique labels)
    /\ length bl = (length (numpy_unique labels) * max_count)%nat
    /\ length bf = length bl
    /\ (class_counts labels = [(0, 3%nat); (1, 7%nat)] ->
        class_counts bl = [(0, 7%nat); (1, 7%nat)] /\ length bl = 14%nat).
Proof.
  intros Hdraw Hne Hlen.
  destruct (balance_classes_blocks randint Hdraw features labels Hne Hlen)
    as (m & blocks & Hrun & Hmax & Hblocks).
  set (U := numpy_unique labels) in *.
  set (bl := concat (map (replicate m) U)) in *.
  assert (map snd (class_counts labels) <> []) as Hcne.
  { intros Hnil. by rewrite Hnil in Hmax. }
  destruct (py_max_ok _ Hcne) as (m' & Hmax' & Hin & Hall).
  rewrite Hmax in Hmax'. injection Hmax' as <-.
  apply list_elem_of_In, in_map_iff in Hin. destruct Hin as ([c n] & Hn & Hin).
  cbn in Hn. subst n.
  assert (c ∈ U /\ m = count_true (eq_mask labels c)) as [HcU Hm].
  { unfold class_counts in Hin. apply in_map_iff in Hin.
    destruct Hin as (c' & [= <- ->] & Hc'). split; [by apply list_elem_of_In|done]. }
  assert (0 < m)%nat as Hmpos.
  { rewrite Hm. apply count_eq_mask_pos. by apply numpy_unique_elem. }
  assert (numpy_unique bl = U) as HU.
  { apply numpy_unique_of_sorted; [apply numpy_unique_sorted|].
    intros x. unfold bl. rewrite elem_of_concat_replicate. split; [tauto|].
    intros Hx. split; [done|lia]. }
  assert (class_counts bl = map (fun c => (c, m)) U) as Hcounts.
  { unfold class_counts. rewrite HU. apply map_ext_in. intros d Hd.
    unfold bl. rewrite count_eq_mask_concat_replicate
      by apply strictly_sorted_NoDup, numpy_unique_sorted.
    rewrite decide_True; [done|]. by apply list_elem_of_In. }
  assert (length bl = (length U * m)%nat) as Hbl.
  { unfold bl. rewrite (concat_length_blocks m).
    - by rewrite length_map.
    - apply Forall_forall. intros b Hb. apply list_elem_of_In, in_map_iff in Hb.
      destruct Hb as (d & <- & _). apply length_replicate. }
  exists (concat blocks), bl, m.
  split; [done|]. split; [done|]. split.
  { apply Forall_forall. intros [d n] Hd. cbn [snd].
    rewrite Forall_forall in Hall. apply Hall.
    apply list_elem_of_In, in_map_iff. exists (d, n). split; [done|].
    by apply list_elem_of_In. }
  split; [exists c; by apply list_elem_of_In|].
  split; [done|]. split; [done|]. split.
  { rewrite Hbl, (concat_length_blocks m).
    - by rewrite (Forall2_length _ _ _ Hblocks).
    - eapply Forall2_Forall_r; [exact Hblocks|]. apply Forall_forall.
      intros d _ b [Hb _]. done. }
  intros Hex. rewrite Hex in Hmax. cbn in Hmax. injection Hmax as <-.
  assert (U = [0; 1]) as HU01.
  { unfold class_counts in Hex. fold U in Hex.
    apply (f_equal (map fst)) in Hex. rewrite map_map in Hex. cbn in Hex.
    by rewrite map_id in Hex. }
  rewrite Hcounts, Hbl, HU01. done.
Qed.

Lemma balance_classes_counts_witness :
  exists bf bl,
    balance_classes cyclic_draw
      [10; 11; 12; 13; 14; 15; 16; 17; 18; 19] [1; 1; 0; 1; 0; 1; 1; 0; 1; 1]
    = Ok (bf, bl)
    /\ class_counts bl = [(0, 7%nat); (1, 7%nat)] /\ length bl = 14%nat
    /\ length bf = 14%nat.
Proof.
  destruct (balance_classes_counts cyclic_draw
              [10; 11; 12; 13; 14; 15; 16; 17; 18; 19] [1; 1; 0; 1; 0; 1; 1; 0; 1; 1]
              cyclic_draw_spec ltac:(discriminate) eq_refl)
    as (bf & bl & m & Hrun & _ & _ & _ & _ & _ & Hbf & Hex).
  exists bf, bl. split; [exact Hrun|].
  destruct (Hex eq_refl) as [Hc Hl].
  split; [exact Hc|]. split; [exact Hl|]. rewrite Hbf. exact Hl.
Defined.

(** C10: the balanced output is grouped by class in ascending label
    order: the feature array is the concatenation of one block of
    [max_count] rows per distinct label, the blocks in the strictly
    ascending order of [numpy.unique], every row of a block drawn from
    the input rows of that label; the label array is the matching runs of
    [max_count] equal labels, hence sorted. *)
Theorem balance_classes_grouped {F} (randint : nat -> nat -> list nat)
    (features : list F) (labels : list Z) :
  (forall n k, (0 < n)%nat ->
     length (randint n k) = k /\ Forall (fun i => (i < n)%nat) (randint n k)) ->
  labels <> [] -> length features = length labels ->
  exists max_count blocks,
    balance_classes randint features labels
    = Ok (concat blocks, concat (map (replicate max_count) (numpy_unique labels)))
    /\ py_max (map snd (class_counts labels)) = Ok max_count
    /\ StronglySorted Z.lt (numpy_unique labels)
    /\ Forall2 (fun c block =>
          length block = max_count
          /\ Forall (fun x => exists i, features !! i = Some x /\ labels !! i = Some c)
                    block)
        (numpy_unique labels) blocks
    /\ StronglySorted Z.le (concat (map (replicate max_count) (numpy_unique labels))).
Proof.
  intros Hdraw Hne Hlen.
  destruct (balance_classes_blocks randint Hdraw features labels Hne Hlen)
    as (m & blocks & Hrun & Hmax & Hblocks).
  exists m, blocks. split; [done|]. split; [done|].
  split; [apply numpy_unique_sorted|]. split; [done|].
  apply concat_replicate_sorted, numpy_unique_sorted.
Qed.

Lemma balance_classes_grouped_witness :
  exists blocks,
    balance_classes cyclic_draw [10; 11; 12; 13; 14] [1; 0; 1; 1; 0]
    = Ok (concat blocks, [0; 0; 0; 1; 1; 1])
    /\ length blocks = 2%nat.
Proof.
  destruct (balance_classes_grouped cyclic_draw [10; 11; 12; 13; 14] [1; 0; 1; 1; 0]
              cyclic_draw_spec ltac:(discriminate) eq_refl)
    as (m & blocks & Hrun & Hmax & _ & Hblocks & _).
  injection Hmax as <-. exists blocks. split; [exact Hrun|].
  symmetry. exact (Forall2_length _ _ _ Hblocks).
Defined.
(** ** Min-max normalisation of the raw-segment windows *)

Section NormalizeFacts.
Context {T : Type} `{Sample T}.

(** Induction over arrays of any rank. *)
Lemma ndarray_nested_ind (P : ndarray T -> Prop) :
  (forall x, P (Scalar x)) ->
  (forall l, Forall P l -> P (Arr l)) ->
  forall a, P a.
Proof.
  intros Hscalar Harr. fix IH 1. intros [x|l].
  - apply Hscalar.
  - apply Harr. induction l as [|a l IHl]; constructor; [apply IH|exact IHl].
Qed.

Lemma shape_of_nd_map (f : T -> T) (a : ndarray T) :
  shape_of (nd_map f a) = shape_of a.
Proof.
  induction a as [x|l IH] using ndarray_nested_ind; [done|].
  destruct l as [|a l]; [done|]. cbn [nd_map map shape_of].
  apply Forall_cons in IH as [Ha _]. by rewrite length_map, Ha.
Qed.

Lemma nd_flat_zeros_like (a : ndarray T) :
  nd_flat (numpy_zeros_like a) = replicate (length (nd_flat a)) s_zero.
Proof.
  unfold numpy_zeros_like.
  induction a as [x|l IH] using ndarray_nested_ind; [done|].
  cbn [nd_map nd_flat]. induction IH as [|a l Ha _ IHl]; [done|].
  cbn [map flat_map]. rewrite length_app, replicate_add, Ha. by f_equal.
Qed.

(** The constant branch: nothing is divided, the result is the zero
    array of the same shape. *)
Lemma min_max_normalize_constant (segments : ndarray T) (signal_min signal_max : T) :
  s_neq signal_max signal_min = false ->
  min_max_normalize segments signal_min signal_max = (numpy_zeros_like segments, [])
  /\ shape_of (numpy_zeros_like segments) = shape_of segments
  /\ nd_flat (numpy_zeros_like segments)
     = replicate (length (nd_flat segments)) s_zero.
Proof.
  intros Hneq. unfold min_max_normalize. rewrite Hneq.
  split; [done|]. split; [apply shape_of_nd_map|apply nd_flat_zeros_like].
Qed.

(** A division is evaluated only under the guard, and then only by
    [signal_max - signal_min]. *)
Lemma min_max_normalize_guard (segments : ndarray T) (signal_min signal_max d : T) :
  d ∈ (min_max_normalize segments signal_min signal_max).2 ->
  s_neq signal_max signal_min = true /\ d = s_sub signal_max signal_min.
Proof.
  unfold min_max_normalize. destruct (s_neq signal_max signal_min); cbn [snd].
  - by intros ->%list_elem_of_singleton.
  - by intros ?%elem_of_nil.
Qed.
End NormalizeFacts.

Lemma res_bind_ok {A B} (m : res A) (k : A -> res B) (b : B) :
  res_bind m k = Ok b -> exists a, m = Ok a /\ k a = Ok b.
Proof. destruct m as [a| |]; [|done..]. intros Hk. by exists a. Qed.

(** C8: when a raw-segment window is accepted and the absolute-valued
    segment array has [max == min], both loaders append the all-zero
    array of the same shape; that normalisation evaluates no division,
    and any division the normalisation ever evaluates happens under the
    guard [max != min]. *)
Theorem constant_window_gives_zeros {T} `{Sample T} (self : attrs T) (label : string)
    (se : Z * Z) (s : locals T) (window segments : ndarray T)
    (local_window : Z) (signal_min signal_max : T) :
  numpy_slice (signal s) se.1 se.2 = Ok window ->
  numpy_len window = Ok (window_size self) ->
  py_floordiv (window_size self) (window_size_factor self) = Ok local_window ->
  AudioLSTM.signal_segments (signal s) (window_size self) local_window = Ok segments ->
  numpy_min segments = Ok signal_min ->
  numpy_max segments = Ok signal_max ->
  s_neq signal_max signal_min = false ->
  AudioLSTM.window_step self label se s
  = (Ok tt, Locals (list_spectrogram s ++ [numpy_zeros_like segments])
                   (list_labels s ++ [label]) (signal s) (log s))
  /\ AudioDense.window_step self label se s
     = (Ok tt, Locals (list_spectrogram s ++ [numpy_zeros_like segments])
                      (list_labels s ++ [label]) segments (log s))
  /\ min_max_normalize segments signal_min signal_max
     = (numpy_zeros_like segments, [])
  /\ shape_of (numpy_zeros_like segments) = shape_of segments
  /\ nd_flat (numpy_zeros_like segments)
     = replicate (length (nd_flat segments)) s_zero
  /\ (forall segments' min' max' d,
        d ∈ (min_max_normalize segments' min' max').2 -> s_neq max' min' = true).
Proof.
  intros Hslice Hlen Hlw Hsegs Hmin Hmax Hneq.
  destruct (min_max_normalize_constant segments signal_min signal_max Hneq)
    as (Hnorm & Hshape & Hflat).
  split; [|split; [|split; [done|split; [done|split; [done|]]]]].
  - unfold AudioLSTM.window_step, bind, gets, lift, ret, append_sample, modify.
    rewrite Hslice, Hlen, Z.eqb_refl, Hlw, Hsegs, Hmin, Hmax, Hnorm. done.
  - unfold AudioLSTM.signal_segments in Hsegs.
    apply res_bind_ok in Hsegs as (starts & Hstarts & Hsegs).
    apply res_bind_ok in Hsegs as (pieces & Hpieces & Hsegs).
    apply res_bind_ok in Hsegs as (stacked & Hstacked & [= <-]).
    unfold AudioDense.window_step, bind, gets, lift, ret, append_sample, set_signal.
    unfold modify.
    rewrite Hslice, Hlen, Z.eqb_refl, Hlw, Hstarts, Hpieces. cbn [signal].
    rewrite Hstacked. cbn [signal]. rewrite Hmin, Hmax, Hnorm. done.
  - intros segments' min' max' d Hd.
    by apply min_max_normalize_guard in Hd as [? _].
Qed.

Lemma constant_window_gives_zeros_witness :
  AudioLSTM.window_step demo_self "1" (0, 4)
    (Locals [] [] (array1 [2 # 1; 2 # 1; 2 # 1; 2 # 1]%Q) [])
  = (Ok tt, Locals [array_of_rows (replicate 2 (replicate 2 0%Q))] ["1"]
                   (array1 [2 # 1; 2 # 1; 2 # 1; 2 # 1]%Q) [])
  /\ shape_of (numpy_zeros_like (array_of_rows (replicate 2 (replicate 2 (2 # 1)%Q))))
     = [2; 2]%nat.
Proof.
  destruct (constant_window_gives_zeros demo_self "1" (0, 4)
              (Locals [] [] (array1 [2 # 1; 2 # 1; 2 # 1; 2 # 1]%Q) [])
              (array1 [2 # 1; 2 # 1; 2 # 1; 2 # 1]%Q)
              (array_of_rows (replicate 2 (replicate 2 (2 # 1)%Q)))
              2 (2 # 1)%Q (2 # 1)%Q)
    as (Hlstm & _ & _ & Hshape & _); try (vm_compute; reflexivity).
  split; [exact Hlstm|exact Hshape].
Defined.

(** ** The dataset loaders *)

(** C3 (AST and LSTM as claimed, MLP and residual not): when the root
    directory does not exist, [AudioAST.load_dataset] and
    [AudioLSTM.load_data] log the error and return [(None, None)];
    [AudioDense.load_data] and [ResidualModel.load_data] have no such
    check, call [os.listdir] and let its [FileNotFoundError] escape, with
    no error line logged. *)
Theorem missing_root_directory {T} `{Sample T} (w : world T) (self : attrs T)
    (fuel : nat) (root : string) (ext : option string) (s : locals T) :
  os_path_exists w root = false ->
  AudioAST.load_dataset w self fuel root ext s
  = (Ok NoneNone,
     logged (logged s INFO "Starting to load the dataset...")
            ERROR ("Directory '" +:+ root +:+ "' does not exist."))
  /\ AudioLSTM.load_data w self fuel root ext s
     = (Ok NoneNone,
        logged (logged s INFO "Starting to load data...")
               ERROR ("Directory '" +:+ root +:+ "' does not exist."))
  /\ (os_listdir w root = Raise FileNotFoundError ->
      AudioDense.load_data w self fuel root ext s = (Raise FileNotFoundError, s)
      /\ ResidualModel.load_data w self fuel root ext s
         = (Raise FileNotFoundError,
            logged (logged s INFO "Starting data loading process.")
                   INFO ("Listing subdirectories in " +:+ root))).
Proof.
  intros Hmissing. split; [|split].
  - unfold AudioAST.load_dataset, bind, logging, modify, ret. cbn.
    rewrite Hmissing. done.
  - unfold AudioLSTM.load_data, bind, logging, modify, ret. cbn.
    rewrite Hmissing. done.
  - intros Hlist. split.
    + unfold AudioDense.load_data, bind, lift. by rewrite Hlist.
    + unfold ResidualModel.load_data, bind, lift, logging, modify. cbn.
      by rewrite Hlist.
Qed.

Lemma missing_root_directory_witness :
  AudioLSTM.load_data demo_world demo_self 10 "nowhere" None empty_locals
  = (Ok NoneNone,
     Locals [] [] (Arr []) [(INFO, "Starting to load data...");
                            (ERROR, "Directory 'nowhere' does not exist.")])
  /\ AudioDense.load_data demo_world demo_self 10 "nowhere" None empty_locals
     = (Raise FileNotFoundError, empty_locals).
Proof.
  destruct (missing_root_directory demo_world demo_self 10 "nowhere" None
              empty_locals eq_refl) as (_ & Hlstm & Hrest).
  destruct (Hrest eq_refl) as [Hdense _].
  split; [exact Hlstm|exact Hdense].
Defined.

(** The [except Exception] clause of the AST and LSTM loaders turns every
    exception of the file body into a log line. *)
Lemma try_logged_never_raises {T} (body : M (locals T) unit)
    (msg : exn -> string) (s : locals T) (e : exn) :
  (try_except body (fun e => logging ERROR (msg e)) s).1 <> Raise e.
Proof.
  unfold try_except. destruct (body s) as [[[]|e'|] s']; done.
Qed.

(** C4 (AST and LSTM as claimed, MLP and residual not): when decoding a
    file raises, the AST and LSTM loaders log the error and go on with the
    remaining files of the directory, and their per-file step never
    raises whatever fails inside it; the MLP and residual loaders have no
    [try] and the exception ends the loop over the files. *)
Theorem undecodable_file {T} `{Sample T} (w : world T) (self : attrs T)
    (fuel : nat) (file_name : string) (rest : list string) (s : locals T) (e : exn) :
  librosa_load w file_name (sample_rate self) = Raise e ->
  let s_logged := logged s ERROR ("Error processing file '" +:+ file_name +:+ "': "
                                   +:+ exn_str e) in
  for_each (file_name :: rest) (AudioAST.file_step w self fuel) s
  = for_each rest (AudioAST.file_step w self fuel) s_logged
  /\ for_each (file_name :: rest) (AudioLSTM.file_step w self fuel) s
     = for_each rest (AudioLSTM.file_step w self fuel) s_logged
  /\ (forall f' s' e', (AudioAST.file_step w self fuel f' s').1 <> Raise e')
  /\ (forall f' s' e', (AudioLSTM.file_step w self fuel f' s').1 <> Raise e')
  /\ for_each (file_name :: rest) (AudioDense.file_step w self fuel) s = (Raise e, s)
  /\ for_each (file_name :: rest) (ResidualModel.file_step w self fuel) s = (Raise e, s).
Proof.
  intros Hbad s_logged. repeat split.
  - cbn [for_each]. unfold bind at 1.
    unfold AudioAST.file_step at 1, try_except, AudioAST.file_body, bind, lift.
    by rewrite Hbad.
  - cbn [for_each]. unfold bind at 1.
    unfold AudioLSTM.file_step at 1, try_except, AudioLSTM.file_body, bind, lift.
    by rewrite Hbad.
  - intros f' s' e'. apply try_logged_never_raises.
  - intros f' s' e'. apply try_logged_never_raises.
  - cbn [for_each]. unfold bind at 1. unfold AudioDense.file_step, bind, lift.
    by rewrite Hbad.
  - cbn [for_each]. unfold bind at 1. unfold ResidualModel.file_step, bind, lift.
    by rewrite Hbad.
Qed.

Lemma undecodable_file_witness :
  for_each ["data/0_a/bad.wav"; "data/1_b/x.wav"]
           (AudioLSTM.file_step demo_world demo_self 10) empty_locals
  = for_each ["data/1_b/x.wav"] (AudioLSTM.file_step demo_world demo_self 10)
      (logged empty_locals ERROR
              "Error processing file 'data/0_a/bad.wav': could not decode")
  /\ for_each ["data/0_a/bad.wav"; "data/1_b/x.wav"]
              (AudioDense.file_step demo_world demo_self 10) empty_locals
     = (Raise (LibraryError "could not decode"), empty_locals).
Proof.
  destruct (undecodable_file demo_world demo_self 10 "data/0_a/bad.wav"
              ["data/1_b/x.wav"] empty_locals (LibraryError "could not decode")
              eq_refl) as (_ & Hlstm & _ & _ & Hdense & _).
  split; [exact Hlstm|exact Hdense].
Defined.

(** A directory with one undecodable file beside good ones: the AST and
    LSTM loaders return exactly what they return without the bad file;
    the MLP and residual loaders raise. *)
Example load_with_one_bad_file :
  (AudioLSTM.load_data demo_world demo_self 10 "data" None empty_locals).1
  = (AudioLSTM.load_data demo_world_good demo_self 10 "data" None empty_locals).1
  /\ (AudioAST.load_dataset demo_world demo_self 10 "data" None empty_locals).1
     = (AudioAST.load_dataset demo_world_good demo_self 10 "data" None empty_locals).1
  /\ (exists features,
        (AudioLSTM.load_data demo_world demo_self 10 "data" None empty_locals).1
        = Ok (Loaded features [0; 0; 1]))
  /\ (AudioDense.load_data demo_world demo_self 10 "data" None empty_locals).1
     = Raise (LibraryError "could not decode")
  /\ (ResidualModel.load_data demo_world demo_self_residual 10 "data" None
        empty_locals).1
     = Raise (LibraryError "could not decode")
  /\ (exists features,
        (AudioDense.load_data demo_world_good demo_self 10 "data" None empty_locals).1
        = Ok (Loaded features [0; 1]))
  /\ (exists features,
        (ResidualModel.load_data demo_world_good demo_self_residual 10 "data" None
           empty_locals).1
        = Ok (Loaded features [0; 0; 1])).
Proof.
  do 2 (split; [vm_compute; reflexivity|]).
  split; [eexists; vm_compute; reflexivity|].
  do 2 (split; [vm_compute; reflexivity|]).
  split; eexists; vm_compute; reflexivity.
Qed.

(** On the six-sample file, with [window_size = 4], [overlap = 2] and
    [window_size_factor = 2], two windows are full.  [AudioLSTM] appends a
    tensor for each; [AudioDense] rebinds [signal] to the segment array
    at the first one, finds no full window in it afterwards, and appends
    one tensor. *)
Example dense_and_lstm_on_six_samples :
  let lstm := (AudioLSTM.file_step demo_world_good demo_self 10
                 "data/0_a/good.wav" empty_locals) in
  let dense := (AudioDense.file_step demo_world_good demo_self 10
                  "data/0_a/good.wav" empty_locals) in
  lstm.1 = Ok tt /\ dense.1 = Ok tt
  /\ length (list_spectrogram lstm.2) = 2%nat
  /\ length (list_spectrogram dense.2) = 1%nat
  /\ signal lstm.2 = array1 [1 # 1; -2 # 1; 3 # 1; -4 # 1; 5 # 1; 6 # 1]%Q
  /\ signal dense.2 = array_of_rows [[1 # 1; 2 # 1]; [3 # 1; 4 # 1]]%Q
  /\ (exists f1 f2,
        (AudioLSTM.load_data demo_world_good demo_self 10 "data" None empty_locals).1
        = Ok (Loaded f1 [0; 0; 1])
        /\ (AudioDense.load_data demo_world_good demo_self 10 "data" None
              empty_locals).1
           = Ok (Loaded f2 [0; 1])
        /\ length (items_of f1) = 3%nat /\ length (items_of f2) = 2%nat).
Proof.
  intros lstm dense.
  do 6 (split; [vm_compute; reflexivity|]).
  do 2 eexists.
  split; [vm_compute; reflexivity|].
  split; [vm_compute; reflexivity|].
  split; vm_compute; reflexivity.
Qed.

(** ** The trainer and the held-out test partition *)

Section TrainerFacts.
Context {T : Type} `{Sample T}.
Context {Engine Model History Confusion Hyper : Type}.
Variable lib : collaborators T Engine Model History Confusion Hyper.

(** After the split, only the train/validation pool is read. *)
Lemma cross_validate_reads_pool (split1 split2 : splitter T)
    (self : trainer T Hyper) (number_patches : option nat)
    (features : list (ndarray T)) (labels : list Z) (engine : Engine) :
  pool_of (split1 features labels) = pool_of (split2 features labels) ->
  cross_validate lib split1 self number_patches features labels engine
  = cross_validate lib split2 self number_patches features labels engine.
Proof.
  intros Hpool. unfold cross_validate, bind at 1 3, lift at 1 8.
  destruct (split1 features labels) as [[[[tv1 te1] ltv1] lte1]| e1 |];
    destruct (split2 features labels) as [[[[tv2 te2] ltv2] lte2]| e2 |];
    cbn in Hpool; try discriminate; try done.
  - by injection Hpool as -> ->.
  - by injection Hpool as ->.
Qed.
End TrainerFacts.

(** C9: [train] of the transformer and of the LSTM family returns the
    same outcome (the 4-tuple, or the same fault) and leaves the engine in
    the same state for any two train/test splitters that produce the same
    train/validation pool, whatever their test partitions hold. *)
Theorem train_ignores_test_partition {T} `{Sample T}
    {Engine Model History Confusion Hyper : Type}
    (lib : collaborators T Engine Model History Confusion Hyper) (w : world T)
    (split1 split2 : splitter T) :
  (forall features labels,
     pool_of (split1 features labels) = pool_of (split2 features labels)) ->
  (forall fuel self dataset_directory number_epochs batch_size number_splits loss
          sample_rate overlap number_classes arguments engine,
     AudioAST.train lib w split1 fuel self dataset_directory number_epochs
       batch_size number_splits loss sample_rate overlap number_classes arguments
       engine
     = AudioAST.train lib w split2 fuel self dataset_directory number_epochs
         batch_size number_splits loss sample_rate overlap number_classes arguments
         engine)
  /\ (forall fuel self dataset_directory number_epochs batch_size number_splits loss
          sample_rate overlap number_classes arguments engine,
     AudioLSTM.train lib w split1 fuel self dataset_directory number_epochs
       batch_size number_splits loss sample_rate overlap number_classes arguments
       engine
     = AudioLSTM.train lib w split2 fuel self dataset_directory number_epochs
         batch_size number_splits loss sample_rate overlap number_classes arguments
         engine).
Proof.
  intros Hpool. split; intros.
  - unfold AudioAST.train, bind at 1 3.
    destruct (lift _ engine) as [[loaded| |] engine']; [|done..].
    unfold bind at 1 2. destruct (lift _ engine') as [[n| |] engine'']; [|done..].
    destruct loaded as [features labels|]; [|done].
    apply cross_validate_reads_pool, Hpool.
  - unfold AudioLSTM.train, bind at 1 2.
    destruct (lift _ engine) as [[loaded| |] engine']; [|done..].
    destruct loaded as [features labels|]; [|done].
    apply cross_validate_reads_pool, Hpool.
Qed.

Lemma train_ignores_test_partition_witness :
  AudioLSTM.train demo_lib demo_world split_empty_test 10 demo_trainer "data"
    None None None None None None (Some 2) demo_lstm_arguments 0%nat
  = AudioLSTM.train demo_lib demo_world split_full_test 10 demo_trainer "data"
      None None None None None None (Some 2) demo_lstm_arguments 0%nat
  /\ AudioAST.train demo_lib demo_world split_empty_test 10 demo_trainer "data"
       None None None None None None (Some 2) demo_ast_arguments 0%nat
     = AudioAST.train demo_lib demo_world split_full_test 10 demo_trainer "data"
         None None None None None None (Some 2) demo_ast_arguments 0%nat.
Proof.
  destruct (train_ignores_test_partition demo_lib demo_world
              split_empty_test split_full_test) as [Hast Hlstm].
  - intros features labels. reflexivity.
  - split; [apply Hlstm|apply Hast].
Defined.

(** On the small world the LSTM trainer does return its 4-tuple. *)
Example train_returns_report :
  exists r engine,
    AudioLSTM.train demo_lib demo_world split_full_test 10 demo_trainer "data"
      None None None None None None (Some 2) demo_lstm_arguments 0%nat
    = (Ok r, engine)
    /\ probabilities_predicted _ _ r
       = ("LSTM", [[1 # 1; 0 # 1]; [1 # 1; 0 # 1]; [1 # 1; 0 # 1]; [1 # 1; 0 # 1]]%Q,
          [0; 0; 1; 1]).
Proof. do 2 eexists. split; vm_compute; reflexivity. Qed.

(** ** The raw-segment loaders, window by window *)

(** A loop over the generator is the loop over the pairs it yields, when
    the fuel lets the generator finish. *)
Lemma for_windows_for_each {S X} (data : list X) (window_size overlap : Z)
    (body : Z * Z -> M S unit) (fuel : nat) :
  forall st vs s,
    windows_run data window_size overlap fuel st = (vs, Exhausted) ->
    for_windows fuel data window_size overlap st body s = for_each vs body s.
Proof.
  induction fuel as [|f IH]; intros st vs s Hrun; [done|].
  cbn [windows_run for_windows] in *.
  destruct (windows_next data window_size overlap st) as [v st'| |e]; [| |done].
  - destruct (windows_run data window_size overlap f st') as [vs' end_] eqn:Hrest.
    injection Hrun as <- ->. cbn [for_each]. unfold bind.
    destruct (body v s) as [[[]|e|] s']; [|done..]. by apply IH.
  - by injection Hrun as <-.
Qed.

Lemma py_slice_length {A} (l : list A) (i j : Z) :
  0 <= i -> 0 <= j ->
  Z.of_nat (length (py_slice l i j))
  = Z.max 0 (Z.min j (Z.of_nat (length l)) - Z.min i (Z.of_nat (length l))).
Proof.
  intros Hi Hj. unfold py_slice, py_slice_bound.
  destruct (Z.ltb_spec i 0); [lia|]. destruct (Z.ltb_spec j 0); [lia|].
  rewrite length_take, length_drop. lia.
Qed.

Lemma for_each_app {S X} (l1 l2 : list X) (body : X -> M S unit) (s s' : S) :
  for_each l1 body s = (Ok tt, s') ->
  for_each (l1 ++ l2) body s = for_each l2 body s'.
Proof.
  revert s. induction l1 as [|x l1 IH]; intros s; cbn [for_each app].
  - unfold ret. by intros [= ->].
  - unfold bind. destruct (body x s) as [[[]|e|] s1]; [|done..]. apply IH.
Qed.

(** A loop whose body leaves the locals alone leaves them alone. *)
Lemma for_each_skip {S X} (l : list X) (body : X -> M S unit) (s : S) :
  Forall (fun x => body x s = (Ok tt, s)) l -> for_each l body s = (Ok tt, s).
Proof.
  induction 1 as [|x l Hx _ IH]; cbn [for_each]; [done|].
  unfold bind. by rewrite Hx.
Qed.

Lemma res_map_length {X Y} (f : X -> res Y) (l : list X) (ys : list Y) :
  res_map f l = Ok ys -> length ys = length l.
Proof.
  revert ys. induction l as [|x l IH]; intros ys; cbn [res_map].
  - by intros [= <-].
  - intros Hb. apply res_bind_ok in Hb as (y & _ & Hb).
    apply res_bind_ok in Hb as (ys' & Hys' & [= <-]).
    cbn [length]. by rewrite (IH ys').
Qed.

Section RawSegmentFacts.
Context {T : Type} `{Sample T}.
Variable self : attrs T.
Variable label : string.
Variable samples : list T.
Variable local_window : Z.
Variable segments : ndarray T.
Variables signal_min signal_max : T.

Let L := Z.of_nat (length samples).
Let ws := window_size self.
Let tensor := (min_max_normalize segments signal_min signal_max).1.

Hypothesis Hws : 1 <= ws.
Hypothesis Hlw : py_floordiv ws (window_size_factor self) = Ok local_window.
Hypothesis Hsegs :
  AudioLSTM.signal_segments (array1 samples) ws local_window = Ok segments.
Hypothesis Hmin : numpy_min segments = Ok signal_min.
Hypothesis Hmax : numpy_max segments = Ok signal_max.

Lemma array1_window_length (start : Z) :
  0 <= start ->
  exists window,
    numpy_slice (array1 samples) start (start + ws) = Ok window
    /\ numpy_len window
       = Ok (Z.max 0 (Z.min (start + ws) L - Z.min start L)).
Proof.
  intros Hstart. eexists. split; [done|]. cbn [numpy_len].
  rewrite py_slice_length by lia. by rewrite length_map.
Qed.

(** The segment array has at most [window_size] rows. *)
Lemma segments_rows :
  exists rows, segments = Arr rows /\ Z.of_nat (length rows) <= ws.
Proof.
  unfold AudioLSTM.signal_segments in Hsegs.
  apply res_bind_ok in Hsegs as (starts & Hstarts & Hrest).
  apply res_bind_ok in Hrest as (pieces & Hpieces & Hrest).
  apply res_bind_ok in Hrest as (stacked & Hstacked & [= Hseg]).
  assert (stacked = Arr pieces) as ->.
  { unfold numpy_array in Hstacked. destruct pieces as [|x l]; [by injection Hstacked|].
    destruct (forallb _ l); [by injection Hstacked|done]. }
  exists (map (nd_map s_abs) pieces). split; [by rewrite <- Hseg|].
  rewrite length_map, (res_map_length _ _ _ Hpieces).
  unfold py_range in Hstarts.
  destruct (Z.eqb_spec local_window 0); [done|]. injection Hstarts as <-.
  rewrite length_map, length_seq.
  destruct (Z.ltb_spec 0 local_window).
  - pose proof (ceil_div_bounds (ws - 0) local_window ltac:(lia)).
    pose proof (ceil_div_nonneg (ws - 0) local_window ltac:(lia) ltac:(lia)). nia.
  - pose proof (ceil_div_bounds (0 - ws) (- local_window) ltac:(lia)).
    assert (ceil_div (0 - ws) (- local_window) <= 0) by nia. lia.
Qed.

(** [AudioLSTM]: a full window appends the tensor, a short one nothing. *)
Lemma lstm_step_full (s : locals T) (start : Z) :
  signal s = array1 samples -> 0 <= start -> start + ws <= L ->
  AudioLSTM.window_step self label (start, start + ws) s
  = (Ok tt, Locals (list_spectrogram s ++ [tensor]) (list_labels s ++ [label])
                   (signal s) (log s)).
Proof.
  intros Hsig Hstart Hfull.
  destruct (array1_window_length start Hstart) as (window & Hslice & Hlen).
  unfold AudioLSTM.window_step, bind, gets, lift, ret, append_sample. unfold modify.
  cbn [fst snd]. rewrite Hsig, Hslice, Hlen.
  replace (Z.max 0 (Z.min (start + ws) L - Z.min start L)) with ws by lia.
  fold ws. rewrite Z.eqb_refl, Hlw, Hsegs, Hmin, Hmax. by rewrite Hsig.
Qed.

Lemma lstm_step_short (s : locals T) (start : Z) :
  signal s = array1 samples -> 0 <= start -> L < start + ws ->
  AudioLSTM.window_step self label (start, start + ws) s = (Ok tt, s).
Proof.
  intros Hsig Hstart Hshort.
  destruct (array1_window_length start Hstart) as (window & Hslice & Hlen).
  unfold AudioLSTM.window_step, bind, gets, lift, ret. cbn [fst snd].
  rewrite Hsig, Hslice, Hlen. fold ws.
  destruct (Z.eqb_spec (Z.max 0 (Z.min (start + ws) L - Z.min start L)) ws); [lia|done].
Qed.

(** [AudioDense]: the first full window appends the tensor and rebinds
    [signal]; after that no window is full. *)
Lemma dense_step_first (s : locals T) :
  signal s = array1 samples -> ws <= L ->
  AudioDense.window_step self label (0, 0 + ws) s
  = (Ok tt, Locals (list_spectrogram s ++ [tensor]) (list_labels s ++ [label])
                   segments (log s)).
Proof.
  intros Hsig Hfull.
  destruct (array1_window_length 0 ltac:(lia)) as (window & Hslice & Hlen).
  unfold AudioLSTM.signal_segments in Hsegs.
  apply res_bind_ok in Hsegs as (starts & Hstarts & Hrest).
  apply res_bind_ok in Hrest as (pieces & Hpieces & Hrest).
  apply res_bind_ok in Hrest as (stacked & Hstacked & [= Hseg]).
  unfold AudioDense.window_step, bind, gets, lift, ret, append_sample, set_signal.
  unfold modify. cbn [fst snd]. rewrite Hsig, Hslice, Hlen.
  replace (Z.max 0 (Z.min (0 + ws) L - Z.min 0 L)) with ws by lia.
  fold ws. rewrite Z.eqb_refl, Hlw, Hstarts, Hpieces. cbn [signal].
  rewrite Hstacked. cbn [signal]. rewrite Hseg, Hmin, Hmax. done.
Qed.

Lemma dense_step_later (s : locals T) (start : Z) :
  signal s = segments -> 1 <= start ->
  AudioDense.window_step self label (start, start + ws) s = (Ok tt, s).
Proof.
  intros Hsig Hstart. destruct segments_rows as (rows & Hrows & Hbound).
  unfold AudioDense.window_step, bind, gets, lift, ret. cbn [fst snd].
  rewrite Hsig, Hrows. cbn [numpy_slice numpy_len].
  rewrite py_slice_length by lia. fold ws.
  destruct (Z.eqb_spec
              (Z.max 0 (Z.min (start + ws) (Z.of_nat (length rows))
                        - Z.min start (Z.of_nat (length rows)))) ws); [lia|done].
Qed.
End RawSegmentFacts.

Section RawSegmentLoops.
Context {T : Type} `{Sample T}.
Variable self : attrs T.
Variable label : string.
Variable samples : list T.
Variable local_window : Z.
Variable segments : ndarray T.
Variables signal_min signal_max : T.

Let L := Z.of_nat (length samples).
Let ws := window_size self.
Let step := window_size self `div` overlap self.
Let tensor := (min_max_normalize segments signal_min signal_max).1.
Let pair (k : nat) : Z * Z := (0 + Z.of_nat k * step, 0 + Z.of_nat k * step + ws).

Hypothesis Hws : 1 <= ws.
Hypothesis Hstep : 1 <= step.
Hypothesis Hlw : py_floordiv ws (window_size_factor self) = Ok local_window.
Hypothesis Hsegs :
  AudioLSTM.signal_segments (array1 samples) ws local_window = Ok segments.
Hypothesis Hmin : numpy_min segments = Ok signal_min.
Hypothesis Hmax : numpy_max segments = Ok signal_max.

Lemma lstm_loop_full (m : nat) : forall (a : nat) (s : locals T),
  signal s = array1 samples ->
  (Z.of_nat (a + m) - 1) * step + ws <= L \/ m = O ->
  for_each (map pair (seq a m)) (AudioLSTM.window_step self label) s
  = (Ok tt, Locals (list_spectrogram s ++ replicate m tensor)
                   (list_labels s ++ replicate m label) (signal s) (log s)).
Proof.
  induction m as [|m IH]; intros a s Hsig Hfull.
  - cbn. rewrite !app_nil_r. by destruct s.
  - destruct Hfull as [Hfull|?]; [|done].
    cbn [seq map for_each]. unfold bind. unfold pair at 1.
    rewrite (lstm_step_full self label samples local_window segments
               signal_min signal_max Hws Hlw Hsegs Hmin Hmax s) by (try done; nia).
    rewrite IH; cbn [signal list_spectrogram list_labels log]; [|done|].
    + by rewrite <- !app_assoc.
    + destruct m; [by right|left].
      replace (S a + S m)%nat with (a + S (S m))%nat by lia. done.
Qed.

Lemma lstm_loop_short (ks : list nat) (s : locals T) :
  signal s = array1 samples ->
  Forall (fun k => L < Z.of_nat k * step + ws) ks ->
  for_each (map pair ks) (AudioLSTM.window_step self label) s = (Ok tt, s).
Proof.
  intros Hsig Hshort. apply for_each_skip, Forall_fmap.
  eapply Forall_impl; [exact Hshort|]. intros k Hk. cbn beta. unfold pair.
  apply (lstm_step_short self label samples Hws); [done| |].
  - apply Z.add_nonneg_nonneg; [lia|apply Z.mul_nonneg_nonneg; lia].
  - fold L ws. cbn beta in Hk. lia.
Qed.

Lemma dense_loop_later (ks : list nat) (s : locals T) :
  signal s = segments ->
  Forall (fun k => (1 <= k)%nat) ks ->
  for_each (map pair ks) (AudioDense.window_step self label) s = (Ok tt, s).
Proof.
  intros Hsig Hlater. apply for_each_skip, Forall_fmap.
  eapply Forall_impl; [exact Hlater|]. intros k Hk. cbn beta. unfold pair.
  apply (dense_step_later self label samples local_window segments Hws Hsegs);
    [done|].
  cbn beta in Hk. assert (1 <= Z.of_nat k) by lia.
  assert (1 * 1 <= Z.of_nat k * step) by (apply Z.mul_le_mono_nonneg; lia). lia.
Qed.

(** The pairs the generator yields over the decoded samples. *)
Lemma raw_segment_windows (fuel : nat) :
  (Z.to_nat (ceil_div L step) < fuel)%nat ->
  windows_run (items_of (array1 samples)) ws (overlap self) fuel windows
  = (map pair (seq 0 (Z.to_nat (ceil_div L step))), Exhausted).
Proof.
  intros Hfuel.
  pose proof (ceil_div_bounds L step ltac:(lia)) as Hb.
  pose proof (ceil_div_nonneg L step ltac:(lia) ltac:(lia)) as Hn.
  assert (overlap self <> 0) as Hov.
  { intros Hz. subst step. rewrite Hz, Z.div_0_r in Hstep. lia. }
  pose proof (windows_run_from (items_of (array1 samples)) ws (overlap self)
                (Z.to_nat (ceil_div L step)) 0 fuel) as Hrun.
  cbv zeta in Hrun. cbn [items_of array1] in Hrun. rewrite length_map in Hrun.
  change (ws `div` overlap self) with step in Hrun. fold L in Hrun.
  unfold windows. apply Hrun; [done|lia| |lia|done].
  destruct (decide (Z.to_nat (ceil_div L step) = O)); [by right|left; lia].
Qed.

(** What the two window loops leave behind for one decoded file with at
    least one full window. *)
Lemma raw_segment_loops (fuel : nat) (s : locals T) :
  signal s = array1 samples -> ws <= L ->
  (Z.to_nat (ceil_div L step) < fuel)%nat ->
  let full := S (Z.to_nat ((L - ws) `div` step)) in
  for_windows fuel (items_of (array1 samples)) ws (overlap self) windows
              (AudioLSTM.window_step self label) s
  = (Ok tt, Locals (list_spectrogram s ++ replicate full tensor)
                   (list_labels s ++ replicate full label) (signal s) (log s))
  /\ for_windows fuel (items_of (array1 samples)) ws (overlap self) windows
                 (AudioDense.window_step self label) s
     = (Ok tt, Locals (list_spectrogram s ++ [tensor]) (list_labels s ++ [label])
                      segments (log s)).
Proof.
  intros Hsig Hfull Hfuel full.
  pose proof (raw_segment_windows fuel Hfuel) as Hrun.
  pose proof (ceil_div_bounds L step ltac:(lia)) as Hb.
  pose proof (ceil_div_nonneg L step ltac:(lia) ltac:(lia)) as Hn.
  pose proof (Z.mul_div_le (L - ws) step ltac:(lia)) as Hq1.
  pose proof (Z.mul_succ_div_gt (L - ws) step ltac:(lia)) as Hq2.
  pose proof (Z.div_pos (L - ws) step ltac:(lia) ltac:(lia)) as Hq0.
  set (n := Z.to_nat (ceil_div L step)) in *.
  assert (full <= n)%nat as Hle by (subst full n; nia).
  split.
  - rewrite (for_windows_for_each _ _ _ _ _ _ _ _ Hrun).
    replace n with (full + (n - full))%nat by lia.
    rewrite seq_app, map_app.
    rewrite (for_each_app _ _ _ _ _ (lstm_loop_full full 0 s Hsig ltac:(left; subst full; nia))).
    rewrite lstm_loop_short; [done|done|].
    apply Forall_forall. intros k Hk%list_elem_of_In%in_seq. subst full. nia.
  - rewrite (for_windows_for_each _ _ _ _ _ _ _ _ Hrun).
    destruct n as [|n']; [lia|]. cbn [seq map for_each]. unfold bind.
    change (pair 0%nat) with (0, 0 + window_size self).
    rewrite (dense_step_first self label samples local_window segments
               signal_min signal_max Hws Hlw Hsegs Hmin Hmax s Hsig Hfull).
    rewrite dense_loop_later; [done|done|].
    apply Forall_forall. intros k Hk%list_elem_of_In%in_seq. lia.
Qed.
End RawSegmentLoops.

(** C2 (the two loaders differ): for a decodable file with at least two
    full windows (and a step of at least one sample), whenever the
    normalisation of the first window succeeds, [AudioLSTM] appends the
    normalised tensor once per full window, while [AudioDense], which
    rebinds [signal] to the segment array at the first full window,
    appends it exactly once: the two loaders emit different numbers of
    feature tensors for the same file and parameters. *)
Theorem dense_and_lstm_differ {T} `{Sample T} (w : world T) (self : attrs T)
    (file_name label : string) (samples : list T) (local_window : Z)
    (segments : ndarray T) (signal_min signal_max : T) (fuel : nat) (s : locals T) :
  let L := Z.of_nat (length samples) in
  let step := window_size self `div` overlap self in
  let tensor := (min_max_normalize segments signal_min signal_max).1 in
  let full := S (Z.to_nat ((L - window_size self) `div` step)) in
  librosa_load w file_name (sample_rate self) = Ok samples ->
  label_of_path file_name = Ok label ->
  1 <= window_size self -> 1 <= step ->
  py_floordiv (window_size self) (window_size_factor self) = Ok local_window ->
  AudioLSTM.signal_segments (array1 samples) (window_size self) local_window
  = Ok segments ->
  numpy_min segments = Ok signal_min ->
  numpy_max segments = Ok signal_max ->
  window_size self + step <= L ->
  (Z.to_nat (ceil_div L step) < fuel)%nat ->
  AudioLSTM.file_step w self fuel file_name s
  = (Ok tt, Locals (list_spectrogram s ++ replicate full tensor)
                   (list_labels s ++ replicate full label) (array1 samples) (log s))
  /\ AudioDense.file_step w self fuel file_name s
     = (Ok tt, Locals (list_spectrogram s ++ [tensor]) (list_labels s ++ [label])
                      segments (log s))
  /\ (2 <= full)%nat.
Proof.
  intros L step tensor full Hload Hlabel Hws Hstep Hlw Hsegs Hmin Hmax Htwo Hfuel.
  set (s1 := Locals (list_spectrogram s) (list_labels s) (array1 samples) (log s)).
  destruct (raw_segment_loops self label samples local_window segments
              signal_min signal_max Hws Hstep Hlw Hsegs Hmin Hmax fuel s1)
    as [Hlstm Hdense]; [done|fold L step; lia|done|].
  split; [|split].
  - unfold AudioLSTM.file_step, try_except, AudioLSTM.file_body, bind, lift, gets,
      set_signal. unfold modify. rewrite Hload, Hlabel. cbn [signal].
    fold s1. by rewrite Hlstm.
  - unfold AudioDense.file_step, bind, lift, gets, set_signal. unfold modify.
    rewrite Hload, Hlabel. cbn [signal]. fold s1. by rewrite Hdense.
  - pose proof (Z.mul_succ_div_gt (L - window_size self) step ltac:(lia)).
    assert (1 <= (L - window_size self) `div` step)
      by (apply Z.div_le_lower_bound; lia).
    subst full. lia.
Qed.

Lemma dense_and_lstm_differ_witness :
  exists tensor,
    AudioLSTM.file_step demo_world_good demo_self 10 "data/0_a/good.wav" empty_locals
    = (Ok tt, Locals [tensor; tensor] ["0"; "0"]
                     (array1 [1 # 1; -2 # 1; 3 # 1; -4 # 1; 5 # 1; 6 # 1]%Q) [])
    /\ AudioDense.file_step demo_world_good demo_self 10 "data/0_a/good.wav"
                            empty_locals
       = (Ok tt, Locals [tensor] ["0"]
                        (array_of_rows [[1 # 1; 2 # 1]; [3 # 1; 4 # 1]]%Q) []).
Proof.
  destruct (dense_and_lstm_differ demo_world_good demo_self "data/0_a/good.wav" "0"
              [1 # 1; -2 # 1; 3 # 1; -4 # 1; 5 # 1; 6 # 1]%Q 2
              (array_of_rows [[1 # 1; 2 # 1]; [3 # 1; 4 # 1]]%Q)
              (1 # 1)%Q (4 # 1)%Q 10 empty_locals)
    as (Hlstm & Hdense & _); try (vm_compute; reflexivity);
    try (vm_compute; discriminate); try (vm_compute; lia).
  eexists. split; [exact Hlstm|exact Hdense].
Defined.

(** ** Termination of the [windows] generator *)

(** X1: a complete iteration of [windows] ends normally exactly when the
    data is empty or the step [window_size // overlap] is computed (the
    [overlap] is not zero) and is at least one; in every other case the
    loop faults or runs forever. *)
Theorem windows_terminates_iff {A} (data : list A) (window_size overlap : Z) :
  (exists fuel vs, windows_run data window_size overlap fuel windows = (vs, Exhausted))
  <-> data = [] \/ (overlap <> 0 /\ 1 <= window_size `div` overlap).
Proof.
  split.
  - intros (fuel & vs & Hrun).
    destruct data as [|x xs]; [by left|right].
    destruct (decide (overlap = 0)) as [->|Hov].
    + exfalso. unfold windows in Hrun.
      destruct fuel as [|[|f]]; [done|done|].
      cbn [windows_run windows_next] in Hrun. unfold windows_test in Hrun.
      cbn [length] in Hrun.
      destruct (Z.ltb_spec 0 (Z.of_nat (S (length xs)))); [|lia]. done.
    + split; [done|].
      destruct (Z.le_gt_cases 1 (window_size `div` overlap)) as [|Hs]; [done|].
      exfalso. unfold windows in Hrun.
      destruct (windows_run_stuck (x :: xs) window_size overlap fuel 0)
        as (vs' & Hstuck & _); [done|lia|cbn [length]; lia|].
      rewrite Hstuck in Hrun. done.
  - intros [->|[Hov Hs]].
    + exists 1%nat, []. done.
    + set (L := Z.of_nat (length data)). set (s := window_size `div` overlap) in *.
      pose proof (ceil_div_bounds L s ltac:(lia)) as Hb.
      pose proof (ceil_div_nonneg L s ltac:(lia) ltac:(lia)) as Hn.
      set (n := Z.to_nat (ceil_div L s)) in *.
      exists (S n). eexists. unfold windows.
      apply (windows_run_from data window_size overlap n 0 (S n));
        [done|fold s; lia| |fold s L; lia|lia].
      destruct (decide (n = O)); [by right|left; fold s L; lia].
Qed.

(** ** [AudioAST.load_audio] and [AudioAST.load_data] *)

(** X2: for a target length [sample_rate * audio_duration >= 0],
    [AudioAST.load_audio] returns a signal of exactly that many samples:
    the first decoded samples, followed by zeros when the recording is
    shorter; the rate returned is the one asked for. *)
Theorem load_audio_pads_or_truncates {T} `{Sample T} (w : world T)
    (rate duration : Z) (filename : string) (decoded : list T) :
  librosa_load w filename rate = Ok decoded ->
  0 <= rate * duration ->
  let n := Z.to_nat (rate * duration) in
  exists signal_,
    AudioAST.load_audio w rate duration filename = Ok (signal_, rate)
    /\ length signal_ = n
    /\ signal_ = take n decoded ++ replicate (n - length decoded) s_zero.
Proof.
  intros Hload Hmax n. unfold AudioAST.load_audio. rewrite Hload. cbn [res_bind].
  eexists. split; [done|].
  assert (forall l : list T, (n <= length l)%nat ->
            py_slice l 0 (rate * duration) = take n l) as Hslice.
  { intros l Hl. unfold py_slice, py_slice_bound.
    destruct (Z.ltb_spec 0 0); [lia|].
    destruct (Z.ltb_spec (rate * duration) 0); [lia|].
    rewrite Z.min_l, Z.min_l by lia. cbn [Z.to_nat drop].
    f_equal. lia. }
  destruct (Z.ltb_spec (Z.of_nat (length decoded)) (rate * duration)) as [Hshort|Hlong].
  - replace (Z.to_nat (rate * duration - Z.of_nat (length decoded)))
      with (n - length decoded)%nat by lia.
    rewrite Hslice by (rewrite length_app, length_replicate; lia).
    rewrite take_app_ge by lia. rewrite (take_ge decoded) by lia.
    rewrite take_replicate, Nat.min_id.
    split; [|done]. rewrite length_app, length_replicate. lia.
  - rewrite Hslice by lia.
    replace (n - length decoded)%nat with O by lia. cbn [replicate].
    rewrite app_nil_r. split; [|done]. rewrite length_take. lia.
Qed.

Lemma load_audio_pads_or_truncates_witness :
  AudioAST.load_audio demo_world 2 4 "data/0_a/good.wav"
  = Ok ([1 # 1; -2 # 1; 3 # 1; -4 # 1; 5 # 1; 6 # 1; 0; 0]%Q, 2)
  /\ exists signal_,
       AudioAST.load_audio demo_world 2 2 "data/0_a/good.wav" = Ok (signal_, 2)
       /\ length signal_ = 4%nat.
Proof.
  split.
  - destruct (load_audio_pads_or_truncates demo_world 2 4 "data/0_a/good.wav"
                [1 # 1; -2 # 1; 3 # 1; -4 # 1; 5 # 1; 6 # 1]%Q eq_refl)
      as (sig & Hrun & _ & ->); [lia|]. exact Hrun.
  - destruct (load_audio_pads_or_truncates demo_world 2 2 "data/0_a/good.wav"
                [1 # 1; -2 # 1; 3 # 1; -4 # 1; 5 # 1; 6 # 1]%Q eq_refl)
      as (sig & Hrun & Hlen & _); [lia|]. exists sig. split; [exact Hrun|exact Hlen].
Defined.

Section LoadDataFacts.
Context {T : Type}.
Variable w : world T.
Variable py_int : string -> res Z.
Variables data_dir sound_file_format : string.

Let is_class (class_dir : string) : Prop :=
  os_path_isdir w (os_path_join data_dir class_dir) = true.
Let files (class_dir : string) : list string :=
  glob_glob w (os_path_join (os_path_join data_dir class_dir) sound_file_format).

(** What the loop adds to the two lists. *)
Lemma load_data_loop_ok (class_dirs : list string) :
  forall file_paths labels file_paths' labels',
    AudioAST.load_data_loop w py_int data_dir sound_file_format class_dirs
      file_paths labels = Ok (file_paths', labels') ->
    exists ns,
      res_map py_int (filter is_class class_dirs) = Ok ns
      /\ file_paths' = file_paths ++ concat (map files (filter is_class class_dirs))
      /\ labels' = labels
           ++ concat (zip_with (fun class_dir n => replicate (length (files class_dir)) n)
                               (filter is_class class_dirs) ns).
Proof.
  induction class_dirs as [|d rest IH]; intros fp lb fp' lb' Hrun;
    cbn [AudioAST.load_data_loop] in Hrun.
  - injection Hrun as <- <-. exists []. by rewrite !app_nil_r.
  - rewrite filter_cons. destruct (decide (is_class d)) as [Hd|Hd].
    + unfold is_class in Hd. rewrite Hd in Hrun.
      apply res_bind_ok in Hrun as (n & Hn & Hrun).
      destruct (IH _ _ _ _ Hrun) as (ns & Hns & -> & ->).
      exists (n :: ns). cbn [res_map]. rewrite Hn, Hns. cbn [res_bind].
      split; [done|]. cbn [map concat zip_with]. fold (files d).
      by rewrite <- !app_assoc.
    + unfold is_class in Hd. apply not_true_is_false in Hd. rewrite Hd in Hrun.
      by apply IH.
Qed.

Lemma load_data_loop_lengths (class_dirs : list string) (ns : list Z) :
  length ns = length class_dirs ->
  length (concat (map files class_dirs))
  = length (concat (zip_with (fun class_dir n => replicate (length (files class_dir)) n)
                             class_dirs ns)).
Proof.
  revert ns. induction class_dirs as [|d rest IH]; intros [|n ns] Hlen; try done.
  cbn [map concat zip_with]. rewrite !length_app, length_replicate.
  f_equal. apply IH. cbn in Hlen. lia.
Qed.

(** The loop stops at the first class directory whose name is no
    integer. *)
Lemma load_data_loop_raises (pre : list string) (d : string) (post : list string)
    (e : exn) :
  Forall (fun d' => is_class d' -> exists n, py_int d' = Ok n) pre ->
  is_class d -> py_int d = Raise e ->
  forall file_paths labels,
    AudioAST.load_data_loop w py_int data_dir sound_file_format (pre ++ d :: post)
      file_paths labels = Raise e.
Proof.
  intros Hpre Hd He. induction Hpre as [|d' pre Hd' _ IH]; intros fp lb;
    cbn [app AudioAST.load_data_loop].
  - unfold is_class in Hd. by rewrite Hd, He.
  - destruct (os_path_isdir w (os_path_join data_dir d')) eqn:Hdir; [|apply IH].
    destruct (Hd' Hdir) as [n ->]. cbn [res_bind]. apply IH.
Qed.
End LoadDataFacts.

(** X3: when [AudioAST.load_data] returns, the file paths are the
    matches of the pattern in every listed entry that is a directory, in
    listing order; the labels are the integers of the directory names,
    each repeated once per file of its directory; so the two lists are
    equally long and position by position give a file and the label of
    its directory. *)
Theorem load_data_paths_and_labels {T} (w : world T) (py_int : string -> res Z)
    (sound_file_format data_dir : string) (class_dirs file_paths : list string)
    (labels : list Z) :
  os_listdir w data_dir = Ok class_dirs ->
  AudioAST.load_data w py_int sound_file_format data_dir = Ok (file_paths, labels) ->
  let dirs := filter (fun d => os_path_isdir w (os_path_join data_dir d) = true)
                     class_dirs in
  let files d := glob_glob w (os_path_join (os_path_join data_dir d)
                                           sound_file_format) in
  exists ns,
    res_map py_int dirs = Ok ns
    /\ file_paths = concat (map files dirs)
    /\ labels = concat (zip_with (fun d n => replicate (length (files d)) n) dirs ns)
    /\ length file_paths = length labels.
Proof.
  intros Hlist Hrun dirs files. unfold AudioAST.load_data in Hrun.
  rewrite Hlist in Hrun. cbn [res_bind] in Hrun.
  destruct (load_data_loop_ok w py_int data_dir sound_file_format class_dirs
              [] [] file_paths labels Hrun) as (ns & Hns & Hfp & Hlb).
  cbn [app] in Hfp, Hlb. exists ns. split; [done|]. split; [done|]. split; [done|].
  rewrite Hfp, Hlb. apply load_data_loop_lengths.
  by apply res_map_length in Hns.
Qed.

(** A listing with two integer-named directories and a stray file, to
    run [AudioAST.load_data]. *)
Lemma load_data_paths_and_labels_witness :
  let w := World Q (fun _ => true)
             (fun _ => Ok ["0"; "notes.txt"; "7"])
             (fun p => negb (String.eqb p "data/notes.txt"))
             (fun pattern => if String.eqb pattern "data/0/*.wav"
                             then ["data/0/a.wav"; "data/0/b.wav"]
                             else if String.eqb pattern "data/7/*.wav"
                             then ["data/7/c.wav"] else [])
             (fun _ _ => Ok []) (fun y _ _ _ _ => Raise ValueError)
             (fun S => Ok S) decimal_int in
  AudioAST.load_data w decimal_int "*.wav" "data"
  = Ok (["data/0/a.wav"; "data/0/b.wav"; "data/7/c.wav"], [0; 0; 7])
  /\ exists ns,
       res_map decimal_int ["0"; "7"] = Ok ns
       /\ [0; 0; 7] = concat (zip_with (fun d n => replicate (length (glob_glob w
                               (os_path_join (os_path_join "data" d) "*.wav"))) n)
                               ["0"; "7"] ns).
Proof.
  intros w. split; [reflexivity|].
  destruct (load_data_paths_and_labels w decimal_int "*.wav" "data"
              ["0"; "notes.txt"; "7"]
              ["data/0/a.wav"; "data/0/b.wav"; "data/7/c.wav"] [0; 0; 7]
              eq_refl eq_refl) as (ns & Hns & _ & Hlabels & _).
  exists ns. split; [exact Hns|exact Hlabels].
Defined.

(** X4: [AudioAST.load_data] raises the error of [int(class_dir)] at the
    first listed directory whose name is not an integer, whatever the
    directory holds; a class directory named [label_name], as
    [load_dataset] expects it, is such a name. *)
Theorem load_data_non_integer_directory {T} (w : world T) (py_int : string -> res Z)
    (sound_file_format data_dir : string) (pre : list string) (d : string)
    (post : list string) (e : exn) :
  os_listdir w data_dir = Ok (pre ++ d :: post) ->
  Forall (fun d' => os_path_isdir w (os_path_join data_dir d') = true ->
                    exists n, py_int d' = Ok n) pre ->
  os_path_isdir w (os_path_join data_dir d) = true ->
  py_int d = Raise e ->
  AudioAST.load_data w py_int sound_file_format data_dir = Raise e.
Proof.
  intros Hlist Hpre Hd He. unfold AudioAST.load_data. rewrite Hlist. cbn [res_bind].
  by apply load_data_loop_raises.
Qed.

Lemma load_data_non_integer_directory_witness :
  AudioAST.load_data demo_world decimal_int "*.wav" "data" = Raise ValueError.
Proof.
  apply (load_data_non_integer_directory demo_world decimal_int "*.wav" "data"
           [] "0_a" ["1_b"] ValueError); [reflexivity|constructor|reflexivity|reflexivity].
Defined.

(** ** The label of a file *)

Lemma str_split_nonempty (sep : Ascii.ascii) (s : string) : str_split sep s <> [].
Proof.
  destruct s as [|c s]; cbn [str_split]; [done|].
  destruct (Ascii.eqb c sep); [done|]. by destruct (str_split sep s).
Qed.

Lemma append_cons (c : Ascii.ascii) (a b : string) :
  String c a +:+ b = String c (a +:+ b).
Proof. reflexivity. Qed.

Lemma append_assoc (a b c : string) : (a +:+ b) +:+ c = a +:+ (b +:+ c).
Proof.
  induction a as [|x a IH]; [done|]. by rewrite !append_cons, IH.
Qed.

(** Splitting at a separator: the pieces before it, then the pieces
    after it. *)
Lemma str_split_app (sep : Ascii.ascii) (a b : string) :
  str_split sep (a +:+ String sep b) = str_split sep a ++ str_split sep b.
Proof.
  induction a as [|c a IH].
  - change ("" +:+ String sep b) with (String sep b). cbn [str_split].
    by rewrite Ascii.eqb_refl.
  - rewrite append_cons. cbn [str_split].
    destruct (Ascii.eqb c sep); [by rewrite IH|].
    rewrite IH. pose proof (str_split_nonempty sep a).
    by destruct (str_split sep a).
Qed.

Lemma str_split_whole (sep : Ascii.ascii) (s : string) :
  occurs sep s = false -> str_split sep s = [s].
Proof.
  induction s as [|c s IH]; cbn [occurs str_split]; [done|].
  intros [Hc Hs]%orb_false_elim. rewrite Hc, (IH Hs). done.
Qed.

Lemma py_index_last_but_one {A} (l : list A) (x y : A) :
  py_index (l ++ [x; y]) (-2) = Ok x.
Proof.
  unfold py_index. rewrite length_app. cbn [length].
  destruct (Z.ltb_spec (-2) 0); [|lia].
  destruct (Z.ltb_spec (-2 + Z.of_nat (length l + 2)) 0); [lia|].
  destruct (Z.leb_spec (Z.of_nat (length l + 2)) (-2 + Z.of_nat (length l + 2)));
    [lia|]. cbn [orb].
  replace (Z.to_nat (-2 + Z.of_nat (length l + 2))) with (length l + 0)%nat by lia.
  by rewrite lookup_app_r, Nat.add_0_r, Nat.sub_diag by lia.
Qed.

(** X5: the label of a file is the name of its parent directory up to
    the first underscore (the whole name when it has none), whatever
    directories come before; a file name with no directory part has no
    label and raises [IndexError]. *)
Theorem label_of_path_parent_prefix (dir label rest file : string) :
  occurs "/" label = false -> occurs "_" label = false ->
  occurs "/" rest = false -> occurs "/" file = false ->
  label_of_path (dir +:+ "/" +:+ label +:+ "_" +:+ rest +:+ "/" +:+ file) = Ok label
  /\ label_of_path (dir +:+ "/" +:+ label +:+ "/" +:+ file) = Ok label
  /\ label_of_path file = Raise IndexError.
Proof.
  intros Hl1 Hl2 Hr Hf.
  assert (forall a b, occurs "/" a = false -> occurs "/" b = false ->
            occurs "/" (a +:+ String "_" b) = false) as Hocc.
  { intros a b Ha Hb. induction a as [|c a IH].
    - change ("" +:+ String "_" b) with (String "_" b). cbn [occurs].
      by rewrite Hb.
    - rewrite append_cons. cbn [occurs] in *.
      apply orb_false_elim in Ha as [-> Ha]. by rewrite IH. }
  unfold label_of_path. split; [|split].
  - replace (dir +:+ "/" +:+ label +:+ "_" +:+ rest +:+ "/" +:+ file)
      with (dir +:+ String "/" ((label +:+ String "_" rest) +:+ String "/" file))
      by (by rewrite (append_assoc label)).
    rewrite !str_split_app.
    rewrite (str_split_whole "/" (label +:+ String "_" rest)) by (by apply Hocc).
    rewrite (str_split_whole "/" file) by done.
    change ([label +:+ String "_" rest] ++ [file])
      with [label +:+ String "_" rest; file].
    rewrite py_index_last_but_one. cbn [res_bind].
    rewrite str_split_app, (str_split_whole "_" label) by done. done.
  - change (dir +:+ "/" +:+ label +:+ "/" +:+ file)
      with (dir +:+ String "/" (label +:+ String "/" file)).
    rewrite !str_split_app.
    rewrite (str_split_whole "/" label), (str_split_whole "/" file) by done.
    change ([label] ++ [file]) with [label; file].
    rewrite py_index_last_but_one. cbn [res_bind].
    by rewrite (str_split_whole "_" label).
  - by rewrite (str_split_whole "/" file).
Qed.

Lemma label_of_path_parent_prefix_witness :
  label_of_path "data/train/0_aedes/rec_1.wav" = Ok "0"
  /\ label_of_path "data/0/x.wav" = Ok "0"
  /\ label_of_path "rec_1.wav" = Raise IndexError.
Proof.
  apply (label_of_path_parent_prefix "data/train" "0" "aedes" "rec_1.wav");
    reflexivity.
Defined.

(** ** Invariants of the loaders *)

Lemma keeps_ret {S A} (P : S -> Prop) (a : A) : keeps P (ret a).
Proof. by intros s Hs. Qed.

Lemma keeps_lift {S A} (P : S -> Prop) (r : res A) : keeps P (lift r).
Proof. by intros s Hs. Qed.

Lemma keeps_gets {S A} (P : S -> Prop) (f : S -> A) : keeps P (gets f).
Proof. by intros s Hs. Qed.

Lemma keeps_bind {S A B} (P : S -> Prop) (m : M S A) (k : A -> M S B) :
  keeps P m -> (forall a, keeps P (k a)) -> keeps P (bind m k).
Proof.
  intros Hm Hk s Hs. specialize (Hm s Hs). unfold bind.
  destruct (m s) as [[a|e|] s1]; [by apply Hk|done|done].
Qed.

Lemma keeps_try_except {S A} (P : S -> Prop) (m : M S A) (handler : exn -> M S A) :
  keeps P m -> (forall e, keeps P (handler e)) -> keeps P (try_except m handler).
Proof.
  intros Hm Hh s Hs. specialize (Hm s Hs). unfold try_except.
  destruct (m s) as [[a|e|] s1]; [done|by apply Hh|done].
Qed.

Lemma keeps_for_each {S X} (P : S -> Prop) (l : list X) (body : X -> M S unit) :
  (forall x, keeps P (body x)) -> keeps P (for_each l body).
Proof.
  intros Hbody. induction l as [|x l IH]; cbn [for_each]; [apply keeps_ret|].
  apply keeps_bind; [apply Hbody|done].
Qed.

Lemma keeps_for_windows {S X} (P : S -> Prop) (fuel : nat) (data : list X)
    (window_size overlap : Z) (body : Z * Z -> M S unit) :
  (forall v, keeps P (body v)) ->
  forall st, keeps P (for_windows fuel data window_size overlap st body).
Proof.
  intros Hbody. induction fuel as [|f IH]; intros st; cbn [for_windows];
    [apply keeps_lift|].
  destruct (windows_next data window_size overlap st) as [v st'| |e].
  - apply keeps_bind; [apply Hbody|intros _; apply IH].
  - apply keeps_ret.
  - apply keeps_lift.
Qed.

Lemma keeps_parallel_logging {T} (level : log_level) (msg : string) :
  keeps (@parallel T) (logging level msg).
Proof. by intros s Hs. Qed.

Lemma keeps_parallel_set_signal {T} (a : ndarray T) :
  keeps (@parallel T) (set_signal a).
Proof. by intros s Hs. Qed.

Lemma keeps_parallel_append_sample {T} (x : ndarray T) (label : string) :
  keeps (@parallel T) (append_sample x label).
Proof.
  intros s Hs. unfold parallel in *. cbn. rewrite !length_app, Hs. done.
Qed.

(** Chains of statements keep what each statement keeps. *)
Ltac keeps_parallel :=
  repeat first
    [ apply keeps_ret | apply keeps_lift | apply keeps_gets
    | apply keeps_parallel_logging | apply keeps_parallel_set_signal
    | apply keeps_parallel_append_sample
    | apply keeps_for_windows; intros ?
    | apply keeps_for_each; intros ?
    | apply keeps_try_except; [|intros ?]
    | apply keeps_bind; [|intros ?]
    | match goal with |- keeps _ (if ?b then _ else _) => destruct b end
    | match goal with |- keeps _ (let '(_, _) := ?p in _) => destruct p end ].

Section ParallelFacts.
Context {T : Type} `{Sample T}.
Variable w : world T.
Variable self : attrs T.
Variable fuel : nat.

Lemma lstm_file_step_parallel (file_name : string) :
  keeps parallel (AudioLSTM.file_step w self fuel file_name).
Proof.
  unfold AudioLSTM.file_step, AudioLSTM.file_body, AudioLSTM.window_step.
  keeps_parallel.
Qed.

Lemma dense_file_step_parallel (file_name : string) :
  keeps parallel (AudioDense.file_step w self fuel file_name).
Proof.
  unfold AudioDense.file_step, AudioDense.window_step. keeps_parallel.
Qed.

Lemma ast_file_step_parallel (file_name : string) :
  keeps parallel (AudioAST.file_step w self fuel file_name).
Proof.
  unfold AudioAST.file_step, AudioAST.file_body, AudioAST.window_step.
  keeps_parallel.
Qed.

Lemma residual_file_step_parallel (file_name : string) :
  keeps parallel (ResidualModel.file_step w self fuel file_name).
Proof.
  unfold ResidualModel.file_step, ResidualModel.window_step. keeps_parallel.
Qed.
End ParallelFacts.

Lemma bind_ok {S A B} (m : M S A) (k : A -> M S B) (s s' : S) (b : B) :
  bind m k s = (Ok b, s') ->
  exists a s1, m s = (Ok a, s1) /\ k a s1 = (Ok b, s').
Proof.
  unfold bind. destruct (m s) as [[a|e|] s1]; [|done..]. intros Hk. by exists a, s1.
Qed.

Lemma keeps_run {S A} (P : S -> Prop) (m : M S A) (s s' : S) (r : res A) :
  keeps P m -> P s -> m s = (r, s') -> P s'.
Proof. intros Hm Hs Hrun. specialize (Hm s Hs). by rewrite Hrun in Hm. Qed.

Lemma numpy_array_ok {T} (items : list (ndarray T)) (a : ndarray T) :
  numpy_array items = Ok a -> a = Arr items.
Proof.
  unfold numpy_array. destruct items as [|x l]; [by intros [= <-]|].
  destruct (forallb _ l); [by intros [= <-]|done].
Qed.

Lemma chunks_length {X} (count size : nat) (l : list X) :
  length (chunks count size l) = count.
Proof.
  revert l. induction count as [|c IH]; intros l; cbn [chunks length]; [done|].
  by rewrite IH.
Qed.

Section LoadedFacts.
Context {T : Type} `{Sample T}.
Variable w : world T.
Variable self : attrs T.
Variable fuel : nat.
Variable sub_directories : string.
Variable file_extension_arg : option string.

Lemma lstm_load_data_parallel :
  keeps parallel (AudioLSTM.load_data w self fuel sub_directories file_extension_arg).
Proof.
  unfold AudioLSTM.load_data. keeps_parallel; try apply lstm_file_step_parallel.
Qed.

Lemma ast_load_dataset_parallel :
  keeps parallel (AudioAST.load_dataset w self fuel sub_directories file_extension_arg).
Proof.
  unfold AudioAST.load_dataset. keeps_parallel; try apply ast_file_step_parallel.
Qed.

Lemma dense_load_data_parallel :
  keeps parallel (AudioDense.load_data w self fuel sub_directories file_extension_arg).
Proof.
  unfold AudioDense.load_data. keeps_parallel; try apply dense_file_step_parallel.
Qed.

Lemma residual_load_data_parallel :
  keeps parallel
    (ResidualModel.load_data w self fuel sub_directories file_extension_arg).
Proof.
  unfold ResidualModel.load_data. keeps_parallel; try apply residual_file_step_parallel.
Qed.
End LoadedFacts.

Lemma bind_ok_keeps {S A B} (P : S -> Prop) (m : M S A) (k : A -> M S B)
    (s s' : S) (b : B) :
  keeps P m -> P s -> bind m k s = (Ok b, s') ->
  exists a s1, P s1 /\ m s = (Ok a, s1) /\ k a s1 = (Ok b, s').
Proof.
  intros Hm Hs Hrun. apply bind_ok in Hrun as (a & s1 & Hrun & Hk).
  exists a, s1. split; [by eapply keeps_run|done].
Qed.

(** One statement of a chain that returned: its value, the locals it
    left, and the invariant on them. *)
Ltac chain_step H Hpar :=
  let a := fresh "a" in
  let s1 := fresh "s" in
  let Hm := fresh "Hm" in
  let Hp := fresh "Hp" in
  apply (bind_ok_keeps parallel) in H as (a & s1 & Hp & Hm & H);
  [|keeps_parallel|exact Hpar];
  clear Hpar; rename Hp into Hpar;
  unfold lift, gets, ret, logging, modify in Hm;
  first [ injection Hm as Hm <-; try (subst a) | idtac ].

Section LoadedLengths.
Context {T : Type} `{Sample T}.
Variable w : world T.
Variable self : attrs T.
Variable fuel : nat.
Variable sub_directories : string.
Variable file_extension_arg : option string.

Lemma lstm_loaded_lengths (s s' : locals T) (features : ndarray T) (labels : list Z) :
  parallel s ->
  AudioLSTM.load_data w self fuel sub_directories file_extension_arg s
  = (Ok (Loaded features labels), s') ->
  length (items_of features) = length labels.
Proof.
  intros Hpar Hrun. unfold AudioLSTM.load_data in Hrun.
  chain_step Hrun Hpar.
  destruct (negb (os_path_exists w sub_directories)).
  { chain_step Hrun Hpar. done. }
  do 4 chain_step Hrun Hpar.
  chain_step Hrun Hpar. chain_step Hrun Hpar. rename Hm1 into Hstack.
  do 3 chain_step Hrun Hpar. chain_step Hrun Hpar.
  injection Hrun as <- <- _. apply numpy_array_ok in Hstack as ->.
  cbn [numpy_expand_dims_last items_of]. rewrite length_map.
  match goal with Hl : res_map _ _ = Ok _ |- _ => apply res_map_length in Hl as -> end.
  exact Hpar.
Qed.

Lemma ast_loaded_lengths (s s' : locals T) (features : ndarray T) (labels : list Z) :
  parallel s ->
  AudioAST.load_dataset w self fuel sub_directories file_extension_arg s
  = (Ok (Loaded features labels), s') ->
  length (items_of features) = length labels.
Proof.
  intros Hpar Hrun. unfold AudioAST.load_dataset in Hrun.
  chain_step Hrun Hpar.
  destruct (negb (os_path_exists w sub_directories)).
  { chain_step Hrun Hpar. done. }
  do 4 chain_step Hrun Hpar.
  chain_step Hrun Hpar. chain_step Hrun Hpar. rename Hm1 into Hstack.
  do 4 chain_step Hrun Hpar.
  injection Hrun as <- <- _. apply numpy_array_ok in Hstack as ->.
  cbn [items_of].
  match goal with Hl : res_map _ _ = Ok _ |- _ => apply res_map_length in Hl as -> end.
  exact Hpar.
Qed.

Lemma dense_loaded_lengths (s s' : locals T) (features : ndarray T) (labels : list Z) :
  parallel s ->
  AudioDense.load_data w self fuel sub_directories file_extension_arg s
  = (Ok (Loaded features labels), s') ->
  length (items_of features) = length labels.
Proof.
  intros Hpar Hrun. unfold AudioDense.load_data in Hrun.
  do 2 chain_step Hrun Hpar.
  chain_step Hrun Hpar. chain_step Hrun Hpar. rename Hm1 into Hstack.
  do 2 chain_step Hrun Hpar.
  injection Hrun as <- <- _. apply numpy_array_ok in Hstack as ->.
  cbn [numpy_expand_dims_last items_of]. rewrite length_map.
  match goal with Hl : res_map _ _ = Ok _ |- _ => apply res_map_length in Hl as -> end.
  exact Hpar.
Qed.

Lemma residual_loaded_lengths (s s' : locals T) (features : ndarray T)
    (labels : list Z) :
  parallel s ->
  ResidualModel.load_data w self fuel sub_directories file_extension_arg s
  = (Ok (Loaded features labels), s') ->
  length (items_of features) = length labels.
Proof.
  intros Hpar Hrun. unfold ResidualModel.load_data in Hrun.
  do 4 chain_step Hrun Hpar.
  chain_step Hrun Hpar. chain_step Hrun Hpar. chain_step Hrun Hpar.
  rename Hm2 into Hshape.
  do 4 chain_step Hrun Hpar.
  injection Hrun as <- <- _. cbn [items_of]. rewrite length_map.
  unfold ResidualModel.reshape_rows in Hshape.
  apply res_bind_ok in Hshape as (dims & _ & Hshape).
  destruct (decide _) in Hshape; [|done]. injection Hshape as <-.
  cbn [snd]. rewrite length_map, chunks_length.
  match goal with Hl : res_map _ _ = Ok _ |- _ => apply res_map_length in Hl as -> end.
  exact Hpar.
Qed.
End LoadedLengths.

(** X6: the four loaders keep their two accumulators, the features and
    the labels, equally long through every statement, whether the load
    returns or raises; so whenever a loader returns arrays, there is
    exactly one label per feature tensor. *)
Theorem loaders_keep_features_and_labels_parallel {T} `{Sample T} (w : world T)
    (self : attrs T) (fuel : nat) (sub_directories : string)
    (file_extension_arg : option string) (s : locals T) :
  parallel s ->
  let loaders :=
    [AudioAST.load_dataset w self fuel sub_directories file_extension_arg;
     AudioLSTM.load_data w self fuel sub_directories file_extension_arg;
     AudioDense.load_data w self fuel sub_directories file_extension_arg;
     ResidualModel.load_data w self fuel sub_directories file_extension_arg] in
  Forall (fun load =>
            parallel (load s).2
            /\ forall features labels,
                 (load s).1 = Ok (Loaded features labels) ->
                 length (items_of features) = length labels) loaders.
Proof.
  intros Hpar loaders. subst loaders.
  repeat apply List.Forall_cons; [| | | |apply List.Forall_nil];
    (split; [|intros features labels Hrun]).
  - by apply ast_load_dataset_parallel.
  - destruct (AudioAST.load_dataset _ _ _ _ _ s) as [r s'] eqn:Hload.
    cbn [fst] in Hrun. subst r. by eapply ast_loaded_lengths.
  - by apply lstm_load_data_parallel.
  - destruct (AudioLSTM.load_data _ _ _ _ _ s) as [r s'] eqn:Hload.
    cbn [fst] in Hrun. subst r. by eapply lstm_loaded_lengths.
  - by apply dense_load_data_parallel.
  - destruct (AudioDense.load_data _ _ _ _ _ s) as [r s'] eqn:Hload.
    cbn [fst] in Hrun. subst r. by eapply dense_loaded_lengths.
  - by apply residual_load_data_parallel.
  - destruct (ResidualModel.load_data _ _ _ _ _ s) as [r s'] eqn:Hload.
    cbn [fst] in Hrun. subst r. by eapply residual_loaded_lengths.
Qed.

Lemma loaders_keep_features_and_labels_parallel_witness :
  exists features labels,
    (AudioLSTM.load_data demo_world demo_self 10 "data" None empty_locals).1
    = Ok (Loaded features labels)
    /\ length (items_of features) = length labels
    /\ parallel (AudioDense.load_data demo_world demo_self 10 "data" None
                   empty_locals).2.
Proof.
  pose proof (loaders_keep_features_and_labels_parallel demo_world demo_self 10
                "data" None empty_locals eq_refl) as Hall.
  cbv zeta in Hall.
  apply Forall_cons in Hall as [_ Hall].
  apply Forall_cons in Hall as [[_ Hlstm] Hall].
  apply Forall_cons in Hall as [[Hdense _] _].
  do 2 eexists. split; [vm_compute; reflexivity|].
  split; [apply Hlstm; vm_compute; reflexivity|exact Hdense].
Defined.

(** ** Recordings shorter than one window *)

Section ShortFileFacts.
Context {T : Type} `{Sample T}.
Variable w : world T.
Variable self : attrs T.
Variable samples : list T.

Let L := Z.of_nat (length samples).
Let ws := window_size self.

Hypothesis Hshort : L < ws.

(** The length test of the window loop fails at every start. *)
Lemma short_window_rejected (start : Z) :
  0 <= start ->
  (Z.of_nat (length (py_slice (map Scalar samples) start (start + ws))) =? ws) = false.
Proof.
  intros Hstart. rewrite py_slice_length, length_map by lia. fold L.
  apply Z.eqb_neq. lia.
Qed.

Lemma ast_step_short (label : string) (s : locals T) (start : Z) :
  signal s = array1 samples -> 0 <= start ->
  AudioAST.window_step w self label (start, start + ws) s = (Ok tt, s).
Proof.
  intros Hsig Hstart.
  unfold AudioAST.window_step, bind, gets, lift, ret. cbn [fst snd].
  rewrite Hsig. cbn [array1 numpy_slice numpy_len]. fold ws.
  by rewrite short_window_rejected.
Qed.

Lemma residual_step_short (label : string) (s : locals T) (start : Z) :
  signal s = array1 samples -> 0 <= start ->
  ResidualModel.window_step w self label (start, start + ws) s = (Ok tt, s).
Proof.
  intros Hsig Hstart.
  unfold ResidualModel.window_step, bind, gets, lift, ret. cbn [fst snd].
  rewrite Hsig. cbn [array1 numpy_slice numpy_len]. fold ws.
  by rewrite short_window_rejected.
Qed.

Lemma lstm_step_rejected (label : string) (s : locals T) (start : Z) :
  signal s = array1 samples -> 0 <= start ->
  AudioLSTM.window_step self label (start, start + ws) s = (Ok tt, s).
Proof.
  intros Hsig Hstart.
  unfold AudioLSTM.window_step, bind, gets, lift, ret. cbn [fst snd].
  rewrite Hsig. cbn [array1 numpy_slice numpy_len]. fold ws.
  by rewrite short_window_rejected.
Qed.

Lemma dense_step_rejected (label : string) (s : locals T) (start : Z) :
  signal s = array1 samples -> 0 <= start ->
  AudioDense.window_step self label (start, start + ws) s = (Ok tt, s).
Proof.
  intros Hsig Hstart.
  unfold AudioDense.window_step, bind, gets, lift, ret. cbn [fst snd].
  rewrite Hsig. cbn [array1 numpy_slice numpy_len]. fold ws.
  by rewrite short_window_rejected.
Qed.

(** A window loop whose body rejects every window leaves the locals as
    they are, once the generator is exhausted. *)
Lemma short_file_loop (body : Z * Z -> M (locals T) unit) (fuel : nat) (s : locals T) :
  1 <= ws `div` overlap self ->
  (Z.to_nat (ceil_div L (ws `div` overlap self)) < fuel)%nat ->
  (forall start, 0 <= start -> body (start, start + ws) s = (Ok tt, s)) ->
  for_windows fuel (items_of (array1 samples)) ws (overlap self) windows body s
  = (Ok tt, s).
Proof.
  intros Hstep Hfuel Hbody.
  set (step := ws `div` overlap self) in *.
  pose proof (ceil_div_bounds L step ltac:(lia)) as Hb.
  pose proof (ceil_div_nonneg L step ltac:(lia) ltac:(lia)) as Hn.
  assert (overlap self <> 0) as Hov.
  { intros Hz. subst step. rewrite Hz, Z.div_0_r in Hstep. lia. }
  pose proof (windows_run_from (items_of (array1 samples)) ws (overlap self)
                (Z.to_nat (ceil_div L step)) 0 fuel) as Hrun.
  cbv zeta in Hrun. cbn [items_of array1] in Hrun. rewrite length_map in Hrun.
  fold step L in Hrun.
  rewrite (for_windows_for_each _ _ _ body fuel (AtTest 0)
             (map (fun k => (0 + Z.of_nat k * step, 0 + Z.of_nat k * step + ws))
                  (seq 0 (Z.to_nat (ceil_div L step))))).
  - apply for_each_skip, Forall_fmap, Forall_forall. intros k _. cbn beta.
    apply Hbody. apply Z.add_nonneg_nonneg; [lia|apply Z.mul_nonneg_nonneg; lia].
  - apply Hrun; [done|lia| |lia|done].
    destruct (decide (Z.to_nat (ceil_div L step) = O)); [by right|left; lia].
Qed.
End ShortFileFacts.

(** X7: a recording with fewer samples than [window_size] (an empty one
    included) contributes no feature and no label in any of the four
    loaders, and raises nothing: the per-file step only rebinds
    [signal] to the decoded samples. *)
Theorem short_recording_is_dropped {T} `{Sample T} (w : world T) (self : attrs T)
    (fuel : nat) (file_name label : string) (samples : list T) (s : locals T) :
  librosa_load w file_name (sample_rate self) = Ok samples ->
  label_of_path file_name = Ok label ->
  Z.of_nat (length samples) < window_size self ->
  1 <= window_size self `div` overlap self ->
  (Z.to_nat (ceil_div (Z.of_nat (length samples))
                      (window_size self `div` overlap self)) < fuel)%nat ->
  let s' := Locals (list_spectrogram s) (list_labels s) (array1 samples) (log s) in
  AudioAST.file_step w self fuel file_name s = (Ok tt, s')
  /\ AudioLSTM.file_step w self fuel file_name s = (Ok tt, s')
  /\ AudioDense.file_step w self fuel file_name s = (Ok tt, s')
  /\ ResidualModel.file_step w self fuel file_name s = (Ok tt, s').
Proof.
  intros Hload Hlabel Hshort Hstep Hfuel s'.
  split; [|split; [|split]].
  - unfold AudioAST.file_step, try_except, AudioAST.file_body, bind, lift, gets,
      set_signal. unfold modify. rewrite Hload, Hlabel. cbn [signal]. fold s'.
    rewrite (short_file_loop self samples _ fuel s' Hstep Hfuel); [done|].
    intros start Hstart. by apply (ast_step_short w self samples Hshort).
  - unfold AudioLSTM.file_step, try_except, AudioLSTM.file_body, bind, lift, gets,
      set_signal. unfold modify. rewrite Hload, Hlabel. cbn [signal]. fold s'.
    rewrite (short_file_loop self samples _ fuel s' Hstep Hfuel); [done|].
    intros start Hstart. by apply (lstm_step_rejected self samples Hshort).
  - unfold AudioDense.file_step, bind, lift, gets, set_signal. unfold modify.
    rewrite Hload, Hlabel. cbn [signal]. fold s'.
    rewrite (short_file_loop self samples _ fuel s' Hstep Hfuel); [done|].
    intros start Hstart. by apply (dense_step_rejected self samples Hshort).
  - unfold ResidualModel.file_step, bind, lift, gets, set_signal. unfold modify.
    rewrite Hload, Hlabel. cbn [signal]. fold s'.
    rewrite (short_file_loop self samples _ fuel s' Hstep Hfuel); [done|].
    intros start Hstart. by apply (residual_step_short w self samples Hshort).
Qed.

(** The four-sample recording of the small world against a window of
    eight samples. *)
Lemma short_recording_is_dropped_witness :
  let self := Attrs Q 8000 8 2 2 2 4 1 (80 # 1)%Q (2, 2) "*.wav" in
  let s' := Locals [] [] (array1 [2 # 1; 2 # 1; 2 # 1; 2 # 1]%Q) [] in
  AudioAST.file_step demo_world self 10 "data/1_b/x.wav" empty_locals = (Ok tt, s')
  /\ AudioLSTM.file_step demo_world self 10 "data/1_b/x.wav" empty_locals = (Ok tt, s')
  /\ AudioDense.file_step demo_world self 10 "data/1_b/x.wav" empty_locals = (Ok tt, s')
  /\ ResidualModel.file_step demo_world self 10 "data/1_b/x.wav" empty_locals
     = (Ok tt, s').
Proof.
  intros self s'.
  apply (short_recording_is_dropped demo_world self 10 "data/1_b/x.wav" "1"
           [2 # 1; 2 # 1; 2 # 1; 2 # 1]%Q empty_locals);
    try reflexivity; vm_compute; (discriminate || lia).
Defined.

(** ** The feature tensor of the residual loader *)

Lemma take_add_drop {X} (a b : nat) (l : list X) :
  take (a + b) l = take a l ++ take b (drop a l).
Proof.
  revert l. induction a as [|a IH]; intros [|x l]; cbn [Nat.add take drop app];
    try done.
  - by rewrite take_nil.
  - by rewrite IH.
Qed.

Lemma chunks_lookup {X} (count size : nat) : forall (l : list X) (i : nat),
  (i < count)%nat ->
  chunks count size l !! i = Some (take size (drop (i * size) l)).
Proof.
  induction count as [|c IH]; intros l i Hi; [lia|].
  cbn [chunks]. destruct i as [|i]; [done|].
  cbn [lookup list_lookup]. rewrite IH by lia. rewrite drop_drop. done.
Qed.

Lemma concat_chunks {X} (count size : nat) : forall l : list X,
  concat (chunks count size l) = take (count * size) l.
Proof.
  induction count as [|c IH]; intros l; cbn [chunks concat]; [done|].
  rewrite IH. cbn [Nat.mul]. by rewrite take_add_drop.
Qed.

(** The scalars of a sample of the residual tensor, row by row. *)
Lemma nd_flat_cells {T} (rows : list (list T)) :
  nd_flat (Arr (map (fun row => Arr (map (fun x => Arr [Scalar x]) row)) rows))
  = concat rows.
Proof.
  cbn [nd_flat]. induction rows as [|row rows IH]; [done|].
  cbn [map flat_map concat]. rewrite IH. f_equal.
  cbn [nd_flat]. induction row as [|x row IHr]; [done|].
  cbn [map flat_map nd_flat app]. by rewrite IHr.
Qed.

(** One statement of a chain that returned: its value and the locals it
    left. *)
Ltac chain_inv H :=
  let a := fresh "a" in
  let s1 := fresh "s" in
  let Hm := fresh "Hm" in
  apply bind_ok in H as (a & s1 & Hm & H);
  unfold lift, gets, ret, logging, modify in Hm;
  first [ injection Hm as Hm <-; try (subst a) | idtac ].

(** X8: when [ResidualModel.load_data] returns (with a mel-band count
    and a window-size factor that are not the [-1] of [reshape]), every
    loaded spectrogram has become one sample of [n_mels + 1] rows of
    [window_size_factor] one-element cells: the first [n_mels] rows are
    the values of the stacked spectrograms in row-major order, the last
    row is all zeros. *)
Theorem residual_features_layout {T} `{Sample T} (w : world T) (self : attrs T)
    (fuel : nat) (sub_directories : string) (file_extension_arg : option string)
    (s s' : locals T) (features : ndarray T) (labels : list Z) :
  0 <= number_filters_spectrogram self -> 0 <= window_size_factor self ->
  ResidualModel.load_data w self fuel sub_directories file_extension_arg s
  = (Ok (Loaded features labels), s') ->
  let n_mels := Z.to_nat (number_filters_spectrogram self) in
  let factor := Z.to_nat (window_size_factor self) in
  let flat := flat_map nd_flat (list_spectrogram s') in
  length flat = (length (list_spectrogram s') * n_mels * factor)%nat
  /\ length (items_of features) = length (list_spectrogram s')
  /\ forall i sample,
       items_of features !! i = Some sample ->
       exists rows,
         sample = Arr (map (fun row => Arr (map (fun x => Arr [Scalar x]) row))
                           (rows ++ [replicate factor s_zero]))
         /\ length rows = n_mels
         /\ Forall (fun row => length row = factor) rows
         /\ concat rows = take (n_mels * factor) (drop (i * (n_mels * factor)) flat).
Proof.
  intros Hmels Hfactor Hrun n_mels factor.
  unfold ResidualModel.load_data in Hrun.
  do 4 chain_inv Hrun. chain_inv Hrun. chain_inv Hrun. chain_inv Hrun.
  do 4 chain_inv Hrun.
  injection Hrun as <- <- <-. cbn [list_spectrogram items_of].
  apply numpy_array_ok in Hm1 as ->.
  unfold ResidualModel.reshape_rows in Hm2. cbn [nd_flat] in Hm2.
  set (flat := flat_map nd_flat (list_spectrogram s0)) in *.
  set (count := length (list_spectrogram s0)) in *.
  unfold ResidualModel.reshape_dims in Hm2.
  destruct (Z.ltb_spec (number_filters_spectrogram self) (-1)); [lia|].
  destruct (Z.ltb_spec (window_size_factor self) (-1)); [lia|].
  destruct (Z.eqb_spec (number_filters_spectrogram self) (-1)); [lia|].
  destruct (Z.eqb_spec (window_size_factor self) (-1)); [lia|].
  cbn [orb andb res_bind fst snd] in Hm2. fold n_mels factor in Hm2.
  destruct (decide ((count * n_mels * factor)%nat = length flat)) as [Hsize|];
    [|done].
  injection Hm2 as <-. cbn [fst snd]. cbv zeta.
  split; [done|]. split; [by rewrite !length_map, chunks_length|].
  intros i sample Hi. rewrite !list_lookup_fmap in Hi.
  destruct (chunks count (n_mels * factor) flat !! i) as [piece|] eqn:Hpiece;
    [|done].
  injection Hi as <-.
  assert (i < count)%nat as Hlt.
  { apply lookup_lt_Some in Hpiece. by rewrite chunks_length in Hpiece. }
  rewrite chunks_lookup in Hpiece by done. injection Hpiece as Hpiece.
  assert (length piece = (n_mels * factor)%nat) as Hlen.
  { rewrite <- Hpiece, length_take, length_drop. nia. }
  exists (chunks n_mels factor piece). split; [done|].
  split; [apply chunks_length|]. split.
  - apply Forall_lookup. intros j row Hrow.
    assert (j < n_mels)%nat as Hj.
    { apply lookup_lt_Some in Hrow. by rewrite chunks_length in Hrow. }
    rewrite chunks_lookup in Hrow by done. injection Hrow as <-.
    rewrite length_take, length_drop. nia.
  - rewrite concat_chunks, <- Hpiece, take_take. f_equal. lia.
Qed.

Lemma residual_features_layout_witness :
  exists features s',
    ResidualModel.load_data demo_world_good demo_self_residual 10 "data" None
      empty_locals = (Ok (Loaded features [0; 0; 1]), s')
    /\ length (items_of features) = length (list_spectrogram s')
    /\ length (list_spectrogram s') = 3%nat.
Proof.
  destruct (ResidualModel.load_data demo_world_good demo_self_residual 10 "data"
              None empty_locals) as [r s'] eqn:Hload.
  assert (exists features, r = Ok (Loaded features [0; 0; 1])) as [features ->].
  { apply (f_equal fst) in Hload. cbn [fst] in Hload. rewrite <- Hload.
    eexists. vm_compute. reflexivity. }
  destruct (residual_features_layout demo_world_good demo_self_residual 10 "data"
              None empty_locals s' features [0; 0; 1] ltac:(done) ltac:(done) Hload)
    as (_ & Hlen & _).
  exists features, s'. split; [done|]. split; [exact Hlen|].
  apply (f_equal snd) in Hload. cbn [snd] in Hload.
  rewrite <- Hload. vm_compute. reflexivity.
Defined.

(** ** The shape of the raw-segment tensors *)

Lemma res_map_total {X Y} (f : X -> res Y) (g : X -> Y) (l : list X) :
  (forall x, f x = Ok (g x)) -> res_map f l = Ok (map g l).
Proof.
  intros Hf. induction l as [|x l IH]; cbn [res_map map]; [done|].
  by rewrite Hf, IH.
Qed.

Lemma py_slice_map {X Y} (f : X -> Y) (l : list X) (i j : Z) :
  py_slice (map f l) i j = map f (py_slice l i j).
Proof. unfold py_slice. by rewrite length_map, fmap_take, fmap_drop. Qed.

Lemma shape_of_array1 {T} `{Sample T} (xs : list T) :
  shape_of (array1 xs) = [length xs].
Proof. destruct xs as [|x xs]; cbn; [done|]. by rewrite length_map. Qed.

Lemma rows_bounds (ws lw : Z) :
  1 <= lw -> lw <= ws ->
  (ceil_div ws lw - 1) * lw < ws <= ceil_div ws lw * lw /\ 1 <= ceil_div ws lw.
Proof.
  intros Hlw Hws. pose proof (ceil_div_bounds ws lw ltac:(lia)) as Hb.
  split; [done|]. nia.
Qed.

Section SegmentShape.
Context {T : Type} `{Sample T}.
Variable samples : list T.
Variables ws lw : Z.

Let L := Z.of_nat (length samples).
Let rows := ceil_div ws lw.
Let piece (k : nat) : ndarray T :=
  array1 (py_slice samples (0 + Z.of_nat k * lw) (0 + Z.of_nat k * lw + lw)).

Hypothesis Hlw : 1 <= lw.
Hypothesis Hws : lw <= ws.

(** The segments cut before they are stacked. *)
Lemma segments_cut :
  res_bind (py_range 0 ws lw) (fun starts =>
    res_map (fun i => numpy_slice (array1 samples) i (i + lw)) starts)
  = Ok (map piece (seq 0 (Z.to_nat rows))).
Proof.
  unfold py_range. destruct (Z.eqb_spec lw 0); [lia|].
  destruct (Z.ltb_spec 0 lw); [|lia]. cbn [res_bind].
  rewrite Z.sub_0_r. fold rows.
  rewrite (res_map_total _ (fun i => array1 (py_slice samples i (i + lw)))).
  - by rewrite map_map.
  - intros i. cbn [array1 numpy_slice]. by rewrite py_slice_map.
Qed.

Lemma piece_shape (k : nat) :
  shape_of (piece k)
  = [Z.to_nat (Z.max 0 (Z.min (Z.of_nat k * lw + lw) L - Z.min (Z.of_nat k * lw) L))].
Proof.
  unfold piece. rewrite shape_of_array1. f_equal.
  rewrite <- (Nat2Z.id (length _)). f_equal.
  rewrite py_slice_length by nia. fold L. by rewrite !Z.add_0_l.
Qed.

Lemma piece_shape_full (k : nat) :
  (Z.of_nat k + 1) * lw <= L -> shape_of (piece k) = [Z.to_nat lw].
Proof. intros Hk. rewrite piece_shape. f_equal. nia. Qed.

(** With enough samples every segment is full and the stack is
    rectangular. *)
Lemma segments_stacked :
  rows * lw <= L ->
  exists segments,
    AudioLSTM.signal_segments (array1 samples) ws lw = Ok segments
    /\ shape_of segments = [Z.to_nat rows; Z.to_nat lw].
Proof.
  intros Henough. destruct (rows_bounds ws lw Hlw Hws) as [Hb Hpos]. fold rows in Hb, Hpos.
  unfold AudioLSTM.signal_segments.
  pose proof segments_cut as Hcut.
  destruct (py_range 0 ws lw) as [starts| |]; [|done..]. cbn [res_bind] in *.
  rewrite Hcut. cbn [res_bind].
  destruct (Z.to_nat rows) as [|n] eqn:Hn; [lia|].
  cbn [seq map numpy_array].
  assert (forallb (fun y => bool_decide (shape_of y = shape_of (piece 0)))
                  (map piece (seq 1 n)) = true) as ->.
  { apply forallb_forall. intros y Hy. apply in_map_iff in Hy as (k & <- & Hk).
    apply in_seq in Hk. apply bool_decide_eq_true.
    rewrite !piece_shape_full; [done|nia|nia]. }
  cbn [res_bind]. eexists. split; [done|].
  unfold numpy_abs. rewrite shape_of_nd_map. cbn [shape_of].
  rewrite length_map, length_seq, piece_shape_full by nia. done.
Qed.

(** With a window the factor does not divide and a recording that ends
    inside the last segment, the segments are ragged. *)
Lemma segments_ragged :
  ws <= L -> L < rows * lw ->
  AudioLSTM.signal_segments (array1 samples) ws lw = Raise ValueError.
Proof.
  intros Hfull Hragged. destruct (rows_bounds ws lw Hlw Hws) as [Hb Hpos]. fold rows in Hb, Hpos.
  unfold AudioLSTM.signal_segments.
  pose proof segments_cut as Hcut.
  destruct (py_range 0 ws lw) as [starts| |]; [|done..]. cbn [res_bind] in *.
  rewrite Hcut. cbn [res_bind].
  destruct (Z.to_nat rows) as [|n] eqn:Hn; [lia|].
  destruct n as [|n]; [nia|].
  cbn [seq map numpy_array].
  destruct (forallb _ _) eqn:Hall; [|done]. exfalso.
  rewrite forallb_forall in Hall.
  specialize (Hall (piece (S n))).
  rewrite bool_decide_eq_true in Hall.
  rewrite (piece_shape_full 0), (piece_shape (S n)) in Hall by lia.
  assert (In (piece (S n)) (piece 1 :: map piece (seq 2 n))) as Hin.
  { change (piece 1 :: map piece (seq 2 n)) with (map piece (seq 1 (S n))).
    apply in_map, in_seq. lia. }
  specialize (Hall Hin). injection Hall as Hall.
  assert (rows = Z.of_nat (S n) + 1) as Hrows by lia.
  rewrite Hrows in Hb, Hragged.
  replace (Z.of_nat (S n) + 1 - 1) with (Z.of_nat (S n)) in Hb by lia.
  rewrite Z.mul_add_distr_r, Z.mul_1_l in Hragged.
  set (p := Z.of_nat (S n) * lw) in *. lia.
Qed.
End SegmentShape.

(** X9: in [AudioLSTM] and [AudioDense] the tensor of an accepted
    window has [ceil(window_size / lw)] rows of [lw = window_size //
    window_size_factor] samples, provided the recording holds that many
    rows; this is the shape [(window_size_factor, lw)] exactly when the
    factor divides the window size, and the normalisation keeps it. *)
Theorem raw_segment_tensor_shape {T} `{Sample T} (samples : list T)
    (window_size window_size_factor : Z) :
  1 <= window_size_factor <= window_size ->
  let lw := window_size `div` window_size_factor in
  let rows := ceil_div window_size lw in
  rows * lw <= Z.of_nat (length samples) ->
  (exists segments,
     AudioLSTM.signal_segments (array1 samples) window_size lw = Ok segments
     /\ shape_of segments = [Z.to_nat rows; Z.to_nat lw]
     /\ forall signal_min signal_max,
          shape_of (min_max_normalize segments signal_min signal_max).1
          = [Z.to_nat rows; Z.to_nat lw])
  /\ window_size_factor <= rows
  /\ (window_size `mod` window_size_factor = 0 -> rows = window_size_factor).
Proof.
  intros [Hf Hws] lw rows Henough.
  assert (1 <= lw) as Hlw.
  { subst lw. apply Z.div_le_lower_bound; lia. }
  assert (lw <= window_size) as Hle.
  { subst lw. apply Z.div_le_upper_bound; nia. }
  pose proof (rows_bounds window_size lw Hlw Hle) as [Hb Hpos]. fold rows in Hb, Hpos.
  pose proof (Z.mul_div_le window_size window_size_factor ltac:(lia)) as Hq1.
  pose proof (Z.mul_succ_div_gt window_size window_size_factor ltac:(lia)) as Hq2.
  fold lw in Hq1, Hq2.
  split; [|split].
  - destruct (segments_stacked samples window_size lw Hlw Hle Henough)
      as (segments & Hsegs & Hshape).
    exists segments. split; [done|]. split; [done|].
    intros signal_min signal_max. unfold min_max_normalize.
    destruct (s_neq signal_max signal_min); cbn [fst];
      [|unfold numpy_zeros_like]; by rewrite shape_of_nd_map.
  - nia.
  - intros Hdiv.
    pose proof (Z.div_mod window_size window_size_factor ltac:(lia)) as Hdm.
    fold lw in Hdm. rewrite Hdiv in Hdm. nia.
Qed.

Lemma raw_segment_tensor_shape_witness :
  exists segments,
    AudioLSTM.signal_segments (array1 [1 # 1; -2 # 1; 3 # 1; -4 # 1; 5 # 1; 6 # 1]%Q)
      5 (5 `div` 2) = Ok segments
    /\ shape_of segments = [3; 2]%nat.
Proof.
  destruct (raw_segment_tensor_shape [1 # 1; -2 # 1; 3 # 1; -4 # 1; 5 # 1; 6 # 1]%Q
              5 2 ltac:(lia) ltac:(vm_compute; discriminate))
    as ((segments & Hsegs & Hshape & _) & _).
  exists segments. split; [exact Hsegs|exact Hshape].
Defined.

(** X10: when the factor does not divide the window size and the
    recording, though it holds a full window, ends inside the last
    segment, the segments have unequal lengths and stacking them raises
    [ValueError]: the window is lost in [AudioLSTM], whose per-file
    [try] logs the error, and the load fails in [AudioDense]. *)
Theorem raw_segment_ragged_window {T} `{Sample T} (self : attrs T) (label : string)
    (samples : list T) (s : locals T) :
  1 <= window_size_factor self <= window_size self ->
  let lw := window_size self `div` window_size_factor self in
  window_size self <= Z.of_nat (length samples) ->
  Z.of_nat (length samples) < ceil_div (window_size self) lw * lw ->
  signal s = array1 samples ->
  AudioLSTM.window_step self label (0, 0 + window_size self) s = (Raise ValueError, s)
  /\ (AudioDense.window_step self label (0, 0 + window_size self) s).1
     = Raise ValueError.
Proof.
  intros [Hf Hws] lw Hfull Hragged Hsig.
  assert (1 <= lw) as Hlw.
  { subst lw. apply Z.div_le_lower_bound; lia. }
  assert (lw <= window_size self) as Hle.
  { subst lw. apply Z.div_le_upper_bound; nia. }
  pose proof (segments_ragged samples (window_size self) lw Hlw Hle Hfull Hragged)
    as Hrag.
  pose proof (segments_cut samples (window_size self) lw Hlw) as Hcut.
  set (window := Arr (py_slice (map Scalar samples) 0 (0 + window_size self))).
  assert (numpy_slice (array1 samples) 0 (0 + window_size self) = Ok window)
    as Hslice by done.
  assert (numpy_len window = Ok (window_size self)) as Hlen.
  { cbn [numpy_len window]. rewrite py_slice_length, length_map by lia. f_equal. lia. }
  split.
  - unfold AudioLSTM.window_step, bind, gets, lift. cbn [fst snd].
    rewrite Hsig, Hslice, Hlen, Z.eqb_refl.
    unfold py_floordiv. destruct (Z.eqb_spec (window_size_factor self) 0); [lia|].
    fold lw. by rewrite Hrag.
  - unfold AudioLSTM.signal_segments in Hrag.
    unfold AudioDense.window_step, bind, gets, lift, set_signal. unfold modify.
    cbn [fst snd]. rewrite Hsig, Hslice, Hlen, Z.eqb_refl.
    unfold py_floordiv. destruct (Z.eqb_spec (window_size_factor self) 0); [lia|].
    fold lw.
    destruct (py_range 0 (window_size self) lw) as [starts| |]; [|done..].
    cbn [res_bind] in Hcut, Hrag. rewrite Hcut in *. cbn [res_bind] in Hrag.
    destruct (numpy_array _) as [a| |]; [done| |done].
    by injection Hrag as ->.
Qed.

Lemma raw_segment_ragged_window_witness :
  let self := Attrs Q 8000 5 1 2 2 4 1 (80 # 1)%Q (2, 2) "*.wav" in
  let s := Locals [] [] (array1 [1 # 1; -2 # 1; 3 # 1; -4 # 1; 5 # 1]%Q) [] in
  AudioLSTM.window_step self "0" (0, 0 + 5) s = (Raise ValueError, s).
Proof.
  intros self s.
  apply (raw_segment_ragged_window self "0" [1 # 1; -2 # 1; 3 # 1; -4 # 1; 5 # 1]%Q s);
    try reflexivity; vm_compute; (discriminate || lia || (split; discriminate)).
Defined.

(** ** The range of the normalised tensors *)

Lemma nd_flat_nd_map {T} `{Sample T} (f : T -> T) (a : ndarray T) :
  nd_flat (nd_map f a) = map f (nd_flat a).
Proof.
  induction a as [x|l IH] using ndarray_nested_ind; [done|].
  cbn [nd_map nd_flat]. induction IH as [|a l Ha _ IHl]; [done|].
  cbn [map flat_map]. by rewrite map_app, Ha, IHl.
Qed.

Lemma foldl_Qmin_le (xs : list Q) : forall acc : Q,
  (foldl Qmin acc xs <= acc)%Q
  /\ Forall (fun y => (foldl Qmin acc xs <= y)%Q) xs
  /\ foldl Qmin acc xs ∈ acc :: xs.
Proof.
  induction xs as [|x xs IH]; intros acc; cbn [foldl].
  - split; [apply Qle_refl|]. split; [done|by left].
  - destruct (IH (Qmin acc x)) as (Hacc & Hall & Hin). split; [|split].
    + eapply Qle_trans; [exact Hacc|apply Q.le_min_l].
    + constructor; [|done]. eapply Qle_trans; [exact Hacc|apply Q.le_min_r].
    + apply elem_of_cons in Hin as [Hin|Hin]; [|by do 2 right].
      rewrite Hin. unfold Qmin, GenericMinMax.gmin.
      destruct (acc ?= x)%Q; set_solver.
Qed.

Lemma foldl_Qmax_le (xs : list Q) : forall acc : Q,
  (acc <= foldl Qmax acc xs)%Q
  /\ Forall (fun y => (y <= foldl Qmax acc xs)%Q) xs
  /\ foldl Qmax acc xs ∈ acc :: xs.
Proof.
  induction xs as [|x xs IH]; intros acc; cbn [foldl].
  - split; [apply Qle_refl|]. split; [done|by left].
  - destruct (IH (Qmax acc x)) as (Hacc & Hall & Hin). split; [|split].
    + eapply Qle_trans; [apply Q.le_max_l|exact Hacc].
    + constructor; [|done]. eapply Qle_trans; [apply Q.le_max_r|exact Hacc].
    + apply elem_of_cons in Hin as [Hin|Hin]; [|by do 2 right].
      rewrite Hin. unfold Qmax, GenericMinMax.gmax.
      destruct (acc ?= x)%Q; set_solver.
Qed.



(** ** The trainers *)

(** X12: [AudioDense.train] and [ResidualModel.train] return the same
    outcome and leave the engine in the same state for any two
    train/test splitters that produce the same train/validation pool:
    the test partition is never read. *)
Theorem dense_and_residual_train_ignore_test_partition {T} `{Sample T}
    {Engine Model History Confusion Hyper : Type}
    (lib : collaborators T Engine Model History Confusion Hyper) (w : world T)
    (split1 split2 : splitter T) :
  (forall features labels,
     pool_of (split1 features labels) = pool_of (split2 features labels)) ->
  (forall fuel self dataset_directory number_epochs batch_size number_splits loss
          sample_rate overlap number_classes engine,
     AudioDense.train lib w split1 fuel self dataset_directory number_epochs
       batch_size number_splits loss sample_rate overlap number_classes engine
     = AudioDense.train lib w split2 fuel self dataset_directory number_epochs
         batch_size number_splits loss sample_rate overlap number_classes engine)
  /\ (forall fuel self dataset_directory number_epochs batch_size number_splits loss
          sample_rate overlap number_classes arguments engine,
     ResidualModel.train lib w split1 fuel self dataset_directory number_epochs
       batch_size number_splits loss sample_rate overlap number_classes arguments
       engine
     = ResidualModel.train lib w split2 fuel self dataset_directory number_epochs
         batch_size number_splits loss sample_rate overlap number_classes arguments
         engine).
Proof.
  intros Hpool. split; intros.
  - unfold AudioDense.train, bind at 1 2.
    destruct (lift _ engine) as [[loaded| |] engine']; [|done..].
    destruct loaded as [features labels|]; [|done].
    apply cross_validate_reads_pool, Hpool.
  - unfold ResidualModel.train, bind at 1 2.
    destruct (lift _ engine) as [[loaded| |] engine']; [|done..].
    destruct loaded as [features labels|]; [|done].
    apply cross_validate_reads_pool, Hpool.
Qed.

Lemma dense_and_residual_train_ignore_test_partition_witness :
  AudioDense.train demo_lib demo_world_good split_empty_test 10 demo_trainer "data"
    None None None None None None (Some 2) 0%nat
  = AudioDense.train demo_lib demo_world_good split_full_test 10 demo_trainer "data"
      None None None None None None (Some 2) 0%nat
  /\ ResidualModel.train demo_lib demo_world_good split_empty_test 10 demo_trainer
       "data" None None None None None None (Some 2) demo_residual_arguments 0%nat
     = ResidualModel.train demo_lib demo_world_good split_full_test 10 demo_trainer
         "data" None None None None None None (Some 2) demo_residual_arguments 0%nat.
Proof.
  destruct (dense_and_residual_train_ignore_test_partition demo_lib demo_world_good
              split_empty_test split_full_test) as [Hdense Hresidual].
  - intros features labels. reflexivity.
  - split; [apply Hdense|apply Hresidual].
Defined.

(** The [overlap] argument of [train] has no effect in [AudioAST],
    [AudioLSTM] and [ResidualModel], where [arguments.*_overlap]
    overwrites it before the loader runs; in [AudioDense] it is the
    overlap the loader's windows use, unless it is [0]. *)
Remark train_overlap_argument {T} `{Sample T}
    {Engine Model History Confusion Hyper : Type}
    (lib : collaborators T Engine Model History Confusion Hyper) (w : world T)
    (split : splitter T) (fuel : nat) (self : trainer T Hyper)
    (dataset_directory : string) (number_epochs batch_size number_splits : option Z)
    (loss : option string) (sample_rate number_classes overlap1 overlap2 : option Z) :
  (forall arguments,
     AudioAST.train lib w split fuel self dataset_directory number_epochs batch_size
       number_splits loss sample_rate overlap1 number_classes arguments
     = AudioAST.train lib w split fuel self dataset_directory number_epochs
         batch_size number_splits loss sample_rate overlap2 number_classes arguments)
  /\ (forall arguments,
     AudioLSTM.train lib w split fuel self dataset_directory number_epochs batch_size
       number_splits loss sample_rate overlap1 number_classes arguments
     = AudioLSTM.train lib w split fuel self dataset_directory number_epochs
         batch_size number_splits loss sample_rate overlap2 number_classes arguments)
  /\ (forall arguments,
     ResidualModel.train lib w split fuel self dataset_directory number_epochs
       batch_size number_splits loss sample_rate overlap1 number_classes arguments
     = ResidualModel.train lib w split fuel self dataset_directory number_epochs
         batch_size number_splits loss sample_rate overlap2 number_classes arguments)
  /\ (forall v : Z,
        overlap (loader (AudioDense.configure _ self number_epochs batch_size
                           number_splits loss sample_rate (Some v) number_classes))
        = if v =? 0 then overlap (loader self) else v).
Proof. by repeat split. Qed.

Section ReportFacts.
Context {T : Type} `{Sample T}.
Context {Engine Model History Confusion Hyper : Type}.
Variable lib : collaborators T Engine Model History Confusion Hyper.

Lemma bind_not_ok {S A B} (m : M S A) (k : A -> M S B) (s : S) :
  (forall a s1 b, (k a s1).1 <> Ok b) -> forall b, (bind m k s).1 <> Ok b.
Proof.
  intros Hk b. unfold bind. destruct (m s) as [[a|e|] s1]; [apply Hk|done|done].
Qed.

(** Without a class count the report is never built. *)
Lemma cross_validate_needs_class_count (split : splitter T) (self : trainer T Hyper)
    (number_patches : option nat) (features : list (ndarray T)) (labels : list Z)
    (engine : Engine) (r : report T History) :
  number_classes self = None ->
  (cross_validate lib split self number_patches features labels engine).1 <> Ok r.
Proof.
  intros Hnone. unfold cross_validate.
  apply bind_not_ok. intros [[[ftv fte] ltv] lte] e1.
  apply bind_not_ok. intros pool e2.
  apply bind_not_ok. intros folds e3.
  apply bind_not_ok. intros acc e4.
  apply bind_not_ok. intros predicted e5.
  apply bind_not_ok. intros ground_truth e6.
  apply bind_not_ok. intros matrix e7.
  rewrite Hnone. intros b. done.
Qed.

(** What the fold loop appends: one entry per fold, the ground truth of
    a fold being the labels at its validation indexes. *)
Lemma fold_loop_appends (self : trainer T Hyper) (number_patches : option nat)
    (features_train_val : list (ndarray T)) (labels_train_val : list Z)
    (folds : list (list nat * list nat)) :
  forall acc acc' engine engine',
    fold_loop _ _ _ _ _ lib self number_patches features_train_val labels_train_val
      folds acc engine = (Ok acc', engine') ->
    exists truths,
      res_map (fun indexes => numpy_take labels_train_val indexes.2) folds = Ok truths
      /\ real_labels_list acc' = real_labels_list acc ++ truths
      /\ length (metrics_list acc') = (length (metrics_list acc) + length folds)%nat
      /\ length (probabilities_list acc')
         = (length (probabilities_list acc) + length folds)%nat.
Proof.
  induction folds as [|indexes rest IH]; intros acc acc' engine engine' Hrun;
    cbn [fold_loop] in Hrun.
  - injection Hrun as <- <-. exists []. rewrite app_nil_r, !Nat.add_0_r. done.
  - apply bind_ok in Hrun as (acc1 & engine1 & Hstep & Hrun).
    destruct (IH _ _ _ _ Hrun) as (truths & Htruths & Hreal & Hmetrics & Hprobs).
    unfold fold_step in Hstep.
    apply bind_ok in Hstep as (features_train & ? & _ & Hstep).
    apply bind_ok in Hstep as (features_val & ? & _ & Hstep).
    apply bind_ok in Hstep as (labels_train & ? & _ & Hstep).
    apply bind_ok in Hstep as (labels_val & ? & Hval & Hstep).
    apply bind_ok in Hstep as (balanced & ? & _ & Hstep).
    apply bind_ok in Hstep as (model & ? & _ & Hstep).
    apply bind_ok in Hstep as ([] & ? & _ & Hstep).
    apply bind_ok in Hstep as (fitted & ? & _ & Hstep).
    apply bind_ok in Hstep as (model_predictions & ? & _ & Hstep).
    apply bind_ok in Hstep as (scored & ? & _ & Hstep).
    injection Hstep as <- _. injection Hval as Hval _.
    cbn [real_labels_list metrics_list probabilities_list] in *.
    exists (labels_val :: truths). cbn [res_map]. rewrite Hval, Htruths.
    cbn [res_bind]. split; [done|].
    rewrite Hreal, Hmetrics, Hprobs, <- !app_assoc, !length_app. cbn [length app].
    split; [done|]. split; lia.
Qed.
End ReportFacts.

(** X13: [AudioLSTM.train] stores its [number_classes] argument as it
    came, without the fall-back to the value of the constructor that
    the other three trainers have; called with [number_classes=None] it
    never returns its report, whatever the data and the libraries do. *)
Theorem lstm_train_needs_number_classes {T} `{Sample T}
    {Engine Model History Confusion Hyper : Type}
    (lib : collaborators T Engine Model History Confusion Hyper) (w : world T)
    (split : splitter T) (fuel : nat) (self : trainer T Hyper)
    (dataset_directory : string) (number_epochs batch_size number_splits : option Z)
    (loss : option string) (sample_rate overlap : option Z)
    (arguments : AudioLSTM.arguments T Hyper) (engine : Engine)
    (r : report T History) :
  (AudioLSTM.train lib w split fuel self dataset_directory number_epochs batch_size
     number_splits loss sample_rate overlap None arguments engine).1 <> Ok r
  /\ (forall arguments,
        number_classes (AudioAST.configure _ self number_epochs batch_size
                          number_splits loss sample_rate overlap None arguments)
        = number_classes self)
  /\ number_classes (AudioDense.configure _ self number_epochs batch_size
                       number_splits loss sample_rate overlap None)
     = number_classes self
  /\ (forall arguments,
        number_classes (ResidualModel.configure _ self number_epochs batch_size
                          number_splits loss sample_rate overlap None arguments)
        = number_classes self).
Proof.
  split; [|by repeat split].
  unfold AudioLSTM.train. apply bind_not_ok. intros loaded engine1 b.
  destruct loaded as [features labels|]; [|done].
  by apply cross_validate_needs_class_count.
Qed.

(** X14: pointed at a directory that does not exist, no trainer builds a
    model: the engine is left untouched.  [AudioAST.train] fails with
    [AttributeError] and [AudioLSTM.train] with [TypeError], both on the
    [(None, None)] their loaders return; [AudioDense.train] and
    [ResidualModel.train] let the error of [os.listdir] through. *)
Theorem train_on_missing_directory {T} `{Sample T}
    {Engine Model History Confusion Hyper : Type}
    (lib : collaborators T Engine Model History Confusion Hyper) (w : world T)
    (split : splitter T) (fuel : nat) (self : trainer T Hyper)
    (dataset_directory : string) (number_epochs batch_size number_splits : option Z)
    (loss : option string) (sample_rate overlap number_classes : option Z)
    (engine : Engine) (e : exn) :
  os_path_exists w dataset_directory = false ->
  os_listdir w dataset_directory = Raise e ->
  (forall arguments,
     AudioAST.train lib w split fuel self dataset_directory number_epochs batch_size
       number_splits loss sample_rate overlap number_classes arguments engine
     = (Raise AttributeError, engine))
  /\ (forall arguments,
     AudioLSTM.train lib w split fuel self dataset_directory number_epochs batch_size
       number_splits loss sample_rate overlap number_classes arguments engine
     = (Raise TypeError, engine))
  /\ AudioDense.train lib w split fuel self dataset_directory number_epochs batch_size
       number_splits loss sample_rate overlap number_classes engine
     = (Raise e, engine)
  /\ (forall arguments,
     ResidualModel.train lib w split fuel self dataset_directory number_epochs
       batch_size number_splits loss sample_rate overlap number_classes arguments
       engine
     = (Raise e, engine)).
Proof.
  intros Hmissing Hlist. split; [|split; [|split]].
  - intros arguments. unfold AudioAST.train, AudioAST.load_dataset.
    unfold bind, logging, modify, ret, lift. cbn [fst snd].
    by rewrite Hmissing.
  - intros arguments. unfold AudioLSTM.train, AudioLSTM.load_data.
    unfold bind, logging, modify, ret, lift. cbn [fst snd].
    by rewrite Hmissing.
  - unfold AudioDense.train, AudioDense.load_data.
    unfold bind, lift. cbn [fst snd]. by rewrite Hlist.
  - intros arguments. unfold ResidualModel.train, ResidualModel.load_data.
    unfold bind, logging, modify, lift. cbn [fst snd]. by rewrite Hlist.
Qed.

Lemma train_on_missing_directory_witness :
  AudioAST.train demo_lib demo_world split_full_test 10 demo_trainer "nowhere"
    None None None None None None (Some 2) demo_ast_arguments 0%nat
  = (Raise AttributeError, 0%nat)
  /\ AudioLSTM.train demo_lib demo_world split_full_test 10 demo_trainer "nowhere"
       None None None None None None (Some 2) demo_lstm_arguments 0%nat
     = (Raise TypeError, 0%nat)
  /\ AudioDense.train demo_lib demo_world split_full_test 10 demo_trainer "nowhere"
       None None None None None None (Some 2) 0%nat
     = (Raise FileNotFoundError, 0%nat).
Proof.
  destruct (train_on_missing_directory demo_lib demo_world split_full_test 10
              demo_trainer "nowhere" None None None None None None (Some 2) 0%nat
              FileNotFoundError eq_refl eq_refl) as (Hast & Hlstm & Hdense & _).
  split; [apply Hast|]. split; [apply Hlstm|exact Hdense].
Defined.

(** X15: when the cross-validation returns a report, the fold list was
    not empty, and the ground truth of the report is, fold after fold,
    the labels at the validation indexes of the pool that
    [balance_classes] resampled from the train/validation part: the
    folds are cut after the resampling, from the balanced pool. *)
Theorem report_ground_truth {T} `{Sample T}
    {Engine Model History Confusion Hyper : Type}
    (lib : collaborators T Engine Model History Confusion Hyper)
    (split : splitter T) (self : trainer T Hyper) (number_patches : option nat)
    (features : list (ndarray T)) (labels : list Z) (engine engine' : Engine)
    (r : report T History) :
  cross_validate lib split self number_patches features labels engine
  = (Ok r, engine') ->
  exists features_train_val features_test labels_train_val labels_test pool folds
         truths,
    split features labels
    = Ok (features_train_val, features_test, labels_train_val, labels_test)
    /\ balance_classes (randint _ _ _ _ _ lib) features_train_val labels_train_val
       = Ok pool
    /\ stratified_k_fold _ _ _ _ _ lib (number_splits self) pool.1 pool.2 = Ok folds
    /\ folds <> []
    /\ res_map (fun indexes => numpy_take pool.2 indexes.2) folds = Ok truths
    /\ (probabilities_predicted _ _ r).2 = concat truths
    /\ (probabilities_predicted _ _ r).1.1 = model_name self.
Proof.
  intros Hrun. unfold cross_validate in Hrun.
  apply bind_ok in Hrun as ([[[ftv fte] ltv] lte] & ? & Hsplit & Hrun).
  apply bind_ok in Hrun as (pool & ? & Hpool & Hrun).
  apply bind_ok in Hrun as (folds & ? & Hfolds & Hrun).
  apply bind_ok in Hrun as (acc & ? & Hloop & Hrun).
  apply bind_ok in Hrun as (predicted & ? & _ & Hrun).
  apply bind_ok in Hrun as (ground_truth & ? & Htruth & Hrun).
  apply bind_ok in Hrun as (matrix & ? & _ & Hrun).
  apply bind_ok in Hrun as (names & ? & _ & Hrun).
  destruct (history_model acc) as [history_|]; [|done].
  injection Hrun as <- _.
  injection Hsplit as Hsplit _. injection Hpool as Hpool _.
  injection Hfolds as Hfolds _. injection Htruth as Htruth _.
  apply fold_loop_appends in Hloop as (truths & Htruths & Hreal & _ & _).
  cbn [real_labels_list app] in Hreal. rewrite Hreal in Htruth.
  exists ftv, fte, ltv, lte, pool, folds, truths.
  split; [done|]. split; [done|]. split; [done|]. split.
  { intros ->. cbn in Htruths. injection Htruths as <-. done. }
  split; [done|]. cbn [probabilities_predicted fst snd].
  split; [|done]. unfold numpy_concatenate in Htruth.
  destruct truths; [done|]. by injection Htruth as <-.
Qed.

Lemma report_ground_truth_witness :
  exists r engine' truths,
    cross_validate demo_lib split_full_test demo_trainer None
      [Scalar (1 # 1); Scalar (2 # 1); Scalar (3 # 1)]%Q [0; 1; 1] 0%nat
    = (Ok r, engine')
    /\ (probabilities_predicted _ _ r).2 = concat truths
    /\ concat truths = [0; 0; 1; 1].
Proof.
  destruct (cross_validate demo_lib split_full_test demo_trainer None
              [Scalar (1 # 1); Scalar (2 # 1); Scalar (3 # 1)]%Q [0; 1; 1] 0%nat)
    as [[r| |] engine'] eqn:Hrun; [|vm_compute in Hrun; discriminate..].
  destruct (report_ground_truth demo_lib split_full_test demo_trainer None _ _ _ _ _
              Hrun) as (? & ? & ? & ? & ? & ? & truths & _ & _ & _ & _ & _ & Hgt & _).
  exists r, engine', truths. split; [done|]. split; [exact Hgt|].
  rewrite <- Hgt. vm_compute in Hrun. injection Hrun as <- _. reflexivity.
Defined.

(** ** Edge cases of the balancer and of the patch splitter *)

(** X16: [balance_classes] raises [ValueError] on an empty label array
    (the [max] of no counts), whatever the features; with labels present
    and a feature array of another length, the first boolean mask does
    not fit the features and it raises [IndexError]. *)
Theorem balance_classes_rejects {F} (randint : nat -> nat -> list nat)
    (features : list F) (labels : list Z) :
  labels <> [] -> length features <> length labels ->
  balance_classes randint features labels = Raise IndexError
  /\ balance_classes randint features [] = Raise ValueError.
Proof.
  intros Hne Hlen. split; [|done]. unfold balance_classes.
  destruct (py_max_ok (map (fun c => count_true (eq_mask labels c))
                           (numpy_unique labels))) as (m & -> & _ & _).
  { destruct labels as [|x l]; [done|]. intros Hmap. apply map_eq_nil in Hmap.
    assert (x ∈ numpy_unique (x :: l)) as Hx by (apply numpy_unique_elem; set_solver).
    rewrite Hmap in Hx. by apply elem_of_nil in Hx. }
  cbn [res_bind].
  destruct (numpy_unique labels) as [|c classes] eqn:Hu.
  { destruct labels as [|x l]; [done|].
    assert (x ∈ numpy_unique (x :: l)) as Hx by (apply numpy_unique_elem; set_solver).
    rewrite Hu in Hx. by apply elem_of_nil in Hx. }
  cbn [res_map]. unfold mask_select at 1. rewrite eq_mask_length.
  destruct (decide (length features = length labels)); done.
Qed.

Lemma balance_classes_rejects_witness :
  balance_classes cyclic_draw [10; 11; 12] [0; 1] = Raise IndexError
  /\ balance_classes cyclic_draw [10; 11; 12] [] = Raise ValueError.
Proof.
  apply (balance_classes_rejects cyclic_draw [10; 11; 12] [0; 1]); discriminate.
Defined.

(** X17: for every positive patch size [(p0, p1)], a spectrogram of
    shape [(h, w)] is cut into [ceil(h/p0) * ceil(w/p1)] patches of
    shape [(p0, p1)], patch row by patch row; each cell of each patch is
    the original value at that position, or zero where the position lies
    in the padding: no value is lost or moved. *)
Theorem split_spectrogram_into_patches_any_size {T} (zero : T) (p0 p1 : nat)
    (sp : array2 T) :
  (0 < p0)%nat -> (0 < p1)%nat -> well_shaped sp ->
  let nx := Z.to_nat (ceil_div (Z.of_nat (shape sp).1) (Z.of_nat p0)) in
  let ny := Z.to_nat (ceil_div (Z.of_nat (shape sp).2) (Z.of_nat p1)) in
  exists patches,
    split_spectrogram_into_patches zero (Z.of_nat p0, Z.of_nat p1) sp = Ok patches
    /\ length patches = (nx * ny)%nat
    /\ Forall (fun P => length P = p0 /\ Forall (fun r => length r = p1) P) patches
    /\ forall a b i j,
         (a < nx)%nat -> (b < ny)%nat -> (i < p0)%nat -> (j < p1)%nat ->
         patches !! (a * ny + b)%nat ≫= (fun P => cell P i j)
         = Some (default zero (cell (cells sp) (a * p0 + i) (b * p1 + j))).
Proof.
  intros Hp0 Hp1 Hwf nx ny.
  exact (split_spectrogram_into_patches_ok zero p0 p1 Hp0 Hp1 sp Hwf).
Qed.

Lemma split_spectrogram_into_patches_any_size_witness :
  exists patches,
    split_spectrogram_into_patches 0 (5, 7) spectrogram_17_31 = Ok patches
    /\ length patches = 20%nat
    /\ patches !! 19%nat ≫= (fun P => cell P 1 2) = Some 1
    /\ patches !! 19%nat ≫= (fun P => cell P 2 2) = Some 0.
Proof.
  assert (well_shaped spectrogram_17_31) as Hwf.
  { split; [reflexivity|]. cbn. repeat constructor. }
  destruct (split_spectrogram_into_patches_any_size 0 5 7 spectrogram_17_31
              ltac:(lia) ltac:(lia) Hwf) as (patches & Hsplit & Hlen & _ & Hcells).
  exists patches. split; [exact Hsplit|]. split; [exact Hlen|]. split.
  - apply (Hcells 3 4 1 2)%nat; vm_compute; lia.
  - apply (Hcells 3 4 2 2)%nat; vm_compute; lia.
Defined.

(** X18: a patch size with a zero component makes
    [split_spectrogram_into_patches] raise [ZeroDivisionError] from the
    padding arithmetic, before anything is padded or cut. *)
Theorem split_spectrogram_into_patches_zero_size {T} (zero : T) (patch_size : Z * Z)
    (sp : array2 T) :
  patch_size.1 = 0 \/ patch_size.2 = 0 ->
  padded_spectrogram zero patch_size sp = Raise ZeroDivisionError
  /\ split_spectrogram_into_patches zero patch_size sp = Raise ZeroDivisionError.
Proof.
  intros Hzero.
  assert (padded_spectrogram zero patch_size sp = Raise ZeroDivisionError) as Hpad.
  { unfold padded_spectrogram, py_mod.
    destruct (Z.eqb_spec patch_size.1 0) as [|Hne]; [done|].
    destruct Hzero as [? | ->]; done. }
  split; [done|]. unfold split_spectrogram_into_patches. by rewrite Hpad.
Qed.

Lemma split_spectrogram_into_patches_zero_size_witness :
  padded_spectrogram 0 (16, 0) spectrogram_17_31 = Raise ZeroDivisionError
  /\ split_spectrogram_into_patches 0 (16, 0) spectrogram_17_31
     = Raise ZeroDivisionError.
Proof.
  apply (split_spectrogram_into_patches_zero_size 0 (16, 0) spectrogram_17_31).
  by right.
Defined.

(** ** The tensor of a transformer window *)

Lemma decibel_rescale_well_shaped {T} `{Sample T} (scale : T) (a : array2 T) :
  well_shaped a -> well_shaped (decibel_rescale scale a).
Proof.
  intros [Hlen Hrows]. split; cbn [decibel_rescale shape cells].
  - by rewrite length_map.
  - apply Forall_fmap. eapply Forall_impl; [exact Hrows|].
    intros r Hr. cbn. by rewrite length_map.
Qed.

Lemma shape_of_patches {T} `{Sample T} (patches : list (list (list T))) (p0 p1 : nat) :
  patches <> [] -> (0 < p0)%nat ->
  Forall (fun P => length P = p0 /\ Forall (fun r => length r = p1) P) patches ->
  shape_of (Arr (map array_of_rows patches)) = [length patches; p0; p1].
Proof.
  intros Hne Hp0 Hall. destruct patches as [|P rest]; [done|].
  apply Forall_cons in Hall as [[HP Hrows] _].
  destruct P as [|r rs]; [cbn in HP; lia|].
  apply Forall_cons in Hrows as [Hr _].
  cbn [map shape_of length array_of_rows]. rewrite !length_map.
  fold (array1 r). rewrite shape_of_array1. cbn [length] in HP. by rewrite HP, Hr.
Qed.

(** X19: for an accepted window whose decibel spectrogram has shape
    [(h, w)] with [h, w >= 1], [AudioAST.load_dataset] appends one tensor
    of shape [(ceil(h/p0) * ceil(w/p1), p0, p1)] for the patch size
    [(p0, p1)], and the window's label, and changes nothing else. *)
Theorem ast_window_tensor_shape {T} `{Sample T} (w : world T) (self : attrs T)
    (label : string) (se : Z * Z) (s : locals T) (window : ndarray T)
    (spectrogram decibels : array2 T) (p0 p1 : nat) :
  numpy_slice (signal s) se.1 se.2 = Ok window ->
  numpy_len window = Ok (window_size self) ->
  melspectrogram w window (number_filters_spectrogram self) (sample_rate self)
    (window_size_fft self) (hop_length self) = Ok spectrogram ->
  power_to_db w spectrogram = Ok decibels ->
  well_shaped decibels ->
  (0 < (shape decibels).1)%nat -> (0 < (shape decibels).2)%nat ->
  patch_size self = (Z.of_nat p0, Z.of_nat p1) -> (0 < p0)%nat -> (0 < p1)%nat ->
  let nx := Z.to_nat (ceil_div (Z.of_nat (shape decibels).1) (Z.of_nat p0)) in
  let ny := Z.to_nat (ceil_div (Z.of_nat (shape decibels).2) (Z.of_nat p1)) in
  exists tensor,
    AudioAST.window_step w self label se s
    = (Ok tt, Locals (list_spectrogram s ++ [tensor]) (list_labels s ++ [label])
                     (signal s) (log s))
    /\ shape_of tensor = [(nx * ny)%nat; p0; p1].
Proof.
  intros Hslice Hlen Hmel Hdb Hwf Hh Hw Hpatch Hp0 Hp1 nx ny.
  pose proof (decibel_rescale_well_shaped (decibel_scale_factor self) decibels Hwf)
    as Hwf'.
  destruct (split_spectrogram_into_patches_ok s_zero p0 p1 Hp0 Hp1 _ Hwf')
    as (patches & Hsplit & Hcount & Hshape & _).
  cbn [decibel_rescale shape] in Hcount. fold nx ny in Hcount.
  assert (1 <= nx * ny)%nat as Hpos.
  { pose proof (ceil_div_bounds (Z.of_nat (shape decibels).1) (Z.of_nat p0)
                  ltac:(lia)).
    pose proof (ceil_div_bounds (Z.of_nat (shape decibels).2) (Z.of_nat p1)
                  ltac:(lia)).
    assert (1 <= nx)%nat by (subst nx; nia).
    assert (1 <= ny)%nat by (subst ny; nia). nia. }
  exists (Arr (map array_of_rows patches)). split.
  - unfold AudioAST.window_step, bind, gets, lift, ret, append_sample.
    unfold modify. rewrite Hslice, Hlen, Z.eqb_refl, Hmel, Hdb, Hpatch, Hsplit. done.
  - rewrite (shape_of_patches patches p0 p1); [by rewrite Hcount| |done|done].
    intros ->. cbn in Hcount. lia.
Qed.

Lemma ast_window_tensor_shape_witness :
  exists tensor,
    AudioAST.window_step demo_world demo_self "0" (0, 4)
      (Locals [] [] (array1 [1 # 1; -2 # 1; 3 # 1; -4 # 1; 5 # 1; 6 # 1]%Q) [])
    = (Ok tt, Locals [tensor] ["0"]
                     (array1 [1 # 1; -2 # 1; 3 # 1; -4 # 1; 5 # 1; 6 # 1]%Q) [])
    /\ shape_of tensor = [2; 2; 2]%nat.
Proof.
  assert (well_shaped (Array2 (1, 4)%nat [[1 # 1; -2 # 1; 3 # 1; -4 # 1]]%Q)) as Hwf.
  { split; [reflexivity|]. cbn. repeat constructor. }
  apply (ast_window_tensor_shape demo_world demo_self "0" (0, 4)
           (Locals [] [] (array1 [1 # 1; -2 # 1; 3 # 1; -4 # 1; 5 # 1; 6 # 1]%Q) [])
           (array1 [1 # 1; -2 # 1; 3 # 1; -4 # 1]%Q)
           (Array2 (1, 4)%nat [[1 # 1; -2 # 1; 3 # 1; -4 # 1]]%Q)
           (Array2 (1, 4)%nat [[1 # 1; -2 # 1; 3 # 1; -4 # 1]]%Q) 2 2);
    try reflexivity; try exact Hwf; cbn; lia.
Defined.

(** ** What a raw-segment window contributes *)

Lemma full_window_length {T} `{Sample T} (samples : list T) (ws start : Z) :
  1 <= ws -> 0 <= start -> start + ws <= Z.of_nat (length samples) ->
  exists window,
    numpy_slice (array1 samples) start (start + ws) = Ok window
    /\ numpy_len window = Ok ws.
Proof.
  intros Hws Hstart Hfull. eexists. split; [done|]. cbn [numpy_len].
  rewrite py_slice_length, length_map by lia. f_equal. lia.
Qed.

(** X20: in [AudioLSTM] and [AudioDense] the body of the window loop
    does the same on every full window of a recording, wherever the
    window starts: the segments are cut from the start of [signal], not
    from the window, so all the tensors of one recording are equal. *)
Theorem raw_segment_window_position_ignored {T} `{Sample T} (self : attrs T)
    (label : string) (samples : list T) (s : locals T) (start1 start2 : Z) :
  signal s = array1 samples ->
  1 <= window_size self ->
  0 <= start1 -> start1 + window_size self <= Z.of_nat (length samples) ->
  0 <= start2 -> start2 + window_size self <= Z.of_nat (length samples) ->
  AudioLSTM.window_step self label (start1, start1 + window_size self) s
  = AudioLSTM.window_step self label (start2, start2 + window_size self) s
  /\ AudioDense.window_step self label (start1, start1 + window_size self) s
     = AudioDense.window_step self label (start2, start2 + window_size self) s.
Proof.
  intros Hsig Hws H1 Hfull1 H2 Hfull2.
  destruct (full_window_length samples (window_size self) start1 Hws H1 Hfull1)
    as (window1 & Hslice1 & Hlen1).
  destruct (full_window_length samples (window_size self) start2 Hws H2 Hfull2)
    as (window2 & Hslice2 & Hlen2).
  split.
  - unfold AudioLSTM.window_step, bind, gets, lift. cbn [fst snd].
    by rewrite Hsig, Hslice1, Hslice2, Hlen1, Hlen2.
  - unfold AudioDense.window_step, bind, gets, lift. cbn [fst snd].
    by rewrite Hsig, Hslice1, Hslice2, Hlen1, Hlen2.
Qed.

Lemma raw_segment_window_position_ignored_witness :
  let s := Locals [] [] (array1 [1 # 1; -2 # 1; 3 # 1; -4 # 1; 5 # 1; 6 # 1]%Q) [] in
  AudioLSTM.window_step demo_self "0" (0, 0 + 4) s
  = AudioLSTM.window_step demo_self "0" (2, 2 + 4) s
  /\ AudioDense.window_step demo_self "0" (0, 0 + 4) s
     = AudioDense.window_step demo_self "0" (2, 2 + 4) s.
Proof.
  intros s.
  apply (raw_segment_window_position_ignored demo_self "0"
           [1 # 1; -2 # 1; 3 # 1; -4 # 1; 5 # 1; 6 # 1]%Q s 0 2);
    try reflexivity; cbn; lia.
Defined.

(** X21: a [window_size_factor] of zero makes every full window raise
    [ZeroDivisionError] in both raw-segment loaders, and a factor above
    the window size makes the segment length zero and [range] raise
    [ValueError]; [AudioLSTM] leaves the locals as they were. *)
Theorem raw_segment_bad_factor {T} `{Sample T} (self : attrs T) (label : string)
    (samples : list T) (s : locals T) (start : Z) :
  signal s = array1 samples ->
  1 <= window_size self ->
  0 <= start -> start + window_size self <= Z.of_nat (length samples) ->
  window_size_factor self = 0 \/ window_size self < window_size_factor self ->
  let e := if window_size_factor self =? 0 then ZeroDivisionError else ValueError in
  AudioLSTM.window_step self label (start, start + window_size self) s = (Raise e, s)
  /\ AudioDense.window_step self label (start, start + window_size self) s
     = (Raise e, s).
Proof.
  intros Hsig Hws Hstart Hfull Hbad e.
  destruct (full_window_length samples (window_size self) start Hws Hstart Hfull)
    as (window & Hslice & Hlen).
  assert (py_floordiv (window_size self) (window_size_factor self)
          = if window_size_factor self =? 0 then Raise ZeroDivisionError else Ok 0)
    as Hdiv.
  { unfold py_floordiv. destruct (Z.eqb_spec (window_size_factor self) 0); [done|].
    f_equal. apply Z.div_small. lia. }
  split.
  - unfold AudioLSTM.window_step, bind, gets, lift. cbn [fst snd].
    rewrite Hsig, Hslice, Hlen, Z.eqb_refl, Hdiv. subst e.
    by destruct (window_size_factor self =? 0).
  - unfold AudioDense.window_step, bind, gets, lift. cbn [fst snd].
    rewrite Hsig, Hslice, Hlen, Z.eqb_refl, Hdiv. subst e.
    by destruct (window_size_factor self =? 0).
Qed.

Lemma raw_segment_bad_factor_witness :
  let self := Attrs Q 8000 4 2 5 2 4 1 (80 # 1)%Q (2, 2) "*.wav" in
  let s := Locals [] [] (array1 [1 # 1; -2 # 1; 3 # 1; -4 # 1; 5 # 1; 6 # 1]%Q) [] in
  AudioLSTM.window_step self "0" (2, 2 + 4) s = (Raise ValueError, s)
  /\ AudioDense.window_step self "0" (2, 2 + 4) s = (Raise ValueError, s).
Proof.
  intros self s.
  apply (raw_segment_bad_factor self "0"
           [1 # 1; -2 # 1; 3 # 1; -4 # 1; 5 # 1; 6 # 1]%Q s 2);
    try reflexivity; cbn; lia.
Defined.

(** ** Features per recording in the spectrogram loaders *)

Section CountingLoops.
Context {T : Type} `{Sample T}.
Variable self : attrs T.
Variable label : string.
Variable samples : list T.
Variable body : Z * Z -> M (locals T) unit.

Let L := Z.of_nat (length samples).
Let ws := window_size self.
Let step := window_size self `div` overlap self.
Let pair (k : nat) : Z * Z := (0 + Z.of_nat k * step, 0 + Z.of_nat k * step + ws).

Hypothesis Hstep : 1 <= step.

(** The loop body appends one sample on a full window and nothing on a
    short one. *)
Hypothesis Hbody_full : forall (s : locals T) (start : Z),
  signal s = array1 samples -> 0 <= start -> start + ws <= L ->
  exists x,
    body (start, start + ws) s
    = (Ok tt, Locals (list_spectrogram s ++ [x]) (list_labels s ++ [label])
                     (signal s) (log s)).
Hypothesis Hbody_short : forall (s : locals T) (start : Z),
  signal s = array1 samples -> 0 <= start -> L < start + ws ->
  body (start, start + ws) s = (Ok tt, s).

Lemma counting_loop_full (m : nat) : forall (a : nat) (s : locals T),
  signal s = array1 samples ->
  (Z.of_nat (a + m) - 1) * step + ws <= L \/ m = O ->
  exists xs,
    length xs = m
    /\ for_each (map pair (seq a m)) body s
       = (Ok tt, Locals (list_spectrogram s ++ xs) (list_labels s ++ replicate m label)
                        (signal s) (log s)).
Proof.
  induction m as [|m IH]; intros a s Hsig Hfull.
  - exists []. split; [done|]. cbn. rewrite !app_nil_r. by destruct s.
  - destruct Hfull as [Hfull|?]; [|done].
    cbn [seq map for_each]. unfold bind. unfold pair at 1.
    destruct (Hbody_full s (0 + Z.of_nat a * step)) as (x & ->); [done|nia|nia|].
    destruct (IH (S a) (Locals (list_spectrogram s ++ [x]) (list_labels s ++ [label])
                               (signal s) (log s))) as (xs & Hlen & ->); [done| |].
    + destruct m; [by right|left].
      replace (S a + S m)%nat with (a + S (S m))%nat by lia. done.
    + exists (x :: xs). split; [cbn; lia|].
      cbn [signal list_spectrogram list_labels log replicate].
      by rewrite <- !app_assoc.
Qed.

Lemma counting_loop_short (ks : list nat) (s : locals T) :
  signal s = array1 samples ->
  Forall (fun k => L < Z.of_nat k * step + ws) ks ->
  for_each (map pair ks) body s = (Ok tt, s).
Proof.
  intros Hsig Hshort. apply for_each_skip, Forall_fmap.
  eapply Forall_impl; [exact Hshort|]. intros k Hk. cbn beta. unfold pair.
  apply Hbody_short; [done| |cbn beta in Hk; lia].
  apply Z.add_nonneg_nonneg; [lia|apply Z.mul_nonneg_nonneg; lia].
Qed.

(** The whole window loop over a recording with at least one full
    window. *)
Lemma counting_loop (fuel : nat) (s : locals T) :
  signal s = array1 samples -> 1 <= ws -> ws <= L ->
  (Z.to_nat (ceil_div L step) < fuel)%nat ->
  let full := S (Z.to_nat ((L - ws) `div` step)) in
  exists xs,
    length xs = full
    /\ for_windows fuel (items_of (array1 samples)) ws (overlap self) windows body s
       = (Ok tt, Locals (list_spectrogram s ++ xs)
                        (list_labels s ++ replicate full label) (signal s) (log s)).
Proof.
  intros Hsig Hws Hfull Hfuel full.
  pose proof (ceil_div_bounds L step ltac:(lia)) as Hb.
  pose proof (ceil_div_nonneg L step ltac:(lia) ltac:(lia)) as Hn.
  pose proof (Z.mul_div_le (L - ws) step ltac:(lia)) as Hq1.
  pose proof (Z.mul_succ_div_gt (L - ws) step ltac:(lia)) as Hq2.
  pose proof (Z.div_pos (L - ws) step ltac:(lia) ltac:(lia)) as Hq0.
  assert (overlap self <> 0) as Hov.
  { intros Hz. subst step. rewrite Hz, Z.div_0_r in Hstep. lia. }
  set (n := Z.to_nat (ceil_div L step)) in *.
  assert (full <= n)%nat as Hle by (subst full n; nia).
  pose proof (windows_run_from (items_of (array1 samples)) ws (overlap self)
                n 0 fuel) as Hrun.
  cbv zeta in Hrun. cbn [items_of array1] in Hrun. rewrite length_map in Hrun.
  change (ws `div` overlap self) with step in Hrun. fold L in Hrun.
  rewrite (for_windows_for_each _ _ _ body fuel (AtTest 0) (map pair (seq 0 n))).
  2:{ apply Hrun; [done|lia| |lia|done].
      destruct (decide (n = O)); [by right|left; lia]. }
  replace n with (full + (n - full))%nat by lia.
  rewrite seq_app, map_app.
  destruct (counting_loop_full full 0 s Hsig) as (xs & Hlen & Hloop).
  { left. subst full. nia. }
  exists xs. split; [done|].
  rewrite (for_each_app _ _ _ _ _ Hloop).
  rewrite counting_loop_short; [done|done|].
  apply Forall_forall. intros k Hk%list_elem_of_In%in_seq. subst full. nia.
Qed.
End CountingLoops.

(** X22: for a recording of [L >= window_size] samples, with a step
    [window_size // overlap >= 1], the residual loader and the
    transformer loader append exactly [floor((L - window_size) / step) +
    1] features, one per full window, each with the label of the file,
    provided the spectrogram routines answer for every window (and, for
    the transformer, with a rectangular array and positive patch
    sizes); the trailing short windows add nothing. *)
Theorem spectrogram_features_per_recording {T} `{Sample T} (w : world T)
    (self : attrs T) (fuel : nat) (file_name label : string) (samples : list T)
    (p0 p1 : nat) (s : locals T) :
  let L := Z.of_nat (length samples) in
  let step := window_size self `div` overlap self in
  let full := S (Z.to_nat ((L - window_size self) `div` step)) in
  librosa_load w file_name (sample_rate self) = Ok samples ->
  label_of_path file_name = Ok label ->
  1 <= window_size self -> window_size self <= L -> 1 <= step ->
  (Z.to_nat (ceil_div L step) < fuel)%nat ->
  (forall window, exists spectrogram decibels,
      melspectrogram w window (number_filters_spectrogram self) (sample_rate self)
        (window_size_fft self) (hop_length self) = Ok spectrogram
      /\ power_to_db w spectrogram = Ok decibels /\ well_shaped decibels) ->
  patch_size self = (Z.of_nat p0, Z.of_nat p1) -> (0 < p0)%nat -> (0 < p1)%nat ->
  (exists xs,
     length xs = full
     /\ ResidualModel.file_step w self fuel file_name s
        = (Ok tt, Locals (list_spectrogram s ++ xs)
                         (list_labels s ++ replicate full label)
                         (array1 samples) (log s)))
  /\ (exists xs,
        length xs = full
        /\ AudioAST.file_step w self fuel file_name s
           = (Ok tt, Locals (list_spectrogram s ++ xs)
                            (list_labels s ++ replicate full label)
                            (array1 samples) (log s))).
Proof.
  intros L step full Hload Hlabel Hws Hfull Hstep Hfuel Hlib Hpatch Hp0 Hp1.
  set (s1 := Locals (list_spectrogram s) (list_labels s) (array1 samples) (log s)).
  assert (forall start, 0 <= start ->
            numpy_len (Arr (py_slice (map Scalar samples) start
                                     (start + window_size self)))
            = Ok (Z.max 0 (Z.min (start + window_size self) L - Z.min start L)))
    as Hlen.
  { intros start Hstart. cbn [numpy_len].
    by rewrite py_slice_length, length_map by lia. }
  split.
  - destruct (counting_loop self label samples
                (ResidualModel.window_step w self label) Hstep) with (fuel := fuel)
                (s := s1) as (xs & Hxs & Hloop); try done.
    + intros s2 start Hsig Hstart Hin.
      destruct (Hlib (Arr (py_slice (map Scalar samples) start
                                    (start + window_size self))))
        as (spectrogram & decibels & Hmel & Hdb & _).
      eexists. unfold ResidualModel.window_step, bind, gets, lift, ret, append_sample.
      unfold modify. cbn [fst snd]. rewrite Hsig. cbn [array1 numpy_slice].
      rewrite Hlen by done. fold L.
      replace (Z.max 0 (Z.min (start + window_size self) L - Z.min start L))
        with (window_size self) by lia.
      rewrite Z.eqb_refl, Hmel, Hdb. by rewrite Hsig.
    + intros s2 start Hsig Hstart Hout.
      unfold ResidualModel.window_step, bind, gets, lift, ret. cbn [fst snd].
      rewrite Hsig. cbn [array1 numpy_slice]. rewrite Hlen by done. fold L.
      destruct (Z.eqb_spec (Z.max 0 (Z.min (start + window_size self) L
                                      - Z.min start L)) (window_size self));
        [lia|done].
    + exists xs. split; [done|].
      unfold ResidualModel.file_step, bind, lift, gets, set_signal. unfold modify.
      rewrite Hload, Hlabel. cbn [signal]. fold s1. by rewrite Hloop.
  - destruct (counting_loop self label samples
                (AudioAST.window_step w self label) Hstep) with (fuel := fuel)
                (s := s1) as (xs & Hxs & Hloop); try done.
    + intros s2 start Hsig Hstart Hin.
      destruct (Hlib (Arr (py_slice (map Scalar samples) start
                                    (start + window_size self))))
        as (spectrogram & decibels & Hmel & Hdb & Hwf).
      pose proof (decibel_rescale_well_shaped (decibel_scale_factor self) decibels Hwf)
        as Hwf'.
      destruct (split_spectrogram_into_patches_ok s_zero p0 p1 Hp0 Hp1 _ Hwf')
        as (patches & Hsplit & _).
      eexists. unfold AudioAST.window_step, bind, gets, lift, ret, append_sample.
      unfold modify. cbn [fst snd]. rewrite Hsig. cbn [array1 numpy_slice].
      rewrite Hlen by done. fold L.
      replace (Z.max 0 (Z.min (start + window_size self) L - Z.min start L))
        with (window_size self) by lia.
      rewrite Z.eqb_refl, Hmel, Hdb, Hpatch, Hsplit. by rewrite Hsig.
    + intros s2 start Hsig Hstart Hout.
      unfold AudioAST.window_step, bind, gets, lift, ret. cbn [fst snd].
      rewrite Hsig. cbn [array1 numpy_slice]. rewrite Hlen by done. fold L.
      destruct (Z.eqb_spec (Z.max 0 (Z.min (start + window_size self) L
                                      - Z.min start L)) (window_size self));
        [lia|done].
    + exists xs. split; [done|].
      unfold AudioAST.file_step, try_except, AudioAST.file_body, bind, lift, gets,
        set_signal. unfold modify.
      rewrite Hload, Hlabel. cbn [signal]. fold s1. by rewrite Hloop.
Qed.

Lemma spectrogram_features_per_recording_witness :
  (exists xs,
     length xs = 2%nat
     /\ ResidualModel.file_step demo_world_good demo_self 10 "data/0_a/good.wav"
          empty_locals
        = (Ok tt, Locals xs ["0"; "0"]
                         (array1 [1 # 1; -2 # 1; 3 # 1; -4 # 1; 5 # 1; 6 # 1]%Q) []))
  /\ (exists xs,
        length xs = 2%nat
        /\ AudioAST.file_step demo_world_good demo_self 10 "data/0_a/good.wav"
             empty_locals
           = (Ok tt, Locals xs ["0"; "0"]
                            (array1 [1 # 1; -2 # 1; 3 # 1; -4 # 1; 5 # 1; 6 # 1]%Q) [])).
Proof.
  apply (spectrogram_features_per_recording demo_world_good demo_self 10
           "data/0_a/good.wav" "0" [1 # 1; -2 # 1; 3 # 1; -4 # 1; 5 # 1; 6 # 1]%Q
           2 2 empty_locals); try reflexivity; try (vm_compute; lia);
    try (vm_compute; discriminate).
  intros window. do 2 eexists. split; [reflexivity|]. split; [reflexivity|].
  split; [reflexivity|]. cbn. by constructor.
Defined.

(** ** More on the generator, the file loops and the balancer *)

(** X23: whatever the parameters and however long the iteration runs,
    every pair [windows] yields starts inside the data and has
    [end = start + window_size]; the end may lie beyond the data, which
    is how the short trailing windows arise. *)
Theorem windows_pairs_inside {A} (data : list A) (window_size overlap : Z)
    (fuel : nat) (st : gen_state) :
  Forall (fun p => p.1 < Z.of_nat (length data) /\ p.2 = p.1 + window_size)
         (windows_run data window_size overlap fuel st).1.
Proof.
  revert st. induction fuel as [|f IH]; intros st; cbn [windows_run]; [by constructor|].
  assert (forall start,
            match windows_test data window_size start with
            | Yield v _ => v.1 < Z.of_nat (length data) /\ v.2 = v.1 + window_size
            | _ => True
            end) as Htest.
  { intros start. unfold windows_test.
    by destruct (Z.ltb_spec start (Z.of_nat (length data))). }
  assert (match windows_next data window_size overlap st with
          | Yield v _ => v.1 < Z.of_nat (length data) /\ v.2 = v.1 + window_size
          | _ => True
          end) as Hnext.
  { destruct st as [start|start|]; cbn [windows_next]; [apply Htest| |done].
    destruct (py_floordiv window_size overlap); [apply Htest|done|done]. }
  destruct (windows_next data window_size overlap st) as [v st'| |e];
    [|by constructor..].
  specialize (IH st').
  destruct (windows_run data window_size overlap f st') as [vs end_].
  cbn [fst] in *. by constructor.
Qed.

Lemma for_each_never_raises {S X} (l : list X) (body : X -> M S unit) :
  (forall x s e, (body x s).1 <> Raise e) ->
  forall s e, (for_each l body s).1 <> Raise e.
Proof.
  intros Hbody. induction l as [|x l IH]; intros s e; cbn [for_each]; [done|].
  unfold bind. specialize (Hbody x s).
  destruct (body x s) as [[[]|e'|] s1]; [apply IH|by destruct (Hbody e')|done].
Qed.

(** X24: in the transformer and the LSTM loaders nothing raised while a
    file is processed leaves the loops: the loop over the class
    directories and their files never raises, whatever the decoder, the
    spectrogram routines or the window arithmetic do. *)
Theorem guarded_file_loops_never_raise {T} `{Sample T} (w : world T) (self : attrs T)
    (fuel : nat) (extension : string) (list_class_path : list string)
    (s : locals T) (e : exn) :
  (for_each list_class_path (fun sub_directory =>
     logging INFO ("Processing class directory: " +:+ sub_directory +:+ "...") ;;;
     for_each (glob_glob w (os_path_join sub_directory extension))
              (AudioAST.file_step w self fuel)) s).1 <> Raise e
  /\ (for_each list_class_path (fun sub_directory =>
        logging INFO ("Processing class directory: " +:+ sub_directory +:+ "...") ;;;
        for_each (glob_glob w (os_path_join sub_directory extension))
                 (AudioLSTM.file_step w self fuel)) s).1 <> Raise e.
Proof.
  split; apply for_each_never_raises; intros sub_directory s1 e1;
    unfold bind, logging, modify; apply for_each_never_raises;
    intros file_name s2 e2; apply try_logged_never_raises.
Qed.

Section BalanceTwice.
Context {F : Type}.
Variable randint : nat -> nat -> list nat.
Hypothesis randint_spec : forall n k,
  (0 < n)%nat ->
  length (randint n k) = k /\ Forall (fun i => (i < n)%nat) (randint n k).

(** The labels of a balanced dataset: one run of [m >= 1] copies per
    distinct input label, [m] being the largest class count, and as many
    rows as labels. *)
Lemma balanced_labels (features : list F) (labels : list Z) :
  labels <> [] -> length features = length labels ->
  exists bf m,
    balance_classes randint features labels
    = Ok (bf, concat (map (replicate m) (numpy_unique labels)))
    /\ (exists c, c ∈ numpy_unique labels /\ m = count_true (eq_mask labels c))
    /\ (0 < m)%nat
    /\ length bf = length (concat (map (replicate m) (numpy_unique labels))).
Proof.
  intros Hne Hlen.
  destruct (balance_classes_blocks randint randint_spec features labels Hne Hlen)
    as (m & blocks & Hrun & Hmax & Hblocks).
  set (U := numpy_unique labels) in *.
  assert (map snd (class_counts labels) <> []) as Hcne.
  { intros Hnil. by rewrite Hnil in Hmax. }
  destruct (py_max_ok _ Hcne) as (m' & Hmax' & Hin & _).
  rewrite Hmax in Hmax'. injection Hmax' as <-.
  apply list_elem_of_In, in_map_iff in Hin. destruct Hin as ([c n] & Hn & Hin).
  cbn in Hn. subst n. unfold class_counts in Hin. apply in_map_iff in Hin.
  destruct Hin as (c' & [= <- Hm] & Hc'). apply list_elem_of_In in Hc'.
  exists (concat blocks), m. split; [done|]. split; [by exists c'|]. split.
  { rewrite <- Hm. by apply count_eq_mask_pos, numpy_unique_elem. }
  rewrite (concat_length_blocks m), (concat_length_blocks m).
  - by rewrite length_map, (Forall2_length _ _ _ Hblocks).
  - apply Forall_forall. intros b Hb. apply list_elem_of_In, in_map_iff in Hb.
    destruct Hb as (d & <- & _). apply length_replicate.
  - eapply Forall2_Forall_r; [exact Hblocks|]. apply Forall_forall.
    intros d _ b [Hb _]. done.
Qed.
End BalanceTwice.

(** X25: balancing is idempotent on the labels: on a non-empty dataset,
    with an index draw that stays inside each class, balancing the
    output of [balance_classes] once more returns the same label array
    and as many rows. *)
Theorem balance_classes_twice {F} (randint : nat -> nat -> list nat)
    (features : list F) (labels : list Z) :
  (forall n k, (0 < n)%nat ->
     length (randint n k) = k /\ Forall (fun i => (i < n)%nat) (randint n k)) ->
  labels <> [] -> length features = length labels ->
  exists bf bl bf',
    balance_classes randint features labels = Ok (bf, bl)
    /\ balance_classes randint bf bl = Ok (bf', bl)
    /\ length bf' = length bf.
Proof.
  intros Hdraw Hne Hlen.
  destruct (balanced_labels randint Hdraw features labels Hne Hlen)
    as (bf & m & Hrun & (c & Hc & _) & Hm & Hbf).
  set (U := numpy_unique labels) in *.
  set (bl := concat (map (replicate m) U)) in *.
  assert (NoDup U) as Hnodup by apply strictly_sorted_NoDup, numpy_unique_sorted.
  assert (numpy_unique bl = U) as Hunique.
  { apply numpy_unique_of_sorted; [apply numpy_unique_sorted|].
    intros x. unfold bl. rewrite elem_of_concat_replicate. split; [tauto|].
    intros Hx. split; [done|lia]. }
  assert (bl <> []) as Hblne.
  { intros Hnil. assert (c ∈ bl) as Hin.
    { unfold bl. apply elem_of_concat_replicate. split; [done|lia]. }
    rewrite Hnil in Hin. by apply elem_of_nil in Hin. }
  destruct (balanced_labels randint Hdraw bf bl Hblne Hbf)
    as (bf' & m' & Hrun' & (c' & Hc' & Hm'eq) & _ & Hbf').
  rewrite Hunique in Hrun', Hbf', Hc'.
  assert (m' = m) as ->.
  { rewrite Hm'eq. unfold bl. rewrite count_eq_mask_concat_replicate by done.
    by rewrite decide_True. }
  exists bf, bl, bf'. split; [done|]. split; [done|]. by rewrite Hbf', Hbf.
Qed.

Lemma balance_classes_twice_witness :
  exists bf bl bf',
    balance_classes cyclic_draw [10; 11; 12; 13; 14] [1; 0; 1; 1; 0] = Ok (bf, bl)
    /\ balance_classes cyclic_draw bf bl = Ok (bf', bl)
    /\ length bf' = length bf.
Proof.
  apply (balance_classes_twice cyclic_draw [10; 11; 12; 13; 14] [1; 0; 1; 1; 0]
           cyclic_draw_spec); [discriminate|reflexivity].
Defined.
